(** * The OpenZWave driver engine (cpp/src/Driver.cpp)

    A shallow embedding of the parts of [Driver] that frame the serial
    link, run the one-message transaction protocol, schedule the five send
    queues, redirect traffic of sleeping nodes, reconcile the node table
    with the controller's init data, load the snapshot and keep the poll
    list, followed by the properties of the driver specification.

    Bytes and the other fixed-width integers of the source are [Z] with the
    wrap-around written out; [m_nodes] is a finite map from node id to node;
    every [m_controller->Write] is appended to [m_written] and every
    [QueueNotification] to [m_notifications].  Logging is left out, except
    where an argument of a log line has no defined value: a function that
    evaluates one returns [None]. *)

From Stdlib Require Import ZArith List Bool String Lia Sorted.
From stdpp Require Import base option list gmap strings.

Local Open Scope Z_scope.

(** ** Constants of Driver.cpp *)

Definition c_configVersion : Z := 3.
Definition MAX_TRIES : Z := 3.
Definition RETRY_TIMEOUT : Z := 2000.

(** The single-byte signals of the serial framing. *)
Definition SOF : Z := 0x01.
Definition ACK : Z := 0x06.
Definition NAK : Z := 0x15.
Definition CAN : Z := 0x18.

(** Frame types, the first payload byte handed to [ProcessMsg]. *)
Definition REQUEST : Z := 0x00.
Definition RESPONSE : Z := 0x01.

Definition NUM_NODE_BITFIELD_BYTES : Z := 29.

(** Casts to the unsigned types of the source. *)
Definition uint8 (x : Z) : Z := x mod 256.
Definition uint32 (x : Z) : Z := x mod 4294967296.

(** ** Data model *)

(** Modelled from the spec: the enumeration Node::QueryStage of Node.h,
    which is not part of the sources; the stages are those the
    specification lists, in its order. *)
Inductive QueryStage : Type :=
  | QueryStage_ProtocolInfo
  | QueryStage_NodeInfo
  | QueryStage_ManufacturerSpecific
  | QueryStage_Versions
  | QueryStage_Instances
  | QueryStage_Static
  | QueryStage_Associations
  | QueryStage_Neighbours
  | QueryStage_Session
  | QueryStage_Dynamic
  | QueryStage_Configuration
  | QueryStage_Complete.

#[global] Instance QueryStage_eq_dec : EqDecision QueryStage.
Proof. solve_decision. Defined.

(** What the driver reads from and writes to a [Msg]. *)
Record Msg : Type := mkMsg {
  m_targetNodeId : Z;
  m_callbackId : Z;
  msg_expectedReply : Z;
  msg_expectedCommandClassId : Z;
  m_sendAttempts : Z;
  m_buffer : list Z
}.

Definition SetSendAttempts (n : Z) (m : Msg) : Msg :=
  mkMsg (m_targetNodeId m) (m_callbackId m) (msg_expectedReply m)
        (msg_expectedCommandClassId m) (uint8 n) (m_buffer m).

(** [MsgQueueItem]: a message to send, or the marker that a query stage of
    a node is complete. *)
Inductive MsgQueueItem : Type :=
  | MsgQueueCmd_SendMsg (m_msg : Msg)
  | MsgQueueCmd_QueryStageComplete (m_nodeId : Z) (m_queryStage : QueryStage).

(** The five scheduler queues, in the order of the wait objects of
    [DriverThreadProc]. *)
Inductive MsgQueue : Type :=
  | MsgQueue_Command
  | MsgQueue_WakeUp
  | MsgQueue_Send
  | MsgQueue_Query
  | MsgQueue_Poll.

#[global] Instance MsgQueue_eq_dec : EqDecision MsgQueue.
Proof. solve_decision. Defined.

Definition all_queues : list MsgQueue :=
  [MsgQueue_Command; MsgQueue_WakeUp; MsgQueue_Send; MsgQueue_Query; MsgQueue_Poll].

(** An array indexed by [MsgQueue]. *)
Record Queues (A : Type) : Type := mkQueues {
  qCommand : A; qWakeUp : A; qSend : A; qQuery : A; qPoll : A
}.
Arguments mkQueues {A}.
Arguments qCommand {A}.
Arguments qWakeUp {A}.
Arguments qSend {A}.
Arguments qQuery {A}.
Arguments qPoll {A}.

Definition qget {A} (q : MsgQueue) (qs : Queues A) : A :=
  match q with
  | MsgQueue_Command => qCommand qs
  | MsgQueue_WakeUp => qWakeUp qs
  | MsgQueue_Send => qSend qs
  | MsgQueue_Query => qQuery qs
  | MsgQueue_Poll => qPoll qs
  end.

Definition qset {A} (q : MsgQueue) (v : A) (qs : Queues A) : Queues A :=
  match q with
  | MsgQueue_Command => mkQueues v (qWakeUp qs) (qSend qs) (qQuery qs) (qPoll qs)
  | MsgQueue_WakeUp => mkQueues (qCommand qs) v (qSend qs) (qQuery qs) (qPoll qs)
  | MsgQueue_Send => mkQueues (qCommand qs) (qWakeUp qs) v (qQuery qs) (qPoll qs)
  | MsgQueue_Query => mkQueues (qCommand qs) (qWakeUp qs) (qSend qs) v (qPoll qs)
  | MsgQueue_Poll => mkQueues (qCommand qs) (qWakeUp qs) (qSend qs) (qQuery qs) v
  end.

(** The WakeUp command class of a node, as far as the driver uses it.
    [m_pendingQueue] is the node's sleeping buffer. *)
Record WakeUp : Type := mkWakeUp {
  m_awake : bool;
  m_pendingQueue : list MsgQueueItem
}.

Definition SetAwake (b : bool) (w : WakeUp) : WakeUp :=
  mkWakeUp b (m_pendingQueue w).

(** Modelled from the spec: WakeUp::QueueMsg of WakeUp.cpp, which is not
    part of the sources; the item is appended to the node's sleeping
    buffer. *)
Definition QueueMsg (item : MsgQueueItem) (w : WakeUp) : WakeUp :=
  mkWakeUp (m_awake w) (m_pendingQueue w ++ [item]).

(** A node, as far as the driver uses it.  [m_wakeUp] is the result of
    [GetCommandClass( WakeUp::StaticGetCommandClassId() )]. *)
Record Node : Type := mkNode {
  node_nodeId : Z;
  m_listening : bool;
  m_frequentListening : bool;
  m_isController : bool;
  node_queryStage : QueryStage;
  node_writeCnt : Z;
  m_wakeUp : option WakeUp
}.

Definition IsListeningDevice (n : Node) : bool := m_listening n.
Definition IsFrequentListeningDevice (n : Node) : bool := m_frequentListening n.
Definition IsController (n : Node) : bool := m_isController n.
Definition GetCurrentQueryStage (n : Node) : QueryStage := node_queryStage n.

Definition set_m_wakeUp (w : option WakeUp) (n : Node) : Node :=
  mkNode (node_nodeId n) (m_listening n) (m_frequentListening n)
         (m_isController n) (node_queryStage n) (node_writeCnt n) w.

Definition set_node_writeCnt (c : Z) (n : Node) : Node :=
  mkNode (node_nodeId n) (m_listening n) (m_frequentListening n)
         (m_isController n) (node_queryStage n) c (m_wakeUp n).

(** Modelled from the spec: Node::SetQueryStage of Node.cpp, which is not
    part of the sources; the node's stage becomes the given one. *)
Definition SetQueryStage (s : QueryStage) (n : Node) : Node :=
  mkNode (node_nodeId n) (m_listening n) (m_frequentListening n)
         (m_isController n) s (node_writeCnt n) (m_wakeUp n).

(** Notifications queued for the watchers. *)
Inductive NotificationType : Type :=
  | Type_NodeNew
  | Type_NodeAdded
  | Type_NodeRemoved
  | Type_AwakeNodesQueried
  | Type_AllNodesQueried
  | Type_MsgComplete
  | Type_DriverReady.

#[global] Instance NotificationType_eq_dec : EqDecision NotificationType.
Proof. solve_decision. Defined.

Record Notification : Type := mkNotification {
  n_type : NotificationType;
  n_homeId : Z;
  n_nodeId : Z
}.

#[global] Instance Notification_eq_dec : EqDecision Notification.
Proof. solve_decision. Defined.

(** The cumulative counters of the driver (uint32 each). *)
Record Statistics : Type := mkStatistics {
  m_SOFCnt : Z;
  m_ACKWaiting : Z;
  m_readAborts : Z;
  m_badChecksum : Z;
  m_readCnt : Z;
  m_writeCnt : Z;
  m_CANCnt : Z;
  m_NAKCnt : Z;
  m_ACKCnt : Z;
  m_OOFCnt : Z;
  m_dropped : Z;
  m_retries : Z;
  m_controllerReadCnt : Z;
  m_controllerWriteCnt : Z
}.

Definition set_m_SOFCnt (v : Z) (s : Statistics) : Statistics :=
  mkStatistics v (m_ACKWaiting s) (m_readAborts s) (m_badChecksum s)
  (m_readCnt s) (m_writeCnt s) (m_CANCnt s) (m_NAKCnt s) (m_ACKCnt s)
  (m_OOFCnt s) (m_dropped s) (m_retries s) (m_controllerReadCnt s)
  (m_controllerWriteCnt s).

Definition set_m_ACKWaiting (v : Z) (s : Statistics) : Statistics :=
  mkStatistics (m_SOFCnt s) v (m_readAborts s) (m_badChecksum s) (m_readCnt s)
  (m_writeCnt s) (m_CANCnt s) (m_NAKCnt s) (m_ACKCnt s) (m_OOFCnt s)
  (m_dropped s) (m_retries s) (m_controllerReadCnt s) (m_controllerWriteCnt
  s).

Definition set_m_readAborts (v : Z) (s : Statistics) : Statistics :=
  mkStatistics (m_SOFCnt s) (m_ACKWaiting s) v (m_badChecksum s) (m_readCnt s)
  (m_writeCnt s) (m_CANCnt s) (m_NAKCnt s) (m_ACKCnt s) (m_OOFCnt s)
  (m_dropped s) (m_retries s) (m_controllerReadCnt s) (m_controllerWriteCnt
  s).

Definition set_m_badChecksum (v : Z) (s : Statistics) : Statistics :=
  mkStatistics (m_SOFCnt s) (m_ACKWaiting s) (m_readAborts s) v (m_readCnt s)
  (m_writeCnt s) (m_CANCnt s) (m_NAKCnt s) (m_ACKCnt s) (m_OOFCnt s)
  (m_dropped s) (m_retries s) (m_controllerReadCnt s) (m_controllerWriteCnt
  s).

Definition set_m_readCnt (v : Z) (s : Statistics) : Statistics :=
  mkStatistics (m_SOFCnt s) (m_ACKWaiting s) (m_readAborts s) (m_badChecksum
  s) v (m_writeCnt s) (m_CANCnt s) (m_NAKCnt s) (m_ACKCnt s) (m_OOFCnt s)
  (m_dropped s) (m_retries s) (m_controllerReadCnt s) (m_controllerWriteCnt
  s).

Definition set_m_writeCnt (v : Z) (s : Statistics) : Statistics :=
  mkStatistics (m_SOFCnt s) (m_ACKWaiting s) (m_readAborts s) (m_badChecksum
  s) (m_readCnt s) v (m_CANCnt s) (m_NAKCnt s) (m_ACKCnt s) (m_OOFCnt s)
  (m_dropped s) (m_retries s) (m_controllerReadCnt s) (m_controllerWriteCnt
  s).

Definition set_m_CANCnt (v : Z) (s : Statistics) : Statistics :=
  mkStatistics (m_SOFCnt s) (m_ACKWaiting s) (m_readAborts s) (m_badChecksum
  s) (m_readCnt s) (m_writeCnt s) v (m_NAKCnt s) (m_ACKCnt s) (m_OOFCnt s)
  (m_dropped s) (m_retries s) (m_controllerReadCnt s) (m_controllerWriteCnt
  s).

Definition set_m_NAKCnt (v : Z) (s : Statistics) : Statistics :=
  mkStatistics (m_SOFCnt s) (m_ACKWaiting s) (m_readAborts s) (m_badChecksum
  s) (m_readCnt s) (m_writeCnt s) (m_CANCnt s) v (m_ACKCnt s) (m_OOFCnt s)
  (m_dropped s) (m_retries s) (m_controllerReadCnt s) (m_controllerWriteCnt
  s).

Definition set_m_ACKCnt (v : Z) (s : Statistics) : Statistics :=
  mkStatistics (m_SOFCnt s) (m_ACKWaiting s) (m_readAborts s) (m_badChecksum
  s) (m_readCnt s) (m_writeCnt s) (m_CANCnt s) (m_NAKCnt s) v (m_OOFCnt s)
  (m_dropped s) (m_retries s) (m_controllerReadCnt s) (m_controllerWriteCnt
  s).

Definition set_m_OOFCnt (v : Z) (s : Statistics) : Statistics :=
  mkStatistics (m_SOFCnt s) (m_ACKWaiting s) (m_readAborts s) (m_badChecksum
  s) (m_readCnt s) (m_writeCnt s) (m_CANCnt s) (m_NAKCnt s) (m_ACKCnt s) v
  (m_dropped s) (m_retries s) (m_controllerReadCnt s) (m_controllerWriteCnt
  s).

Definition set_m_controllerWriteCnt (v : Z) (s : Statistics) : Statistics :=
  mkStatistics (m_SOFCnt s) (m_ACKWaiting s) (m_readAborts s) (m_badChecksum
  s) (m_readCnt s) (m_writeCnt s) (m_CANCnt s) (m_NAKCnt s) (m_ACKCnt s)
  (m_OOFCnt s) (m_dropped s) (m_retries s) (m_controllerReadCnt s) v.

(** The members of class Driver that the modelled functions read or write. *)
Record Driver : Type := mkDriver {
  m_init : bool;
  m_awakeNodesQueried : bool;
  m_allNodesQueried : bool;
  m_notifytransactions : bool;
  m_homeId : Z;  (* uint32 *)
  m_nodeId : Z;  (* uint8 *)
  m_initVersion : Z;  (* uint8 *)
  m_initCaps : Z;  (* uint8 *)
  m_controllerCaps : Z;  (* uint8 *)
  m_pollInterval : Z;  (* int32 *)
  m_nodes : gmap Z Node;  (* Node* m_nodes[256], NULL = absent *)
  m_virtualNeighbors : list Z;  (* uint8 m_virtualNeighbors[NUM_NODE_BITFIELD_BYTES] *)
  m_currentMsg : option Msg;
  m_waitingForAck : bool;
  m_expectedCallbackId : Z;  (* uint8 *)
  m_expectedReply : Z;  (* uint8 *)
  m_expectedCommandClassId : Z;  (* uint8 *)
  m_expectedNodeId : Z;  (* uint8 *)
  m_msgQueue : Queues (list MsgQueueItem);  (* list<MsgQueueItem> m_msgQueue[MsgQueue_Count] *)
  m_queueEvent : Queues bool;  (* Event* m_queueEvent[MsgQueue_Count], true = set *)
  m_stats : Statistics;
  m_written : list (list Z);  (* every m_controller->Write, oldest first *)
  m_notifications : list Notification  (* list<Notification*> m_notifications *)
}.

Definition set_m_init (v : bool) (d : Driver) : Driver :=
  mkDriver v (m_awakeNodesQueried d) (m_allNodesQueried d)
  (m_notifytransactions d) (m_homeId d) (m_nodeId d) (m_initVersion d)
  (m_initCaps d) (m_controllerCaps d) (m_pollInterval d) (m_nodes d)
  (m_virtualNeighbors d) (m_currentMsg d) (m_waitingForAck d)
  (m_expectedCallbackId d) (m_expectedReply d) (m_expectedCommandClassId d)
  (m_expectedNodeId d) (m_msgQueue d) (m_queueEvent d) (m_stats d) (m_written
  d) (m_notifications d).

Definition set_m_awakeNodesQueried (v : bool) (d : Driver) : Driver :=
  mkDriver (m_init d) v (m_allNodesQueried d) (m_notifytransactions d)
  (m_homeId d) (m_nodeId d) (m_initVersion d) (m_initCaps d) (m_controllerCaps
  d) (m_pollInterval d) (m_nodes d) (m_virtualNeighbors d) (m_currentMsg d)
  (m_waitingForAck d) (m_expectedCallbackId d) (m_expectedReply d)
  (m_expectedCommandClassId d) (m_expectedNodeId d) (m_msgQueue d)
  (m_queueEvent d) (m_stats d) (m_written d) (m_notifications d).

Definition set_m_allNodesQueried (v : bool) (d : Driver) : Driver :=
  mkDriver (m_init d) (m_awakeNodesQueried d) v (m_notifytransactions d)
  (m_homeId d) (m_nodeId d) (m_initVersion d) (m_initCaps d) (m_controllerCaps
  d) (m_pollInterval d) (m_nodes d) (m_virtualNeighbors d) (m_currentMsg d)
  (m_waitingForAck d) (m_expectedCallbackId d) (m_expectedReply d)
  (m_expectedCommandClassId d) (m_expectedNodeId d) (m_msgQueue d)
  (m_queueEvent d) (m_stats d) (m_written d) (m_notifications d).

Definition set_m_initVersion (v : Z) (d : Driver) : Driver :=
  mkDriver (m_init d) (m_awakeNodesQueried d) (m_allNodesQueried d)
  (m_notifytransactions d) (m_homeId d) (m_nodeId d) v (m_initCaps d)
  (m_controllerCaps d) (m_pollInterval d) (m_nodes d) (m_virtualNeighbors d)
  (m_currentMsg d) (m_waitingForAck d) (m_expectedCallbackId d)
  (m_expectedReply d) (m_expectedCommandClassId d) (m_expectedNodeId d)
  (m_msgQueue d) (m_queueEvent d) (m_stats d) (m_written d) (m_notifications
  d).

Definition set_m_initCaps (v : Z) (d : Driver) : Driver :=
  mkDriver (m_init d) (m_awakeNodesQueried d) (m_allNodesQueried d)
  (m_notifytransactions d) (m_homeId d) (m_nodeId d) (m_initVersion d) v
  (m_controllerCaps d) (m_pollInterval d) (m_nodes d) (m_virtualNeighbors d)
  (m_currentMsg d) (m_waitingForAck d) (m_expectedCallbackId d)
  (m_expectedReply d) (m_expectedCommandClassId d) (m_expectedNodeId d)
  (m_msgQueue d) (m_queueEvent d) (m_stats d) (m_written d) (m_notifications
  d).

Definition set_m_controllerCaps (v : Z) (d : Driver) : Driver :=
  mkDriver (m_init d) (m_awakeNodesQueried d) (m_allNodesQueried d)
  (m_notifytransactions d) (m_homeId d) (m_nodeId d) (m_initVersion d)
  (m_initCaps d) v (m_pollInterval d) (m_nodes d) (m_virtualNeighbors d)
  (m_currentMsg d) (m_waitingForAck d) (m_expectedCallbackId d)
  (m_expectedReply d) (m_expectedCommandClassId d) (m_expectedNodeId d)
  (m_msgQueue d) (m_queueEvent d) (m_stats d) (m_written d) (m_notifications
  d).

Definition set_m_pollInterval (v : Z) (d : Driver) : Driver :=
  mkDriver (m_init d) (m_awakeNodesQueried d) (m_allNodesQueried d)
  (m_notifytransactions d) (m_homeId d) (m_nodeId d) (m_initVersion d)
  (m_initCaps d) (m_controllerCaps d) v (m_nodes d) (m_virtualNeighbors d)
  (m_currentMsg d) (m_waitingForAck d) (m_expectedCallbackId d)
  (m_expectedReply d) (m_expectedCommandClassId d) (m_expectedNodeId d)
  (m_msgQueue d) (m_queueEvent d) (m_stats d) (m_written d) (m_notifications
  d).

Definition set_m_nodes (v : gmap Z Node) (d : Driver) : Driver :=
  mkDriver (m_init d) (m_awakeNodesQueried d) (m_allNodesQueried d)
  (m_notifytransactions d) (m_homeId d) (m_nodeId d) (m_initVersion d)
  (m_initCaps d) (m_controllerCaps d) (m_pollInterval d) v (m_virtualNeighbors
  d) (m_currentMsg d) (m_waitingForAck d) (m_expectedCallbackId d)
  (m_expectedReply d) (m_expectedCommandClassId d) (m_expectedNodeId d)
  (m_msgQueue d) (m_queueEvent d) (m_stats d) (m_written d) (m_notifications
  d).

Definition set_m_currentMsg (v : option Msg) (d : Driver) : Driver :=
  mkDriver (m_init d) (m_awakeNodesQueried d) (m_allNodesQueried d)
  (m_notifytransactions d) (m_homeId d) (m_nodeId d) (m_initVersion d)
  (m_initCaps d) (m_controllerCaps d) (m_pollInterval d) (m_nodes d)
  (m_virtualNeighbors d) v (m_waitingForAck d) (m_expectedCallbackId d)
  (m_expectedReply d) (m_expectedCommandClassId d) (m_expectedNodeId d)
  (m_msgQueue d) (m_queueEvent d) (m_stats d) (m_written d) (m_notifications
  d).

Definition set_m_waitingForAck (v : bool) (d : Driver) : Driver :=
  mkDriver (m_init d) (m_awakeNodesQueried d) (m_allNodesQueried d)
  (m_notifytransactions d) (m_homeId d) (m_nodeId d) (m_initVersion d)
  (m_initCaps d) (m_controllerCaps d) (m_pollInterval d) (m_nodes d)
  (m_virtualNeighbors d) (m_currentMsg d) v (m_expectedCallbackId d)
  (m_expectedReply d) (m_expectedCommandClassId d) (m_expectedNodeId d)
  (m_msgQueue d) (m_queueEvent d) (m_stats d) (m_written d) (m_notifications
  d).

Definition set_m_expectedCallbackId (v : Z) (d : Driver) : Driver :=
  mkDriver (m_init d) (m_awakeNodesQueried d) (m_allNodesQueried d)
  (m_notifytransactions d) (m_homeId d) (m_nodeId d) (m_initVersion d)
  (m_initCaps d) (m_controllerCaps d) (m_pollInterval d) (m_nodes d)
  (m_virtualNeighbors d) (m_currentMsg d) (m_waitingForAck d) v
  (m_expectedReply d) (m_expectedCommandClassId d) (m_expectedNodeId d)
  (m_msgQueue d) (m_queueEvent d) (m_stats d) (m_written d) (m_notifications
  d).

Definition set_m_expectedReply (v : Z) (d : Driver) : Driver :=
  mkDriver (m_init d) (m_awakeNodesQueried d) (m_allNodesQueried d)
  (m_notifytransactions d) (m_homeId d) (m_nodeId d) (m_initVersion d)
  (m_initCaps d) (m_controllerCaps d) (m_pollInterval d) (m_nodes d)
  (m_virtualNeighbors d) (m_currentMsg d) (m_waitingForAck d)
  (m_expectedCallbackId d) v (m_expectedCommandClassId d) (m_expectedNodeId d)
  (m_msgQueue d) (m_queueEvent d) (m_stats d) (m_written d) (m_notifications
  d).

Definition set_m_expectedCommandClassId (v : Z) (d : Driver) : Driver :=
  mkDriver (m_init d) (m_awakeNodesQueried d) (m_allNodesQueried d)
  (m_notifytransactions d) (m_homeId d) (m_nodeId d) (m_initVersion d)
  (m_initCaps d) (m_controllerCaps d) (m_pollInterval d) (m_nodes d)
  (m_virtualNeighbors d) (m_currentMsg d) (m_waitingForAck d)
  (m_expectedCallbackId d) (m_expectedReply d) v (m_expectedNodeId d)
  (m_msgQueue d) (m_queueEvent d) (m_stats d) (m_written d) (m_notifications
  d).

Definition set_m_expectedNodeId (v : Z) (d : Driver) : Driver :=
  mkDriver (m_init d) (m_awakeNodesQueried d) (m_allNodesQueried d)
  (m_notifytransactions d) (m_homeId d) (m_nodeId d) (m_initVersion d)
  (m_initCaps d) (m_controllerCaps d) (m_pollInterval d) (m_nodes d)
  (m_virtualNeighbors d) (m_currentMsg d) (m_waitingForAck d)
  (m_expectedCallbackId d) (m_expectedReply d) (m_expectedCommandClassId d) v
  (m_msgQueue d) (m_queueEvent d) (m_stats d) (m_written d) (m_notifications
  d).

Definition set_m_msgQueue (v : Queues (list MsgQueueItem)) (d : Driver) : Driver :=
  mkDriver (m_init d) (m_awakeNodesQueried d) (m_allNodesQueried d)
  (m_notifytransactions d) (m_homeId d) (m_nodeId d) (m_initVersion d)
  (m_initCaps d) (m_controllerCaps d) (m_pollInterval d) (m_nodes d)
  (m_virtualNeighbors d) (m_currentMsg d) (m_waitingForAck d)
  (m_expectedCallbackId d) (m_expectedReply d) (m_expectedCommandClassId d)
  (m_expectedNodeId d) v (m_queueEvent d) (m_stats d) (m_written d)
  (m_notifications d).

Definition set_m_queueEvent (v : Queues bool) (d : Driver) : Driver :=
  mkDriver (m_init d) (m_awakeNodesQueried d) (m_allNodesQueried d)
  (m_notifytransactions d) (m_homeId d) (m_nodeId d) (m_initVersion d)
  (m_initCaps d) (m_controllerCaps d) (m_pollInterval d) (m_nodes d)
  (m_virtualNeighbors d) (m_currentMsg d) (m_waitingForAck d)
  (m_expectedCallbackId d) (m_expectedReply d) (m_expectedCommandClassId d)
  (m_expectedNodeId d) (m_msgQueue d) v (m_stats d) (m_written d)
  (m_notifications d).

Definition set_m_stats (v : Statistics) (d : Driver) : Driver :=
  mkDriver (m_init d) (m_awakeNodesQueried d) (m_allNodesQueried d)
  (m_notifytransactions d) (m_homeId d) (m_nodeId d) (m_initVersion d)
  (m_initCaps d) (m_controllerCaps d) (m_pollInterval d) (m_nodes d)
  (m_virtualNeighbors d) (m_currentMsg d) (m_waitingForAck d)
  (m_expectedCallbackId d) (m_expectedReply d) (m_expectedCommandClassId d)
  (m_expectedNodeId d) (m_msgQueue d) (m_queueEvent d) v (m_written d)
  (m_notifications d).

Definition set_m_written (v : list (list Z)) (d : Driver) : Driver :=
  mkDriver (m_init d) (m_awakeNodesQueried d) (m_allNodesQueried d)
  (m_notifytransactions d) (m_homeId d) (m_nodeId d) (m_initVersion d)
  (m_initCaps d) (m_controllerCaps d) (m_pollInterval d) (m_nodes d)
  (m_virtualNeighbors d) (m_currentMsg d) (m_waitingForAck d)
  (m_expectedCallbackId d) (m_expectedReply d) (m_expectedCommandClassId d)
  (m_expectedNodeId d) (m_msgQueue d) (m_queueEvent d) (m_stats d) v
  (m_notifications d).

Definition set_m_notifications (v : list Notification) (d : Driver) : Driver :=
  mkDriver (m_init d) (m_awakeNodesQueried d) (m_allNodesQueried d)
  (m_notifytransactions d) (m_homeId d) (m_nodeId d) (m_initVersion d)
  (m_initCaps d) (m_controllerCaps d) (m_pollInterval d) (m_nodes d)
  (m_virtualNeighbors d) (m_currentMsg d) (m_waitingForAck d)
  (m_expectedCallbackId d) (m_expectedReply d) (m_expectedCommandClassId d)
  (m_expectedNodeId d) (m_msgQueue d) (m_queueEvent d) (m_stats d) (m_written
  d) v.

(** ** Code of the repository that is not part of the sources

    Driver.cpp calls into Msg, Node, the command classes, TinyXML and the
    tables of Defs.h.  What the driver needs of them is an interface; the
    properties below hold for every implementation of it. *)

(** The function ids that [ProcessMsg] treats itself; [FUNC_ID_other] stands
    for every other function byte. *)
Inductive FuncId : Type :=
  | FUNC_ID_SERIAL_API_GET_INIT_DATA
  | FUNC_ID_APPLICATION_COMMAND_HANDLER
  | FUNC_ID_ZW_SEND_DATA
  | FUNC_ID_ZW_REPLICATION_SEND_DATA
  | FUNC_ID_ZW_ASSIGN_RETURN_ROUTE
  | FUNC_ID_ZW_DELETE_RETURN_ROUTE
  | FUNC_ID_ZW_REQUEST_NETWORK_UPDATE
  | FUNC_ID_ZW_REMOVE_FAILED_NODE_ID
  | FUNC_ID_ZW_REPLACE_FAILED_NODE
  | FUNC_ID_ZW_SET_SLAVE_LEARN_MODE
  | FUNC_ID_ZW_SEND_SLAVE_NODE_INFO
  | FUNC_ID_ZW_REQUEST_NODE_INFO
  | FUNC_ID_ZW_APPLICATION_UPDATE
  | FUNC_ID_other.

#[global] Instance FuncId_eq_dec : EqDecision FuncId.
Proof. solve_decision. Defined.

Class External : Type := {
  (* Defs.h: which function id a function byte is *)
  func_id : Z -> FuncId;
  (* Defs.h: the bits of the transmit status of a send-data callback *)
  TRANSMIT_COMPLETE_NO_ACK : Z;
  TRANSMIT_COMPLETE_FAIL : Z;
  TRANSMIT_COMPLETE_NOROUTE : Z;
  (* Msg *)
  Finalize : Msg -> Msg;
  IsWakeUpNoMoreInformationCommand : Msg -> bool;
  (* Node: the constructor Node( homeId, nodeId ), ReadXML and
     ManufacturerSpecific::SetProductDetails with the driver's ids *)
  Node_new : Z -> Z -> Node;
  SetProductDetails : Node -> Node;
  (* Driver.h: IsVirtualNode, on the array m_virtualNeighbors *)
  IsVirtualNode : list Z -> Z -> bool;
  (* TinyXML: an element, its tag, its attributes and its child elements.
     [QueryIntAttribute] is [Some] of the int read when the source gets
     TIXML_SUCCESS; [Attribute_strtol] is [Some] of what strtol( _, _, 0 )
     returns on the attribute's text when the attribute is there. *)
  TiXmlElement : Type;
  Value : TiXmlElement -> option string;
  QueryIntAttribute : TiXmlElement -> string -> option Z;
  Attribute_strtol : TiXmlElement -> string -> option Z;
  ChildElements : TiXmlElement -> list TiXmlElement;
  ReadXML : TiXmlElement -> Node -> Node;
  (* the document loaded from zwcfg_0x<homeid>.xml under UserPath: its root
     element, or [None] when LoadFile fails *)
  LoadFile : Z -> option TiXmlElement;
  (* Node::QueryStageComplete followed by Node::AdvanceQueries, run by
     WriteNextMsg on the node of a marker *)
  AdvanceQueries : Z -> QueryStage -> Driver -> Driver;
  (* the handlers of Driver.cpp that ProcessMsg calls and that are not
     modelled here, chosen by the frame's type and function; the boolean is
     the result of those that return one *)
  HandleOther : list Z -> Driver -> bool * Driver
}.

Section DriverEngine.

Context {ext : External}.

(** ** Helpers *)

(** [x++] on a uint32 counter. *)
Definition incr (x : Z) : Z := uint32 (x + 1).

Definition upd_stats (f : Statistics -> Statistics) (d : Driver) : Driver :=
  set_m_stats (f (m_stats d)) d.

Definition QueueNotification (n : Notification) (d : Driver) : Driver :=
  set_m_notifications (m_notifications d ++ [n]) d.

(** [m_controller->Write( buf, len )]. *)
Definition controller_Write (bytes : list Z) (d : Driver) : Driver :=
  set_m_written (m_written d ++ [bytes]) d.

Definition GetNodeUnsafe (nodeId : Z) (d : Driver) : option Node :=
  m_nodes d !! nodeId.

(** [GetNode] differs from [GetNodeUnsafe] by the node mutex only. *)
Definition GetNode (nodeId : Z) (d : Driver) : option Node :=
  m_nodes d !! nodeId.

(** The five assignments that reset the expectations of a transaction. *)
Definition clear_expectations (d : Driver) : Driver :=
  set_m_waitingForAck false
    (set_m_expectedReply 0
       (set_m_expectedNodeId 0
          (set_m_expectedCommandClassId 0
             (set_m_expectedCallbackId 0 d)))).

(** ** Sending *)

Definition RemoveCurrentMsg (d : Driver) : Driver :=
  clear_expectations (set_m_currentMsg None d).

Definition WriteMsg (d : Driver) : bool * Driver :=
  match m_currentMsg d with
  | None => (false, d)
  | Some msg =>
      let attempts := m_sendAttempts msg in
      if MAX_TRIES <=? attempts then
        (false, clear_expectations (set_m_currentMsg None d))
      else
        let msg := SetSendAttempts (attempts + 1) msg in
        let d := set_m_currentMsg (Some msg) d in
        let d := set_m_expectedCallbackId (m_callbackId msg) d in
        let d := set_m_expectedCommandClassId (msg_expectedCommandClassId msg) d in
        let d := set_m_expectedNodeId (m_targetNodeId msg) d in
        let d := set_m_expectedReply (msg_expectedReply msg) d in
        let d := set_m_waitingForAck true d in
        let d := controller_Write (m_buffer msg) d in
        let d := upd_stats (fun s => set_m_writeCnt (incr (m_writeCnt s)) s) d in
        let nodeId := m_targetNodeId msg in
        if nodeId =? 0xff then
          (true, upd_stats (fun s => set_m_controllerWriteCnt
                                       (incr (m_controllerWriteCnt s)) s) d)
        else
          match GetNodeUnsafe nodeId d with
          | Some node =>
              (true, set_m_nodes
                       (<[nodeId := set_node_writeCnt (incr (node_writeCnt node)) node]>
                          (m_nodes d)) d)
          | None => (true, d)
          end
  end.

(** The walk of [MoveMessagesToWakeUpQueue] over one queue: the messages of
    the target leave the queue, and go to the sleeping buffer unless they
    are a Wake Up No More Information command.  On a marker of the target
    the walk evaluates [item.m_msg->GetTargetNodeId()] for its log line,
    and [m_msg] of a marker is never assigned ([SendQueryStageComplete]
    sets [m_command], [m_nodeId] and [m_queryStage] only): the code has no
    defined behaviour there, which is [None]. *)
Fixpoint move_queue (target : Z) (q : list MsgQueueItem) (w : WakeUp)
  : option (list MsgQueueItem * WakeUp) :=
  match q with
  | [] => Some ([], w)
  | item :: rest =>
      match item with
      | MsgQueueCmd_SendMsg m =>
          if target =? m_targetNodeId m then
            if negb (IsWakeUpNoMoreInformationCommand m)
            then move_queue target rest (QueueMsg item w)
            else move_queue target rest w
          else
            match move_queue target rest w with
            | Some (rest', w') => Some (item :: rest', w')
            | None => None
            end
      | MsgQueueCmd_QueryStageComplete n _ =>
          if target =? n then None
          else
            match move_queue target rest w with
            | Some (rest', w') => Some (item :: rest', w')
            | None => None
            end
      end
  end.

(** One turn of the loop over the queues: walk queue [i], and clear its
    event when it is left empty. *)
Definition move_queue_i (target : Z) (i : MsgQueue) (st : Driver * WakeUp)
  : option (Driver * WakeUp) :=
  let '(d, w) := st in
  match move_queue target (qget i (m_msgQueue d)) w with
  | Some (q', w') =>
      let d := set_m_msgQueue (qset i q' (m_msgQueue d)) d in
      let d := match q' with
               | [] => set_m_queueEvent (qset i false (m_queueEvent d)) d
               | _ => d
               end in
      Some (d, w')
  | None => None
  end.

(** The loop over the queues, in the order of [MsgQueue]. *)
Fixpoint move_queues (target : Z) (queues : list MsgQueue) (st : Driver * WakeUp)
  : option (Driver * WakeUp) :=
  match queues with
  | [] => Some st
  | i :: more =>
      match move_queue_i target i st with
      | Some st' => move_queues target more st'
      | None => None
      end
  end.

(** [MoveMessagesToWakeUpQueue]: the result and the driver it leaves, or
    [None] where the walk over the queues has no defined behaviour. *)
Definition MoveMessagesToWakeUpQueue (target : Z) (d : Driver)
  : option (bool * Driver) :=
  match GetNodeUnsafe target d with
  | Some node =>
      if negb (IsListeningDevice node) && negb (IsFrequentListeningDevice node)
         && negb (IsController node) then
        match m_wakeUp node with
        | Some wakeUp =>
            let wakeUp := SetAwake false wakeUp in
            (* the current message first *)
            let '(d, wakeUp) :=
              match m_currentMsg d with
              | Some cur =>
                  if target =? m_targetNodeId cur then
                    let wakeUp :=
                      if negb (IsWakeUpNoMoreInformationCommand cur)
                      then QueueMsg (MsgQueueCmd_SendMsg cur) wakeUp
                      else wakeUp in
                    (clear_expectations (set_m_currentMsg None d), wakeUp)
                  else (d, wakeUp)
              | None => (d, wakeUp)
              end in
            (* now the message queues *)
            match move_queues target all_queues (d, wakeUp) with
            | Some (d, wakeUp) =>
                Some (true,
                      set_m_nodes (<[target := set_m_wakeUp (Some wakeUp) node]> (m_nodes d))
                                  d)
            | None => None
            end
        | None => Some (false, d)
        end
      else Some (false, d)
  | None => Some (false, d)
  end.

(** ** Nodes *)

Definition InitNode (nodeId : Z) (d : Driver) : Driver :=
  let d := match m_nodes d !! nodeId with
           | Some _ => QueueNotification
                         (mkNotification Type_NodeRemoved (m_homeId d) nodeId) d
           | None => d
           end in
  let node := Node_new (m_homeId d) nodeId in
  let node := if nodeId =? m_nodeId d then SetProductDetails node else node in
  let d := set_m_nodes (<[nodeId := node]> (m_nodes d)) d in
  let d := QueueNotification (mkNotification Type_NodeAdded (m_homeId d) nodeId) d in
  set_m_nodes (alter (SetQueryStage QueryStage_ProtocolInfo) nodeId (m_nodes d)) d.

(** Modelled from the spec: Manager::SetDriverReady of Manager.cpp, which is
    not part of the sources; the DriverReady notification is queued. *)
Definition SetDriverReady (d : Driver) : Driver :=
  QueueNotification (mkNotification Type_DriverReady (m_homeId d) (m_nodeId d)) d.

(** ** Persistence *)

(** The body of the loop of [ReadConfig] over the child elements. *)
Definition ReadConfig_child (d : Driver) (nodeElement : TiXmlElement) : Driver :=
  match Value nodeElement with
  | Some str =>
      if String.eqb str "Node" then
        match QueryIntAttribute nodeElement "id" with
        | Some intVal =>
            let nodeId := uint8 intVal in
            let node := Node_new (m_homeId d) nodeId in
            let d := set_m_nodes (<[nodeId := node]> (m_nodes d)) d in
            let d := QueueNotification
                       (mkNotification Type_NodeAdded (m_homeId d) nodeId) d in
            set_m_nodes (alter (ReadXML nodeElement) nodeId (m_nodes d)) d
        | None => d
        end
      else d
  | None => d
  end.

Definition ReadConfig (d : Driver) : bool * Driver :=
  match LoadFile (m_homeId d) with
  | None => (false, d)
  | Some driverElement =>
      (* Version *)
      match QueryIntAttribute driverElement "version" with
      | None => (false, d)
      | Some intVal =>
          if negb (uint32 intVal =? c_configVersion) then (false, d)
          else
            (* Home ID *)
            match Attribute_strtol driverElement "home_id" with
            | None => (false, d)
            | Some homeId =>
                if negb (uint32 homeId =? m_homeId d) then (false, d)
                else
                  (* Node ID *)
                  match QueryIntAttribute driverElement "node_id" with
                  | None => (false, d)
                  | Some intVal =>
                      if negb (uint8 intVal =? m_nodeId d) then (false, d)
                      else
                        (* Capabilities *)
                        let d := match QueryIntAttribute driverElement "api_capabilities" with
                                 | Some v => set_m_initCaps (uint8 v) d
                                 | None => d
                                 end in
                        let d := match QueryIntAttribute driverElement "controller_capabilities" with
                                 | Some v => set_m_controllerCaps (uint8 v) d
                                 | None => d
                                 end in
                        (* Poll Interval *)
                        let d := match QueryIntAttribute driverElement "poll_interval" with
                                 | Some v => set_m_pollInterval v d
                                 | None => d
                                 end in
                        (* Read the nodes *)
                        (true, fold_left ReadConfig_child (ChildElements driverElement) d)
                  end
            end
      end
  end.

(** ** Receiving *)

(** [_data[i]]; past the bytes received the buffer holds nothing we know,
    read as 0. *)
Definition byte_at (data : list Z) (i : nat) : Z := nth i data 0.

(** The body of the two loops of [HandleSerialAPIGetInitDataResponse], for
    byte [i] and bit [j] of the bitmap; [init] is [m_init]. *)
Definition InitData_bit (data : list Z) (d : Driver) (ij : nat * nat) : Driver :=
  let '(i, j) := ij in
  let nodeId := uint8 (Z.of_nat i * 8 + Z.of_nat j + 1) in
  if negb (Z.land (byte_at data (i + 5)) (Z.shiftl 1 (Z.of_nat j)) =? 0) then
    if IsVirtualNode (m_virtualNeighbors d) nodeId then d
    else
      match GetNode nodeId d with
      | Some node =>
          if negb (m_init d)
          then set_m_nodes (<[nodeId := SetQueryStage QueryStage_Associations node]>
                              (m_nodes d)) d
          else d
      | None =>
          InitNode nodeId
            (QueueNotification (mkNotification Type_NodeNew (m_homeId d) nodeId) d)
      end
  else
    match GetNode nodeId d with
    | Some _ =>
        let d := set_m_nodes (delete nodeId (m_nodes d)) d in
        QueueNotification (mkNotification Type_NodeRemoved (m_homeId d) nodeId) d
    | None => d
    end.

(** The pairs (i, j) in the order of the two loops. *)
Definition bitmap_positions : list (nat * nat) :=
  flat_map (fun i => map (fun j => (i, j)) (seq 0 8))
           (seq 0 (Z.to_nat NUM_NODE_BITFIELD_BYTES)).

Definition HandleSerialAPIGetInitDataResponse (data : list Z) (d : Driver) : Driver :=
  let d := if negb (m_init d) then snd (ReadConfig (SetDriverReady d)) else d in
  let d := set_m_initVersion (byte_at data 2) d in
  let d := set_m_initCaps (byte_at data 3) d in
  let d := if byte_at data 4 =? NUM_NODE_BITFIELD_BYTES
           then fold_left (InitData_bit data) bitmap_positions d
           else d in
  set_m_init true d.

Definition HandleSendDataRequest (data : list Z) (replication : bool) (d : Driver)
  : option Driver :=
  if negb (byte_at data 2 =? m_expectedCallbackId d) then Some d
  else if negb (Z.land (byte_at data 3) TRANSMIT_COMPLETE_NOROUTE =? 0) then
    Some (RemoveCurrentMsg d)
  else if negb (Z.land (byte_at data 3) TRANSMIT_COMPLETE_NO_ACK =? 0) then
    match m_currentMsg d with
    | Some cur =>
        if negb replication
        then
          match MoveMessagesToWakeUpQueue (m_targetNodeId cur) d with
          | Some (_, d) => Some d
          | None => None
          end
        else Some d
    | None => Some d
    end
  else if negb (Z.land (byte_at data 3) TRANSMIT_COMPLETE_FAIL =? 0) then Some d
  else Some (set_m_expectedCallbackId 0 d).

(** "The callback message won't be coming, so we force the transaction to
    complete." *)
Definition force_completion (data : list Z) (d : Driver) : Driver :=
  set_m_expectedNodeId 0
    (set_m_expectedCommandClassId 0
       (set_m_expectedReply 0
          (set_m_expectedCallbackId (byte_at data 2) d))).

(** The two switches of [ProcessMsg]; the boolean is [handleCallback].
    [None] where [HandleSendDataRequest] has no defined behaviour. *)
Definition ProcessMsg_dispatch (data : list Z) (d : Driver) : option (bool * Driver) :=
  if byte_at data 0 =? RESPONSE then
    match func_id (byte_at data 1) with
    | FUNC_ID_SERIAL_API_GET_INIT_DATA =>
        Some (true, HandleSerialAPIGetInitDataResponse data d)
    | FUNC_ID_ZW_SEND_DATA
    | FUNC_ID_ZW_REPLICATION_SEND_DATA =>
        (* HandleSendDataResponse only logs *)
        Some (false, d)
    | FUNC_ID_ZW_ASSIGN_RETURN_ROUTE
    | FUNC_ID_ZW_DELETE_RETURN_ROUTE
    | FUNC_ID_ZW_REQUEST_NETWORK_UPDATE
    | FUNC_ID_ZW_REMOVE_FAILED_NODE_ID
    | FUNC_ID_ZW_REPLACE_FAILED_NODE
    | FUNC_ID_ZW_SET_SLAVE_LEARN_MODE
    | FUNC_ID_ZW_SEND_SLAVE_NODE_INFO =>
        let '(ok, d) := HandleOther data d in
        Some (true, if ok then d else force_completion data d)
    | FUNC_ID_ZW_REQUEST_NODE_INFO
    | FUNC_ID_APPLICATION_COMMAND_HANDLER
    | FUNC_ID_ZW_APPLICATION_UPDATE =>
        Some (true, d)
    | FUNC_ID_other => Some (true, snd (HandleOther data d))
    end
  else if byte_at data 0 =? REQUEST then
    match func_id (byte_at data 1) with
    | FUNC_ID_ZW_SEND_DATA =>
        match HandleSendDataRequest data false d with
        | Some d => Some (true, d)
        | None => None
        end
    | FUNC_ID_ZW_REPLICATION_SEND_DATA =>
        match HandleSendDataRequest data true d with
        | Some d => Some (true, d)
        | None => None
        end
    | FUNC_ID_ZW_APPLICATION_UPDATE =>
        let '(removed, d) := HandleOther data d in Some (negb removed, d)
    | FUNC_ID_SERIAL_API_GET_INIT_DATA
    | FUNC_ID_ZW_REQUEST_NODE_INFO =>
        Some (true, d)
    | _ => Some (true, snd (HandleOther data d))
    end
  else Some (true, d).

(** The generic callback handling at the end of [ProcessMsg]. *)
Definition ProcessMsg_callback (data : list Z) (d : Driver) : Driver :=
  if negb (m_expectedCallbackId d =? 0) || negb (m_expectedReply d =? 0) then
    let d :=
      if negb (m_expectedCallbackId d =? 0) && (m_expectedCallbackId d =? byte_at data 2)
      then set_m_expectedCallbackId 0 d else d in
    let d :=
      if negb (m_expectedReply d =? 0) && (m_expectedReply d =? byte_at data 1) then
        if negb (m_expectedCommandClassId d =? 0)
           && bool_decide (func_id (m_expectedReply d) = FUNC_ID_APPLICATION_COMMAND_HANDLER)
        then
          if (m_expectedCommandClassId d =? byte_at data 5)
             && (m_expectedNodeId d =? byte_at data 3)
          then set_m_expectedNodeId 0
                 (set_m_expectedCommandClassId 0 (set_m_expectedReply 0 d))
          else d
        else set_m_expectedReply 0 d
      else d in
    if negb (negb (m_expectedCallbackId d =? 0) || negb (m_expectedReply d =? 0)) then
      let d := set_m_currentMsg None d in
      if m_notifytransactions d
      then QueueNotification (mkNotification Type_MsgComplete (m_homeId d) 0xff) d
      else d
    else d
  else d.

Definition ProcessMsg (data : list Z) (d : Driver) : option Driver :=
  match ProcessMsg_dispatch data d with
  | Some (handleCallback, d) =>
      Some (if handleCallback then ProcessMsg_callback data d else d)
  | None => None
  end.

(** What the serial link delivers after a SOF: nothing within 100 ms,
    a length byte and then too little within 500 ms, or the length byte and
    the bytes that follow it. *)
Inductive FrameRead : Type :=
  | LengthTimeout
  | BodyTimeout (len : Z)
  | Body (len : Z) (body : list Z).

(** The checksum loop of [ReadMsg] over [buffer[1 .. length-2]]. *)
Definition frame_checksum (buffer : list Z) (length : Z) : Z :=
  fold_left (fun checksum i => Z.lxor checksum (byte_at buffer i))
            (seq 1 (Z.to_nat (length - 2))) 0xff.

(** [ReadMsg]: [first] is the byte read, [None] when there is nothing to
    read; [rest] is only looked at after a SOF.  The result is [None] where
    [ProcessMsg] has no defined behaviour. *)
Definition ReadMsg (first : option Z) (rest : FrameRead) (d : Driver)
  : option (bool * Driver) :=
  match first with
  | None => Some (false, d)
  | Some b =>
      if b =? SOF then
        let d := upd_stats (fun s => set_m_SOFCnt (incr (m_SOFCnt s)) s) d in
        let d := if m_waitingForAck d
                 then upd_stats (fun s => set_m_ACKWaiting (incr (m_ACKWaiting s)) s) d
                 else d in
        match rest with
        | LengthTimeout | BodyTimeout _ =>
            Some (true, upd_stats (fun s => set_m_readAborts (incr (m_readAborts s)) s) d)
        | Body len body =>
            let buffer := SOF :: len :: body in
            let length := len + 2 in
            let checksum := frame_checksum buffer length in
            if byte_at buffer (Z.to_nat (length - 1)) =? checksum then
              let d := controller_Write [ACK] d in
              let d := upd_stats (fun s => set_m_readCnt (incr (m_readCnt s)) s) d in
              match ProcessMsg body d with
              | Some d => Some (true, d)
              | None => None
              end
            else
              let d := upd_stats (fun s => set_m_badChecksum (incr (m_badChecksum s)) s) d in
              Some (true, controller_Write [NAK] d)
        end
      else if b =? CAN then
        let d := upd_stats (fun s => set_m_CANCnt (incr (m_CANCnt s)) s) d in
        Some (true, snd (WriteMsg d))
      else if b =? NAK then
        let d := upd_stats (fun s => set_m_NAKCnt (incr (m_NAKCnt s)) s) d in
        Some (true, snd (WriteMsg d))
      else if b =? ACK then
        let d := upd_stats (fun s => set_m_ACKCnt (incr (m_ACKCnt s)) s) d in
        let d := set_m_waitingForAck false d in
        if (0 =? m_expectedCallbackId d) && (0 =? m_expectedReply d)
        then Some (true, RemoveCurrentMsg d)
        else Some (true, d)
      else
        let d := upd_stats (fun s => set_m_OOFCnt (incr (m_OOFCnt s)) s) d in
        Some (true, controller_Write [NAK] d)
  end.

(** ** Queueing *)

(** [m_msgQueue[q].push_back( item ); m_queueEvent[q]->Set();] *)
Definition enqueue (q : MsgQueue) (item : MsgQueueItem) (d : Driver) : Driver :=
  let d := set_m_msgQueue (qset q (qget q (m_msgQueue d) ++ [item]) (m_msgQueue d)) d in
  set_m_queueEvent (qset q true (m_queueEvent d)) d.

(** [wakeUp->QueueMsg( item )] on the WakeUp class of node [nodeId]. *)
Definition queue_on_node (nodeId : Z) (node : Node) (wakeUp : WakeUp)
    (item : MsgQueueItem) (d : Driver) : Driver :=
  set_m_nodes (<[nodeId := set_m_wakeUp (Some (QueueMsg item wakeUp)) node]> (m_nodes d)) d.

Definition SendQueryStageComplete (nodeId : Z) (stage : QueryStage) (queue : MsgQueue)
    (d : Driver) : Driver :=
  let item := MsgQueueCmd_QueryStageComplete nodeId stage in
  match GetNode nodeId d with
  | Some node =>
      match (if negb (IsListeningDevice node) then m_wakeUp node else None) with
      | Some wakeUp =>
          if negb (m_awake wakeUp)
          then queue_on_node nodeId node wakeUp item d
          else enqueue MsgQueue_Query item d
      | None => enqueue MsgQueue_Query item d
      end
  | None => d
  end.

Definition SendMsg (msg : Msg) (queue : MsgQueue) (d : Driver) : Driver :=
  let msg := Finalize msg in
  let item := MsgQueueCmd_SendMsg msg in
  match GetNode (m_targetNodeId msg) d with
  | Some node =>
      match (if negb (IsListeningDevice node) then m_wakeUp node else None) with
      | Some wakeUp =>
          if negb (m_awake wakeUp)
          then queue_on_node (m_targetNodeId msg) node wakeUp item d
          else enqueue queue item d
      | None => enqueue queue item d
      end
  | None => enqueue queue item d
  end.

(** [m_msgQueue[q].pop_front()], and the event is reset when the queue is
    left empty. *)
Definition pop_front (q : MsgQueue) (d : Driver) : Driver :=
  let rest := tail (qget q (m_msgQueue d)) in
  let d := set_m_msgQueue (qset q rest (m_msgQueue d)) d in
  match rest with
  | [] => set_m_queueEvent (qset q false (m_queueEvent d)) d
  | _ => d
  end.

(** [WriteNextMsg]; [None] is the undefined [front()] of an empty queue. *)
Definition WriteNextMsg (queue : MsgQueue) (d : Driver) : option (bool * Driver) :=
  match qget queue (m_msgQueue d) with
  | [] => None
  | MsgQueueCmd_SendMsg msg :: _ =>
      let d := set_m_currentMsg (Some msg) d in
      let d := pop_front queue d in
      Some (WriteMsg d)
  | MsgQueueCmd_QueryStageComplete nodeId stage :: _ =>
      let d := set_m_currentMsg None d in
      let d := pop_front queue d in
      match GetNodeUnsafe nodeId d with
      | Some _ => Some (true, AdvanceQueries nodeId stage d)
      | None => Some (false, d)
      end
  end.

(** ** Completion of the node queries *)

(** The body of the loop of [CheckCompletedNodeQueries] for slot [i]; the
    pair is ([all], [sleepingOnly]). *)
Definition scan_slot (d : Driver) (acc : bool * bool) (i : nat) : bool * bool :=
  let '(all, sleepingOnly) := acc in
  match m_nodes d !! Z.of_nat i with
  | Some node =>
      if negb (bool_decide (GetCurrentQueryStage node = QueryStage_Complete)) then
        (false, if IsListeningDevice node then false else sleepingOnly)
      else acc
  | None => acc
  end.

(** The indices of [m_nodes]. *)
Definition slots : list nat := seq 0 256.

(** The loop over the 256 slots. *)
Definition scan_nodes (d : Driver) : bool * bool :=
  fold_left (scan_slot d) slots (true, true).

Definition CheckCompletedNodeQueries (d : Driver) : Driver :=
  if negb (m_allNodesQueried d) then
    let '(all, sleepingOnly) := scan_nodes d in
    if all then
      let d := QueueNotification
                 (mkNotification Type_AllNodesQueried (m_homeId d) 0xff) d in
      set_m_allNodesQueried true (set_m_awakeNodesQueried true d)
    else if sleepingOnly then
      if negb (m_awakeNodesQueried d) then
        let d := QueueNotification
                   (mkNotification Type_AwakeNodesQueried (m_homeId d) 0xff) d in
        set_m_awakeNodesQueried true d
      else d
    else d
  else d.

(** ** The driver thread *)

(** [NotifyWatchers]: the queued notifications are handed to the watchers,
    oldest first, and the queue is left empty. *)
Definition NotifyWatchers (d : Driver) : list Notification * Driver :=
  (m_notifications d, set_m_notifications [] d).

(** What [Wait::Multiple] returns in the loop of [DriverThreadProc]. *)
Inductive WaitResult : Type :=
  | Wait_Timeout
  | Wait_Data (first : option Z) (rest : FrameRead)
  | Wait_Queue (q : MsgQueue).

(** "If we're waiting for a message to complete, we can only handle
    incoming data and exit events." *)
Definition waiting (d : Driver) : bool :=
  m_waitingForAck d || negb (m_expectedCallbackId d =? 0)
  || negb (m_expectedReply d =? 0).

(** One turn of the inner loop of [DriverThreadProc], up to the point where
    it waits again: the notifications handed to the watchers and the state.
    [None]: the wait cannot return this (a queue event while a message is in
    flight or while the queue's event is not set, a timeout of the infinite
    wait), or [WriteNextMsg] is undefined, or [ReadMsg] has no defined
    behaviour. *)
Definition DriverThread_turn (w : WaitResult) (d : Driver)
  : option (list Notification * Driver) :=
  match w with
  | Wait_Timeout =>
      if waiting d then Some (NotifyWatchers (snd (WriteMsg d))) else None
  | Wait_Data first rest =>
      match ReadMsg first rest d with
      | Some (_, d) => Some (NotifyWatchers d)
      | None => None
      end
  | Wait_Queue q =>
      if negb (waiting d) && qget q (m_queueEvent d) then
        match WriteNextMsg q d with
        | Some (_, d) => Some (NotifyWatchers d)
        | None => None
        end
      else None
  end.

End DriverEngine.

(** ** The poll list

    ValueID.h and the value store of a node are not part of the sources:
    a value id has an equality and a node id, and a node answers whether it
    holds the value of an id. *)
Class ValueStore : Type := {
  ValueID : Type;
  ValueID_eq_dec :: EqDecision ValueID;
  GetNodeId : ValueID -> Z;
  GetValue : Node -> ValueID -> bool
}.

Section Poller.

Context {vs : ValueStore}.

(** The search loop over [m_pollList]. *)
Fixpoint on_poll_list (v : ValueID) (l : list ValueID) : bool :=
  match l with
  | [] => false
  | x :: l => if decide (x = v) then true else on_poll_list v l
  end.

(** [EnablePoll]; the poll list [m_pollList] is kept beside the driver. *)
Definition EnablePoll (v : ValueID) (d : Driver) (m_pollList : list ValueID)
  : bool * list ValueID :=
  match m_nodes d !! uint8 (GetNodeId v) with
  | Some node =>
      if GetValue node v then
        if on_poll_list v m_pollList then (true, m_pollList)
        else (true, m_pollList ++ [v])
      else (false, m_pollList)
  | None => (false, m_pollList)
  end.

(** [m_pollList.erase( it )] at the first entry equal to [v]. *)
Fixpoint erase_first (v : ValueID) (l : list ValueID) : list ValueID :=
  match l with
  | [] => []
  | x :: l => if decide (x = v) then l else x :: erase_first v l
  end.

Definition DisablePoll (v : ValueID) (d : Driver) (m_pollList : list ValueID)
  : bool * list ValueID :=
  match m_nodes d !! uint8 (GetNodeId v) with
  | Some _ =>
      if on_poll_list v m_pollList then (true, erase_first v m_pollList)
      else (false, m_pollList)
  | None => (false, m_pollList)
  end.

(** What one turn of [PollThreadProc] does to the poll list: the head moves
    to the back. *)
Definition PollThread_rotate (d : Driver) (m_pollList : list ValueID) : list ValueID :=
  match m_pollList with
  | v :: rest => if m_awakeNodesQueried d then rest ++ [v] else m_pollList
  | [] => []
  end.

(** The operations on the poll list, each with the driver state it runs
    in. *)
Inductive PollOp : Type :=
  | Op_EnablePoll (v : ValueID) (d : Driver)
  | Op_DisablePoll (v : ValueID) (d : Driver)
  | Op_PollThread (d : Driver).

Definition poll_step (l : list ValueID) (op : PollOp) : list ValueID :=
  match op with
  | Op_EnablePoll v d => snd (EnablePoll v d l)
  | Op_DisablePoll v d => snd (DisablePoll v d l)
  | Op_PollThread d => PollThread_rotate d l
  end.

(** The poll list after a sequence of operations. *)
Definition poll_run (ops : list PollOp) (l : list ValueID) : list ValueID :=
  fold_left poll_step ops l.

End Poller.

(** ** A concrete environment

    An implementation of the interfaces above, on which the functions can
    be run: the function bytes of the serial API, a snapshot document as a
    tree of elements with integer attributes, a Wake Up No More Information
    test on the command bytes, and handlers that do nothing. *)

(** An element with its integer attributes and, one level deep, its child
    elements. *)
Inductive XmlElem : Type :=
  | mkXmlElem (tag : string) (attrs : list (string * Z))
              (kids : list (string * list (string * Z))).

Definition xml_tag (e : XmlElem) : option string :=
  match e with mkXmlElem tag _ _ => Some tag end.

Fixpoint assoc_int (name : string) (l : list (string * Z)) : option Z :=
  match l with
  | [] => None
  | (k, v) :: l => if String.eqb k name then Some v else assoc_int name l
  end.

Definition xml_attr (e : XmlElem) (name : string) : option Z :=
  match e with mkXmlElem _ attrs _ => assoc_int name attrs end.

Definition xml_kids (e : XmlElem) : list XmlElem :=
  match e with
  | mkXmlElem _ _ kids => map (fun '(tag, attrs) => mkXmlElem tag attrs []) kids
  end.

Definition serial_api_func_id (b : Z) : FuncId :=
  if b =? 0x02 then FUNC_ID_SERIAL_API_GET_INIT_DATA
  else if b =? 0x04 then FUNC_ID_APPLICATION_COMMAND_HANDLER
  else if b =? 0x13 then FUNC_ID_ZW_SEND_DATA
  else if b =? 0x45 then FUNC_ID_ZW_REPLICATION_SEND_DATA
  else if b =? 0x46 then FUNC_ID_ZW_ASSIGN_RETURN_ROUTE
  else if b =? 0x47 then FUNC_ID_ZW_DELETE_RETURN_ROUTE
  else if b =? 0x49 then FUNC_ID_ZW_APPLICATION_UPDATE
  else if b =? 0x53 then FUNC_ID_ZW_REQUEST_NETWORK_UPDATE
  else if b =? 0x60 then FUNC_ID_ZW_REQUEST_NODE_INFO
  else if b =? 0x61 then FUNC_ID_ZW_REMOVE_FAILED_NODE_ID
  else if b =? 0x63 then FUNC_ID_ZW_REPLACE_FAILED_NODE
  else if b =? 0xA2 then FUNC_ID_ZW_SEND_SLAVE_NODE_INFO
  else if b =? 0xA4 then FUNC_ID_ZW_SET_SLAVE_LEARN_MODE
  else FUNC_ID_other.

Definition sample_ext (file : option XmlElem) (virtual : Z -> bool) : External :=
  {| func_id := serial_api_func_id;
     TRANSMIT_COMPLETE_NO_ACK := 0x01;
     TRANSMIT_COMPLETE_FAIL := 0x02;
     TRANSMIT_COMPLETE_NOROUTE := 0x04;
     Finalize := fun m => m;
     IsWakeUpNoMoreInformationCommand :=
       fun m => (nth 6 (m_buffer m) 0 =? 0x84) && (nth 7 (m_buffer m) 0 =? 0x08);
     Node_new := fun _ nodeId =>
       mkNode nodeId true false false QueryStage_Complete 0 None;
     SetProductDetails := fun n => n;
     IsVirtualNode := fun _ nodeId => virtual nodeId;
     TiXmlElement := XmlElem;
     Value := xml_tag;
     QueryIntAttribute := xml_attr;
     Attribute_strtol := xml_attr;
     ChildElements := xml_kids;
     ReadXML := fun _ n => n;
     LoadFile := fun _ => file;
     AdvanceQueries := fun _ _ d => d;
     HandleOther := fun _ d => (true, d) |}.

Definition no_stats : Statistics := mkStatistics 0 0 0 0 0 0 0 0 0 0 0 0 0 0.

Definition no_queues : Queues (list MsgQueueItem) := mkQueues [] [] [] [] [].

(** The driver as its constructor leaves it, with the home id and the node
    id of the controller filled in. *)
Definition fresh_driver (homeId nodeId : Z) : Driver :=
  mkDriver false false false false homeId nodeId 0 0 0 30 ∅ [] None false 0 0 0 0
           no_queues (mkQueues false false false false false) no_stats [] [].

(** ** Notions used by the properties *)

Section Notions.

Context {ext : External}.

(** The state of [ReadMsg] once it has counted a SOF. *)
Definition sof_counted (d : Driver) : Driver :=
  let d := upd_stats (fun s => set_m_SOFCnt (incr (m_SOFCnt s)) s) d in
  if m_waitingForAck d
  then upd_stats (fun s => set_m_ACKWaiting (incr (m_ACKWaiting s)) s) d
  else d.

(** The snapshot [root] does not pass the three checks of [ReadConfig]: the
    version, read as a uint32, is not the current one; the home id, cut to
    32 bits, is not the driver's; the node id, cut to 8 bits, is not the
    controller's; or one of the three attributes is not there. *)
Definition snapshot_rejected (d : Driver) (root : TiXmlElement) : Prop :=
  QueryIntAttribute root "version" = None
  \/ (exists v, QueryIntAttribute root "version" = Some v /\ uint32 v <> c_configVersion)
  \/ Attribute_strtol root "home_id" = None
  \/ (exists h, Attribute_strtol root "home_id" = Some h /\ uint32 h <> m_homeId d)
  \/ QueryIntAttribute root "node_id" = None
  \/ (exists n, QueryIntAttribute root "node_id" = Some n /\ uint8 n <> m_nodeId d).

(** Every node in the 256 slots of the table has query stage Complete. *)
Definition all_complete (d : Driver) : Prop :=
  forall (i : Z) (node : Node),
    0 <= i < 256 -> m_nodes d !! i = Some node ->
    GetCurrentQueryStage node = QueryStage_Complete.

(** Every node whose stage is not Complete is a non-listening device. *)
Definition sleeping_only (d : Driver) : Prop :=
  forall (i : Z) (node : Node),
    0 <= i < 256 -> m_nodes d !! i = Some node ->
    GetCurrentQueryStage node <> QueryStage_Complete ->
    IsListeningDevice node = false.

(** The notifications that a step from [d] to [d'] has queued behind those
    of [d]. *)
Definition queued_by (d d' : Driver) : list Notification :=
  skipn (length (m_notifications d)) (m_notifications d').

Definition is_type (t : NotificationType) (e : Driver * Notification) : bool :=
  bool_decide (n_type (snd e) = t).

(** An execution of a driver, with its trace: every notification queued,
    paired with the state in which the step that queued it started.  A step
    is a call of [CheckCompletedNodeQueries], or anything else the driver
    and its nodes do: the rest of the code assigns neither
    [m_allNodesQueried] nor [m_awakeNodesQueried] and queues neither of the
    two notifications, and is free otherwise. *)
Inductive execution (d0 : Driver) : list (Driver * Notification) -> Driver -> Prop :=
  | exec_start : execution d0 [] d0
  | exec_check tr d :
      execution d0 tr d ->
      execution d0
        (tr ++ map (pair d) (queued_by d (CheckCompletedNodeQueries d)))
        (CheckCompletedNodeQueries d)
  | exec_other tr d ns d' :
      execution d0 tr d ->
      m_allNodesQueried d' = m_allNodesQueried d ->
      m_awakeNodesQueried d' = m_awakeNodesQueried d ->
      Forall (fun n => n_type n <> Type_AllNodesQueried
                       /\ n_type n <> Type_AwakeNodesQueried) ns ->
      execution d0 (tr ++ map (pair d) ns) d'.

(** The number of notifications of type [t] in a trace. *)
Definition count_type (t : NotificationType) (tr : list (Driver * Notification)) : nat :=
  length (List.filter (is_type t) tr).

(** P1: the current message is there exactly when the driver waits for an
    ACK, a callback or a reply. *)
Definition in_flight_invariant (d : Driver) : Prop :=
  is_Some (m_currentMsg d) <-> waiting d = true.

(** The node an item is bound for. *)
Definition item_target (item : MsgQueueItem) : Z :=
  match item with
  | MsgQueueCmd_SendMsg m => m_targetNodeId m
  | MsgQueueCmd_QueryStageComplete n _ => n
  end.

Definition for_target (target : Z) (item : MsgQueueItem) : bool :=
  target =? item_target item.

(** The messages of [target] that [MoveMessagesToWakeUpQueue] puts into
    its sleeping buffer: all but the Wake Up No More Information
    commands. *)
Definition buffered (target : Z) (item : MsgQueueItem) : bool :=
  for_target target item
  && match item with
     | MsgQueueCmd_SendMsg m => negb (IsWakeUpNoMoreInformationCommand m)
     | MsgQueueCmd_QueryStageComplete _ _ => false
     end.

Definition qmap {A B} (f : A -> B) (qs : Queues A) : Queues B :=
  mkQueues (f (qCommand qs)) (f (qWakeUp qs)) (f (qSend qs)) (f (qQuery qs))
           (f (qPoll qs)).

(** The queues without the items of [target]. *)
Definition without_target (target : Z) (qs : Queues (list MsgQueueItem))
  : Queues (list MsgQueueItem) :=
  qmap (List.filter (fun item => negb (for_target target item))) qs.

Definition is_empty {A} (l : list A) : bool :=
  match l with [] => true | _ => false end.

(** The events once those of the empty queues are reset. *)
Definition events_reset (qs : Queues (list MsgQueueItem)) (ev : Queues bool)
  : Queues bool :=
  mkQueues (if is_empty (qCommand qs) then false else qCommand ev)
           (if is_empty (qWakeUp qs) then false else qWakeUp ev)
           (if is_empty (qSend qs) then false else qSend ev)
           (if is_empty (qQuery qs) then false else qQuery ev)
           (if is_empty (qPoll qs) then false else qPoll ev).

(** The items of the five queues, in the order of the queues. *)
Definition all_queued (qs : Queues (list MsgQueueItem)) : list MsgQueueItem :=
  qCommand qs ++ qWakeUp qs ++ qSend qs ++ qQuery qs ++ qPoll qs.

(** Node [nodeId] is a sleeping non-listening node: it is in the table, is
    not a listening device, and has a WakeUp class whose cached state is
    not awake. *)
Definition asleep_in (nodes : gmap Z Node) (nodeId : Z) : Prop :=
  exists node w,
    nodes !! nodeId = Some node
    /\ IsListeningDevice node = false
    /\ m_wakeUp node = Some w
    /\ m_awake w = false.

Definition asleep (d : Driver) (nodeId : Z) : Prop := asleep_in (m_nodes d) nodeId.

(** [MoveMessagesToWakeUpQueue] acts on [target]: the node is in the table,
    is neither a listening nor a frequent-listening device nor a
    controller, and has a WakeUp class. *)
Definition sleep_capable (d : Driver) (target : Z) : bool :=
  match m_nodes d !! target with
  | Some node =>
      negb (IsListeningDevice node) && negb (IsFrequentListeningDevice node)
      && negb (IsController node) && bool_decide (is_Some (m_wakeUp node))
  | None => false
  end.

(** [item] is a QueryStageComplete marker of [target], and such a marker is
    on one of the queues. *)
Definition marker_for (target : Z) (item : MsgQueueItem) : bool :=
  match item with
  | MsgQueueCmd_SendMsg _ => false
  | MsgQueueCmd_QueryStageComplete n _ => target =? n
  end.

Definition marker_queued (target : Z) (d : Driver) : bool :=
  existsb (marker_for target) (all_queued (m_msgQueue d)).

(** The current message as an item, when it is bound for [target]. *)
Definition current_for (target : Z) (d : Driver) : list MsgQueueItem :=
  match m_currentMsg d with
  | Some cur => if target =? m_targetNodeId cur then [MsgQueueCmd_SendMsg cur] else []
  | None => []
  end.

(** P3: no scheduler queue holds an item for a sleeping node. *)
Definition no_queued_for_sleeper (d : Driver) : Prop :=
  forall q item, In item (qget q (m_msgQueue d)) -> ~ asleep d (item_target item).

(** The steps of the driver that put items on the queues, take them off,
    or change what is known of a node's sleep: a producer submits a message
    or a marker, the scheduler dequeues, a message is written again or
    dropped, a send-data callback is handled, the items of an unresponsive
    node are moved. *)
Inductive queue_step (d : Driver) : Driver -> Prop :=
  | step_SendMsg msg q :
      queue_step d (SendMsg msg q d)
  | step_SendQueryStageComplete nodeId stage q :
      queue_step d (SendQueryStageComplete nodeId stage q d)
  | step_WriteNextMsg q r d' :
      WriteNextMsg q d = Some (r, d') -> queue_step d d'
  | step_WriteMsg :
      queue_step d (snd (WriteMsg d))
  | step_HandleSendDataRequest data replication d' :
      HandleSendDataRequest data replication d = Some d' -> queue_step d d'
  | step_MoveMessagesToWakeUpQueue target r d' :
      MoveMessagesToWakeUpQueue target d = Some (r, d') -> queue_step d d'.

(** The states the driver reaches from [d0] by such steps. *)
Inductive queue_reachable (d0 : Driver) : Driver -> Prop :=
  | reach_start : queue_reachable d0 d0
  | reach_step d d' :
      queue_reachable d0 d -> queue_step d d' -> queue_reachable d0 d'.

(** The two critical sections of [SendMsg].  The first runs under the node
    mutex that [GetNode] takes: the target is looked up and tested, and a
    message for a node that is not awake goes to the sleeping buffer and
    [SendMsg] returns; otherwise the node mutex is released (line 763).  The
    second runs under [m_sendMutex] (767-770) and pushes the item.
    [SendMsg_buffered] is the first section: the driver when the message
    went to the sleeping buffer, [None] when it is still to be pushed. *)
Definition SendMsg_buffered (msg : Msg) (d : Driver) : option Driver :=
  let msg := Finalize msg in
  let item := MsgQueueCmd_SendMsg msg in
  match GetNode (m_targetNodeId msg) d with
  | Some node =>
      match (if negb (IsListeningDevice node) then m_wakeUp node else None) with
      | Some wakeUp =>
          if negb (m_awake wakeUp)
          then Some (queue_on_node (m_targetNodeId msg) node wakeUp item d)
          else None
      | None => None
      end
  | None => None
  end.

(** The driver together with the submissions that have left their first
    section and have not pushed yet.  Between its two sections a producer
    holds no mutex, and [MoveMessagesToWakeUpQueue] takes the node through
    [GetNodeUnsafe], without the node mutex: any step of the driver can run
    between the test and the push. *)
Inductive section_step
  : Driver * list (MsgQueue * MsgQueueItem) ->
    Driver * list (MsgQueue * MsgQueueItem) -> Prop :=
  | section_buffered msg d d' pending :
      SendMsg_buffered msg d = Some d' ->
      section_step (d, pending) (d', pending)
  | section_tested msg q d pending :
      SendMsg_buffered msg d = None ->
      section_step (d, pending)
                   (d, pending ++ [(q, MsgQueueCmd_SendMsg (Finalize msg))])
  | section_pushed q item d before after :
      section_step (d, before ++ (q, item) :: after)
                   (enqueue q item d, before ++ after)
  | section_driver d d' pending :
      queue_step d d' ->
      section_step (d, pending) (d', pending).

Inductive section_reachable (s0 : Driver * list (MsgQueue * MsgQueueItem))
  : Driver * list (MsgQueue * MsgQueueItem) -> Prop :=
  | section_start : section_reachable s0 s0
  | section_next s s' :
      section_reachable s0 s -> section_step s s' -> section_reachable s0 s'.

(** The node id of bit [j] of byte [i] of the init-data bitmap, and whether
    the bit is set in the frame [data]. *)
Definition node_of_position (ij : nat * nat) : Z :=
  uint8 (Z.of_nat (fst ij) * 8 + Z.of_nat (snd ij) + 1).

Definition bit_set (data : list Z) (ij : nat * nat) : bool :=
  negb (Z.land (byte_at data (fst ij + 5)) (Z.shiftl 1 (Z.of_nat (snd ij))) =? 0).

(** The state whose node table the first init-data response reconciles:
    the driver is marked ready and the snapshot is read. *)
Definition reconcile_start (d : Driver) : Driver :=
  snd (ReadConfig (SetDriverReady d)).

(** P2: the event of a queue is set exactly when the queue holds an
    item. *)
Definition events_match (d : Driver) : Prop :=
  forall q, qget q (m_queueEvent d) = negb (is_empty (qget q (m_msgQueue d))).

(** The frame [SOF, len, body] passes the checksum test of [ReadMsg]. *)
Definition frame_ok (len : Z) (body : list Z) : bool :=
  byte_at (SOF :: len :: body) (Z.to_nat (len + 2 - 1))
  =? frame_checksum (SOF :: len :: body) (len + 2).

End Notions.

(** Value ids as numbers with the node id in the top byte of 32 bits; every
    node holds every value. *)
Definition sample_values : ValueStore :=
  {| ValueID := Z;
     GetNodeId := fun v => Z.shiftr v 24;
     GetValue := fun _ _ => true |}.

(** A snapshot of the current version for home id 0x0184f0a3 whose node_id
    attribute is 257, with one node element. *)
Definition snapshot_257 : XmlElem :=
  mkXmlElem "Driver"
    [("version", 3); ("home_id", 0x0184f0a3); ("node_id", 257)]
    [("Node", [("id", 5)])].

(** A snapshot of version 2. *)
Definition snapshot_v2 : XmlElem :=
  mkXmlElem "Driver"
    [("version", 2); ("home_id", 0x0184f0a3); ("node_id", 1)]
    [("Node", [("id", 5)])].

(** A snapshot of the current version whose node elements have the ids 0,
    233 and 511. *)
Definition snapshot_out_of_range : XmlElem :=
  mkXmlElem "Driver"
    [("version", 3); ("home_id", 0x0184f0a3); ("node_id", 1)]
    [("Node", [("id", 0)]); ("Node", [("id", 233)]); ("Node", [("id", 511)])].

(** The environment without a snapshot file and without virtual nodes. *)
Definition plain_ext : External := sample_ext None (fun _ => false).

(** A Basic Set for node 5 in a SEND_DATA request with callback id 0x0a;
    the reply expected is the SEND_DATA function itself. *)
Definition send_data_msg : Msg :=
  mkMsg 5 0x0a 0x13 0 0
        [0x01; 0x0a; 0x00; 0x13; 0x05; 0x03; 0x20; 0x01; 0xff; 0x25; 0x0a; 0x11].

(** The driver of home 0x0184f0a3, controller node 1, after [SendMsg] of
    that message on the Send queue. *)
Definition driver_with_send_data : Driver :=
  SendMsg (ext := plain_ext) send_data_msg MsgQueue_Send (fresh_driver 0x0184f0a3 1).

(** The controller's answers to it: the SEND_DATA response and the
    SEND_DATA callback with callback id 0x0a and transmit status OK. *)
Definition send_data_response : FrameRead := Body 4 [0x01; 0x13; 0x01; 0xe8].
Definition send_data_callback : FrameRead := Body 5 [0x00; 0x13; 0x0a; 0x00; 0xe3].

(** Turns of the driver thread one after the other, dropping what is handed
    to the watchers. *)
Fixpoint driver_turns {ext : External} (ws : list WaitResult) (d : Driver)
  : option Driver :=
  match ws with
  | [] => Some d
  | w :: ws =>
      match DriverThread_turn w d with
      | Some (_, d) => driver_turns ws d
      | None => None
      end
  end.

(** The message is sent, the ACK of the controller is lost on the link,
    and the response and the callback arrive. *)
Definition lost_ack_run : option Driver :=
  driver_turns (ext := plain_ext)
    [Wait_Queue MsgQueue_Send;
     Wait_Data (Some SOF) send_data_response;
     Wait_Data (Some SOF) send_data_callback]
    driver_with_send_data.

(** Node 7, a battery device with a WakeUp class that is awake. *)
Definition sleeper_node (awake : bool) : Node :=
  mkNode 7 false false false QueryStage_Complete 0 (Some (mkWakeUp awake [])).

Definition driver_with_sleeper (awake : bool) : Driver :=
  set_m_nodes (<[7 := sleeper_node awake]> ∅) (fresh_driver 0x0184f0a3 1).

(** Messages for node 7: two Basic Gets with callback ids 0x0b and 0x0c, and
    a Wake Up No More Information with callback id 0x0d. *)
Definition msg7a : Msg :=
  mkMsg 7 0x0b 0x04 0x20 0
        [0x01; 0x09; 0x00; 0x13; 0x07; 0x02; 0x20; 0x02; 0x25; 0x0b; 0xc4].

Definition msg7b : Msg :=
  mkMsg 7 0x0c 0x04 0x20 0
        [0x01; 0x09; 0x00; 0x13; 0x07; 0x02; 0x20; 0x02; 0x25; 0x0c; 0xc3].

Definition msg7_no_more_information : Msg :=
  mkMsg 7 0x0d 0x13 0 0
        [0x01; 0x09; 0x00; 0x13; 0x07; 0x02; 0x84; 0x08; 0x25; 0x0d; 0x6c].

(** Node 7 is awake; the three messages for it and one for node 5 are
    submitted, and the first is sent and acknowledged by the controller. *)
Definition sleeper_in_flight : option Driver :=
  driver_turns (ext := plain_ext)
    [Wait_Queue MsgQueue_Send; Wait_Data (Some ACK) LengthTimeout]
    (SendMsg (ext := plain_ext) send_data_msg MsgQueue_Send
       (SendMsg (ext := plain_ext) msg7_no_more_information MsgQueue_WakeUp
          (SendMsg (ext := plain_ext) msg7b MsgQueue_Send
             (SendMsg (ext := plain_ext) msg7a MsgQueue_Send
                (driver_with_sleeper true))))).

Definition sleeper_state : Driver :=
  match sleeper_in_flight with
  | Some d => d
  | None => driver_with_sleeper true
  end.

(** The payloads of the callbacks for callback id 0x0b with transmit status
    NO_ACK, of SEND_DATA and of REPLICATION_SEND_DATA, and with status
    NO_ROUTE. *)
Definition no_ack_callback : list Z := [0x00; 0x13; 0x0b; 0x01].
Definition no_ack_replication_callback : list Z := [0x00; 0x45; 0x0b; 0x01].
Definition no_route_callback : list Z := [0x00; 0x13; 0x0b; 0x04].

(** The payload of an init-data response with the bits of the nodes 2, 5
    and 9 set. *)
Definition init_data_2_5_9 : list Z :=
  [0x01; 0x02; 0x05; 0x00; 29; 0x12; 0x01] ++ repeat 0 27 ++ [0x03; 0x01].

(** A snapshot with the nodes 2, 5 and 7. *)
Definition snapshot_2_5_7 : XmlElem :=
  mkXmlElem "Driver"
    [("version", 3); ("home_id", 0x0184f0a3); ("node_id", 1)]
    [("Node", [("id", 2)]); ("Node", [("id", 5)]); ("Node", [("id", 7)])].

(** Three mains-powered nodes that are Complete and a sleeper at its first
    stage; then the sleeper Complete as well. *)
Definition mains_node (nodeId : Z) : Node :=
  mkNode nodeId true false false QueryStage_Complete 0 None.

Definition driver_s5 (sleeper_stage : QueryStage) (awakeQueried : bool) : Driver :=
  set_m_awakeNodesQueried awakeQueried
    (set_m_nodes
       (<[4 := mkNode 4 false false false sleeper_stage 0 (Some (mkWakeUp false []))]>
          (<[3 := mains_node 3]> (<[2 := mains_node 2]> (<[1 := mains_node 1]> ∅))))
       (fresh_driver 0x0184f0a3 1)).

(** * More of the driver

    Functions of Driver.cpp around those above: the answers of the
    controller that set the ids and the virtual neighbours, the rest of the
    poll list, and the mutexes of the poll functions. *)

(** ** Opening the controller

    The outer loop of [DriverThreadProc] after an [Init] that has failed:
    [attempts] is incremented; the thread gives up, [None], when the option
    DriverMaxAttempts is not 0 and is reached, and otherwise waits 5 or 30
    seconds before the next [Init].  Both numbers are uint32. *)
Definition Init_failed (maxAttempts attempts : Z) : Z * option Z :=
  let attempts := incr attempts in
  if negb (maxAttempts =? 0) && (maxAttempts <=? attempts) then (attempts, None)
  else if attempts <? 25 then (attempts, Some 5000)
  else (attempts, Some 30000).

(** [n] calls of [Init] in a row that fail, with no exit signalled: the
    waits between them in milliseconds, and whether the thread has given
    up. *)
Fixpoint Init_failures (n : nat) (maxAttempts attempts : Z) : list Z * bool :=
  match n with
  | O => ([], false)
  | S n =>
      match Init_failed maxAttempts attempts with
      | (_, None) => ([], true)
      | (attempts, Some timeout) =>
          let '(waits, gave_up) := Init_failures n maxAttempts attempts in
          (timeout :: waits, gave_up)
      end
  end.

(** The wait after the [k]-th failed [Init]. *)
Definition retry_wait (k : nat) : Z := if Z.of_nat k <? 25 then 5000 else 30000.

(** ** The ids of the controller *)

Definition set_m_homeId (v : Z) (d : Driver) : Driver :=
  mkDriver (m_init d) (m_awakeNodesQueried d) (m_allNodesQueried d)
  (m_notifytransactions d) v (m_nodeId d) (m_initVersion d)
  (m_initCaps d) (m_controllerCaps d) (m_pollInterval d) (m_nodes d)
  (m_virtualNeighbors d) (m_currentMsg d) (m_waitingForAck d)
  (m_expectedCallbackId d) (m_expectedReply d) (m_expectedCommandClassId d)
  (m_expectedNodeId d) (m_msgQueue d) (m_queueEvent d) (m_stats d)
  (m_written d) (m_notifications d).

Definition set_m_nodeId (v : Z) (d : Driver) : Driver :=
  mkDriver (m_init d) (m_awakeNodesQueried d) (m_allNodesQueried d)
  (m_notifytransactions d) (m_homeId d) v (m_initVersion d)
  (m_initCaps d) (m_controllerCaps d) (m_pollInterval d) (m_nodes d)
  (m_virtualNeighbors d) (m_currentMsg d) (m_waitingForAck d)
  (m_expectedCallbackId d) (m_expectedReply d) (m_expectedCommandClassId d)
  (m_expectedNodeId d) (m_msgQueue d) (m_queueEvent d) (m_stats d)
  (m_written d) (m_notifications d).

Definition set_m_virtualNeighbors (v : list Z) (d : Driver) : Driver :=
  mkDriver (m_init d) (m_awakeNodesQueried d) (m_allNodesQueried d)
  (m_notifytransactions d) (m_homeId d) (m_nodeId d) (m_initVersion d)
  (m_initCaps d) (m_controllerCaps d) (m_pollInterval d) (m_nodes d)
  v (m_currentMsg d) (m_waitingForAck d)
  (m_expectedCallbackId d) (m_expectedReply d) (m_expectedCommandClassId d)
  (m_expectedNodeId d) (m_msgQueue d) (m_queueEvent d) (m_stats d)
  (m_written d) (m_notifications d).

(** [((uint32)_data[i]) << s]: a byte of the frame, widened and shifted
    within 32 bits. *)
Definition shifted_byte (data : list Z) (i : nat) (s : Z) : Z :=
  uint32 (Z.shiftl (byte_at data i) s).

(** [HandleMemoryGetIdResponse]: the home id is put together from four
    bytes, the most significant first.  The replication class created at
    the end is not part of the state. *)
Definition HandleMemoryGetIdResponse (data : list Z) (d : Driver) : Driver :=
  let d := set_m_homeId
             (Z.lor (Z.lor (Z.lor (shifted_byte data 2 24) (shifted_byte data 3 16))
                           (shifted_byte data 4 8))
                    (byte_at data 5)) d in
  set_m_nodeId (byte_at data 6) d.

(** ** The virtual neighbours *)

(** [HandleGetVirtualNodesResponse]: 29 bytes are copied from the frame;
    the boolean is [m_virtualNeighborsReceived] after the call. *)
Definition HandleGetVirtualNodesResponse (data : list Z) (d : Driver) : bool * Driver :=
  (true,
   set_m_virtualNeighbors
     (map (fun i => byte_at data (2 + i)) (seq 0 29))
     d).

(** [for( unsigned char mask = 0x80; mask != 0; mask >>= 1 )] *)
Definition neighbor_masks : list Z := map (fun k => Z.shiftr 0x80 (Z.of_nat k)) (seq 0 8).

(** The first two loops of [GetVirtualNeighbors], which count into the
    uint32 [numNeighbors]. *)
Definition count_neighbors (bytes : list Z) : Z :=
  fold_left
    (fun numNeighbors i =>
       fold_left
         (fun numNeighbors mask =>
            if negb (Z.land (byte_at bytes i) mask =? 0) then incr numNeighbors
            else numNeighbors)
         neighbor_masks numNeighbors)
    (seq 0 29) 0.

(** The loops that fill the array: [neighbors[index++] = (by<<3) + bi + 1],
    as appending to the ids written so far. *)
Definition fill_neighbors (bytes : list Z) : list Z :=
  fold_left
    (fun neighbors by_ =>
       fold_left
         (fun neighbors bi =>
            if negb (Z.land (byte_at bytes by_) (Z.shiftl 1 (Z.of_nat bi)) =? 0)
            then neighbors ++ [uint8 (Z.shiftl (Z.of_nat by_) 3 + Z.of_nat bi + 1)]
            else neighbors)
         (seq 0 8) neighbors)
    (seq 0 29) [].

(** [GetVirtualNeighbors]: the number returned and the array handed out,
    [None] for NULL.  [received] is [m_virtualNeighborsReceived]. *)
Definition GetVirtualNeighbors (received : bool) (d : Driver) : Z * option (list Z) :=
  if negb received then (0, None)
  else
    let numNeighbors := count_neighbors (m_virtualNeighbors d) in
    if numNeighbors =? 0 then (0, None)
    else (numNeighbors, Some (fill_neighbors (m_virtualNeighbors d))).

(** Bit [bi] of byte [by_] of the array is set. *)
Definition neighbor_bit (bytes : list Z) (by_ bi : nat) : bool :=
  negb (Z.land (byte_at bytes by_) (Z.shiftl 1 (Z.of_nat bi)) =? 0).

(** The ids of the set bits of the 29 bytes, in the order of the
    positions. *)
Definition neighbor_ids (bytes : list Z) : list Z :=
  map (fun ij => Z.of_nat (fst ij) * 8 + Z.of_nat (snd ij) + 1)
      (List.filter (fun ij => neighbor_bit bytes (fst ij) (snd ij)) bitmap_positions).

(** ** The rest of the poll list *)

Section PollerMore.

Context {vs : ValueStore}.

(** [isPolled] *)
Definition isPolled (v : ValueID) (d : Driver) (m_pollList : list ValueID) : bool :=
  match m_nodes d !! uint8 (GetNodeId v) with
  | Some _ => on_poll_list v m_pollList
  | None => false
  end.

(** A value cut to the int32 [pollInterval], and a value converted to the
    unsigned [size_t] of the division by [m_pollList.size()]; the width of
    [size_t], 32 or 64 bits, is the platform's. *)
Definition int32 (x : Z) : Z := (x + 2147483648) mod 4294967296 - 2147483648.

Definition size_t (bits x : Z) : Z := x mod 2 ^ bits.

(** One turn of the loop of [PollThreadProc]: the value whose turn it is,
    the time in milliseconds the thread then waits, and the poll list.
    [pollInterval] is an int32: the product with 1000 is cut to it, and
    [pollInterval /= m_pollList.size()] divides as [size_t], the int32
    converted to the unsigned type and the quotient converted back. *)
Definition PollThread_turn (bits : Z) (d : Driver) (m_pollList : list ValueID)
  : option ValueID * Z * list ValueID :=
  let pollInterval := int32 (m_pollInterval d * 1000) in
  match m_pollList with
  | valueId :: rest =>
      if m_awakeNodesQueried d then
        let m_pollList := rest ++ [valueId] in
        let pollInterval :=
          int32 (size_t bits pollInterval / Z.of_nat (length m_pollList)) in
        (Some valueId, pollInterval, m_pollList)
      else (None, pollInterval, m_pollList)
  | [] => (None, pollInterval, m_pollList)
  end.

(** [n] turns of the poll thread with nothing else touching the poll list
    or the driver: the values polled, in order, the time waited in all, and
    the poll list. *)
Fixpoint PollThread_turns (bits : Z) (n : nat) (d : Driver) (m_pollList : list ValueID)
  : list ValueID * Z * list ValueID :=
  match n with
  | O => ([], 0, m_pollList)
  | S n =>
      let '(polled, wait, l) := PollThread_turn bits d m_pollList in
      let '(more, waits, l) := PollThread_turns bits n d l in
      (match polled with Some v => v :: more | None => more end, wait + waits, l)
  end.

(** *** The mutexes of the poll functions

    Each function as the calls of Lock and Unlock it makes, in program
    order; [GetNode] locks the nodes and releases them itself when the slot
    is empty. *)

Inductive Mutex : Type := m_pollMutex | m_nodeMutex.

#[global] Instance Mutex_eq_dec : EqDecision Mutex.
Proof. solve_decision. Defined.

Inductive MutexOp : Type :=
  | Lock (m : Mutex)
  | Unlock (m : Mutex).

Definition GetNode_mutex (nodeId : Z) (d : Driver) : list MutexOp :=
  Lock m_nodeMutex
  :: match m_nodes d !! nodeId with
     | Some _ => []
     | None => [Unlock m_nodeMutex]   (* ReleaseNodes *)
     end.

Definition EnablePoll_mutex (v : ValueID) (d : Driver) (m_pollList : list ValueID)
  : list MutexOp :=
  Lock m_pollMutex
  :: GetNode_mutex (uint8 (GetNodeId v)) d
  ++ match m_nodes d !! uint8 (GetNodeId v) with
     | Some node =>
         if GetValue node v then
           if on_poll_list v m_pollList
           then [Unlock m_pollMutex; Unlock m_nodeMutex]
           else [Unlock m_pollMutex; Unlock m_nodeMutex]
         else [Unlock m_pollMutex]
     | None => []
     end.

Definition DisablePoll_mutex (v : ValueID) (d : Driver) (m_pollList : list ValueID)
  : list MutexOp :=
  Lock m_pollMutex
  :: GetNode_mutex (uint8 (GetNodeId v)) d
  ++ match m_nodes d !! uint8 (GetNodeId v) with
     | Some _ =>
         if on_poll_list v m_pollList
         then [Unlock m_pollMutex; Unlock m_nodeMutex]
         else [Unlock m_pollMutex; Unlock m_nodeMutex]
     | None => [Unlock m_pollMutex]
     end.

Definition isPolled_mutex (v : ValueID) (d : Driver) (m_pollList : list ValueID)
  : list MutexOp :=
  Lock m_pollMutex
  :: GetNode_mutex (uint8 (GetNodeId v)) d
  ++ match m_nodes d !! uint8 (GetNodeId v) with
     | Some _ =>
         if on_poll_list v m_pollList
         then [Unlock m_pollMutex; Unlock m_nodeMutex]
         else [Unlock m_pollMutex; Unlock m_nodeMutex]
     | None => [Unlock m_pollMutex]
     end.

(** How often [m] is locked more than unlocked by the calls [ops]. *)
Fixpoint held (m : Mutex) (ops : list MutexOp) : Z :=
  match ops with
  | [] => 0
  | Lock m' :: ops => (if decide (m' = m) then 1 else 0) + held m ops
  | Unlock m' :: ops => held m ops - (if decide (m' = m) then 1 else 0)
  end.

End PollerMore.

(** ** More notions *)

Section MoreNotions.

Context {ext : External}.

(** The node ids that [ReadConfig] reads from the children of a snapshot,
    in the order of the document: those of the Node elements that have an
    id attribute, cut to 8 bits. *)
Definition snapshot_node_ids (root : TiXmlElement) : list Z :=
  flat_map
    (fun e =>
       match Value e with
       | Some str =>
           if String.eqb str "Node" then
             match QueryIntAttribute e "id" with
             | Some intVal => [uint8 intVal]
             | None => []
             end
           else []
       | None => []
       end)
    (ChildElements root).

(** The state in which [HandleSerialAPIGetInitDataResponse] starts on the
    bitmap: on the first response the driver is marked ready and the
    snapshot is read. *)
Definition bitmap_start (d : Driver) : Driver :=
  if negb (m_init d) then reconcile_start d else d.

(** The three kinds of notification of the loops over the bitmap. *)
Definition node_table_event (n : Notification) : Prop :=
  n_type n = Type_NodeNew \/ n_type n = Type_NodeAdded \/ n_type n = Type_NodeRemoved.

(** What the statistics leave unexplained: the frames started that were
    neither aborted, nor refused for their checksum, nor read; and the
    writes to the controller that are neither a message written nor the
    ACK or NAK that answers a frame or a stray byte. *)
Definition frames_gap (d : Driver) : Z :=
  m_SOFCnt (m_stats d)
  - (m_readAborts (m_stats d) + m_badChecksum (m_stats d) + m_readCnt (m_stats d)).

Definition writes_gap (d : Driver) : Z :=
  Z.of_nat (length (m_written d))
  - (m_writeCnt (m_stats d) + m_readCnt (m_stats d) + m_badChecksum (m_stats d)
     + m_OOFCnt (m_stats d)).

(** A step leaves the statistics and the link alone. *)
Definition link_untouched (d d' : Driver) : Prop :=
  m_stats d' = m_stats d /\ m_written d' = m_written d.

(** What a turn of the driver thread keeps of the statistics. *)
Definition accounted (d d' : Driver) : Prop :=
  uint32 (frames_gap d') = uint32 (frames_gap d)
  /\ uint32 (writes_gap d') = uint32 (writes_gap d)
  /\ m_dropped (m_stats d') = m_dropped (m_stats d)
  /\ m_retries (m_stats d') = m_retries (m_stats d)
  /\ m_controllerReadCnt (m_stats d') = m_controllerReadCnt (m_stats d).

End MoreNotions.

(** ** More sample states and frames *)

(** The driver once the SEND_DATA message of [driver_with_send_data] has
    been dequeued and written: it waits for the ACK, the callback 0x0a and
    the reply. *)
Definition sent_state : Driver :=
  match WriteNextMsg (ext := plain_ext) MsgQueue_Send driver_with_send_data with
  | Some (_, d) => d
  | None => driver_with_send_data
  end.

(** A SEND_DATA message for node 5 that asks for the callback 0x0a and for
    no reply, and the driver once it has been written and the controller
    has acknowledged the frame. *)
Definition send_data_no_reply : Msg :=
  mkMsg 5 0x0a 0 0 0
        [0x01; 0x0a; 0x00; 0x13; 0x05; 0x03; 0x20; 0x01; 0xff; 0x25; 0x0a; 0x11].

Definition written_no_reply : Driver :=
  snd (WriteMsg (set_m_currentMsg (Some send_data_no_reply)
                   (fresh_driver 0x0184f0a3 1))).

Definition no_reply_state : Driver :=
  match ReadMsg (ext := plain_ext) (Some ACK) LengthTimeout written_no_reply with
  | Some (_, d) => d
  | None => written_no_reply
  end.

(** The state [sleeper_state] with a QueryStageComplete marker of node 7 on
    the Query queue, as [SendQueryStageComplete] leaves it there while the
    node is awake. *)
Definition sleeper_state_marker : Driver :=
  SendQueryStageComplete 7 QueryStage_ProtocolInfo MsgQueue_Query sleeper_state.

(** The payload of the SEND_DATA callback for callback id 0x0a with
    transmit status NO_ACK. *)
Definition no_ack_callback_0a : list Z := [0x00; 0x13; 0x0a; 0x01].

(** The payload of the SEND_DATA callback for callback id 0x0a with
    transmit status OK. *)
Definition ok_callback : list Z := [0x00; 0x13; 0x0a; 0x00].

(** A driver that has handled its first init-data response and knows the
    mains-powered node 2. *)
Definition ready_driver : Driver :=
  set_m_init true
    (set_m_nodes (<[2 := mains_node 2]> ∅) (fresh_driver 0x0184f0a3 1)).

(** The payload of the answer to MEMORY_GET_ID for home 0x0184f0a3 and
    controller node 1. *)
Definition memory_id_response : list Z := [0x01; 0x20; 0x01; 0x84; 0xf0; 0xa3; 0x01].

(** The payload of an answer to GET_VIRTUAL_NODES with the bits of the
    nodes 2 and 5. *)
Definition virtual_nodes_2_5 : list Z := [0x01; 0xa5; 0x12] ++ repeat 0 28.

(** Node 5 with its values, the awake nodes queried, and a poll interval of
    30 seconds. *)
Definition polling_driver : Driver :=
  set_m_awakeNodesQueried true
    (set_m_nodes (<[5 := mains_node 5]> ∅) (fresh_driver 0x0184f0a3 1)).

(** * Properties *)

Section Properties.

Context {ext : External}.

(** Projections of the driver out of its setters. *)
Ltac driver_simpl :=
  cbn [m_init m_awakeNodesQueried m_allNodesQueried m_notifytransactions
       m_homeId m_nodeId m_initVersion m_initCaps m_controllerCaps
       m_pollInterval m_nodes m_virtualNeighbors m_currentMsg
       m_waitingForAck m_expectedCallbackId m_expectedReply
       m_expectedCommandClassId m_expectedNodeId m_msgQueue m_queueEvent
       m_stats m_written m_notifications set_m_init set_m_awakeNodesQueried
       set_m_allNodesQueried set_m_initVersion set_m_initCaps
       set_m_controllerCaps set_m_pollInterval set_m_nodes set_m_currentMsg
       set_m_waitingForAck set_m_expectedCallbackId set_m_expectedReply
       set_m_expectedCommandClassId set_m_expectedNodeId set_m_msgQueue
       set_m_queueEvent set_m_stats set_m_written set_m_notifications
       clear_expectations RemoveCurrentMsg QueueNotification
       controller_Write upd_stats fst snd].

(** *** The framer *)

Lemma fold_xor_seq (l : list Z) (n a : nat) (c : Z) :
  (a + n <= length l)%nat ->
  fold_left (fun checksum i => Z.lxor checksum (byte_at l i)) (seq a n) c
  = fold_left Z.lxor (firstn n (skipn a l)) c.
Proof.
  revert a c. induction n as [|n IH]; intros a c Hlen; [reflexivity|].
  destruct (skipn a l) as [|x t] eqn:Hs.
  - apply (f_equal (@length Z)) in Hs. rewrite length_skipn in Hs. simpl in Hs. lia.
  - simpl. rewrite IH by lia.
    assert (Hx : byte_at l a = x).
    { unfold byte_at. rewrite <- (firstn_skipn a l) at 1.
      rewrite app_nth2; rewrite length_firstn; [|lia].
      replace (a - a `min` length l)%nat with 0%nat by lia. rewrite Hs. reflexivity. }
    assert (Ht : skipn (S a) l = t).
    { replace (S a) with (1 + a)%nat by lia. rewrite <- skipn_skipn, Hs. reflexivity. }
    rewrite Hx, Ht. reflexivity.
Qed.

Lemma frame_checksum_frame (len type function trailing : Z) (payload : list Z) :
  len = 3 + Z.of_nat (length payload) ->
  frame_checksum (SOF :: len :: type :: function :: payload ++ [trailing]) (len + 2)
  = fold_left Z.lxor (len :: type :: function :: payload) 0xff.
Proof.
  intros ->. unfold frame_checksum. rewrite fold_xor_seq.
  - replace (Z.to_nat (3 + Z.of_nat (length payload) + 2 - 2))
      with (S (S (S (length payload)))) by lia.
    cbn [skipn firstn]. rewrite firstn_app, firstn_all, Nat.sub_diag.
    cbn [firstn]. rewrite app_nil_r. reflexivity.
  - cbn [length]. rewrite length_app. cbn [length]. lia.
Qed.

Lemma frame_trailing_byte (len type function trailing : Z) (payload : list Z) :
  len = 3 + Z.of_nat (length payload) ->
  byte_at (SOF :: len :: type :: function :: payload ++ [trailing])
          (Z.to_nat (len + 2 - 1)) = trailing.
Proof.
  intros ->. unfold byte_at.
  replace (Z.to_nat (3 + Z.of_nat (length payload) + 2 - 1))
    with (S (S (S (S (length payload))))) by lia.
  cbn [nth]. rewrite app_nth2 by lia. rewrite Nat.sub_diag. reflexivity.
Qed.

(** C4. For a fully received frame [SOF, length, type, function, payload,
    trailing byte] the driver recomputes the checksum as 0xff XOR length XOR
    type XOR function XOR the payload bytes.  When the trailing byte equals
    it, one ACK is written and the payload goes to [ProcessMsg], the
    bad-checksum counter untouched; otherwise one NAK is written, the
    bad-checksum counter is incremented by one (as a uint32), and the frame
    is not dispatched: no notification is queued and neither the
    transaction state, the queues nor the nodes change. *)
Theorem ReadMsg_checksum (d : Driver) (type function trailing : Z) (payload : list Z) :
  let len := 3 + Z.of_nat (length payload) in
  let body := type :: function :: payload ++ [trailing] in
  let checksum := fold_left Z.lxor (len :: type :: function :: payload) 0xff in
  (trailing = checksum ->
   exists d1,
     ReadMsg (Some SOF) (Body len body) d = option_map (pair true) (ProcessMsg body d1)
     /\ m_written d1 = m_written d ++ [[ACK]]
     /\ m_badChecksum (m_stats d1) = m_badChecksum (m_stats d)
     /\ m_notifications d1 = m_notifications d)
  /\ (trailing <> checksum ->
      exists d',
        ReadMsg (Some SOF) (Body len body) d = Some (true, d')
        /\ d' = controller_Write [NAK]
                 (upd_stats (fun s => set_m_badChecksum (incr (m_badChecksum s)) s)
                            (sof_counted d))
        /\ m_written d' = m_written d ++ [[NAK]]
        /\ m_badChecksum (m_stats d') = incr (m_badChecksum (m_stats d))
        /\ m_notifications d' = m_notifications d
        /\ m_currentMsg d' = m_currentMsg d
        /\ m_waitingForAck d' = m_waitingForAck d
        /\ m_expectedCallbackId d' = m_expectedCallbackId d
        /\ m_expectedReply d' = m_expectedReply d
        /\ m_msgQueue d' = m_msgQueue d
        /\ m_nodes d' = m_nodes d).
Proof.
  intros len body checksum.
  assert (Hck : frame_checksum (SOF :: len :: body) (len + 2) = checksum)
    by (apply frame_checksum_frame; reflexivity).
  assert (Htr : byte_at (SOF :: len :: body) (Z.to_nat (len + 2 - 1)) = trailing)
    by (apply frame_trailing_byte; reflexivity).
  split; intros Hcmp.
  - eexists. unfold ReadMsg. rewrite Z.eqb_refl.
    cbv zeta. rewrite Hck, Htr. rewrite (proj2 (Z.eqb_eq _ _) Hcmp).
    split; [reflexivity|].
    destruct (m_waitingForAck d) eqn:Hw; cbn; rewrite Hw; cbn; auto.
  - eexists. unfold ReadMsg. rewrite Z.eqb_refl.
    cbv zeta. rewrite Hck, Htr. rewrite (proj2 (Z.eqb_neq _ _) Hcmp).
    split; [reflexivity|]. unfold sof_counted.
    destruct (m_waitingForAck d) eqn:Hw; cbn; rewrite Hw; cbn; repeat split; auto.
Qed.

(** *** Persistence *)

Lemma ReadConfig_child_homeId (d : Driver) (e : TiXmlElement) :
  m_homeId (ReadConfig_child d e) = m_homeId d.
Proof.
  unfold ReadConfig_child. destruct (Value e) as [str|]; [|reflexivity].
  destruct (String.eqb str "Node"); [|reflexivity].
  destruct (QueryIntAttribute e "id"); reflexivity.
Qed.

Lemma ReadConfig_child_keeps (d : Driver) (e : TiXmlElement) (k : Z) (n : Notification) :
  (is_Some (m_nodes d !! k) -> is_Some (m_nodes (ReadConfig_child d e) !! k))
  /\ (In n (m_notifications d) -> In n (m_notifications (ReadConfig_child d e))).
Proof.
  unfold ReadConfig_child. destruct (Value e) as [str|]; [|tauto].
  destruct (String.eqb str "Node"); [|tauto].
  destruct (QueryIntAttribute e "id") as [intVal|]; [|tauto].
  cbn. split.
  - intros Hk. apply lookup_alter_is_Some. apply lookup_insert_is_Some'. auto.
  - intros Hn. apply in_or_app. auto.
Qed.

Lemma ReadConfig_child_adds (d : Driver) (e : TiXmlElement) (intVal : Z) :
  Value e = Some "Node"%string ->
  QueryIntAttribute e "id" = Some intVal ->
  is_Some (m_nodes (ReadConfig_child d e) !! uint8 intVal)
  /\ In (mkNotification Type_NodeAdded (m_homeId d) (uint8 intVal))
        (m_notifications (ReadConfig_child d e)).
Proof.
  intros Hv Hid. unfold ReadConfig_child. rewrite Hv, Hid. cbn. split.
  - apply lookup_alter_is_Some. rewrite lookup_insert_eq. eauto.
  - apply in_or_app. right. left. reflexivity.
Qed.

Lemma ReadConfig_children_keep (l : list TiXmlElement) (d : Driver) (k : Z)
    (n : Notification) :
  m_homeId (fold_left ReadConfig_child l d) = m_homeId d
  /\ (is_Some (m_nodes d !! k) ->
      is_Some (m_nodes (fold_left ReadConfig_child l d) !! k))
  /\ (In n (m_notifications d) ->
      In n (m_notifications (fold_left ReadConfig_child l d))).
Proof.
  revert d. induction l as [|e l IH]; intros d; [tauto|].
  simpl. destruct (IH (ReadConfig_child d e)) as (Hh & Hk & Hn).
  destruct (ReadConfig_child_keeps d e k n) as [Hk0 Hn0].
  rewrite Hh, ReadConfig_child_homeId. tauto.
Qed.

Lemma ReadConfig_children_add (l : list TiXmlElement) (d : Driver)
    (e : TiXmlElement) (intVal : Z) :
  In e l ->
  Value e = Some "Node"%string ->
  QueryIntAttribute e "id" = Some intVal ->
  is_Some (m_nodes (fold_left ReadConfig_child l d) !! uint8 intVal)
  /\ In (mkNotification Type_NodeAdded (m_homeId d) (uint8 intVal))
        (m_notifications (fold_left ReadConfig_child l d)).
Proof.
  revert d. induction l as [|x l IH]; intros d Hin Hv Hid; [destruct Hin|].
  simpl. destruct Hin as [->|Hin].
  - destruct (ReadConfig_child_adds d e intVal Hv Hid) as [Hk Hn].
    destruct (ReadConfig_children_keep l (ReadConfig_child d e) (uint8 intVal)
                (mkNotification Type_NodeAdded (m_homeId d) (uint8 intVal)))
      as (_ & Hk' & Hn'). auto.
  - destruct (IH (ReadConfig_child d x) Hin Hv Hid) as [Hk Hn].
    rewrite ReadConfig_child_homeId in Hn. auto.
Qed.

(** When [ReadConfig] returns true its result is the loop over the child
    elements, run from a state with the home id of the start. *)
Lemma ReadConfig_true (d d' : Driver) (root : TiXmlElement) :
  LoadFile (m_homeId d) = Some root ->
  ReadConfig d = (true, d') ->
  exists d0, m_homeId d0 = m_homeId d
             /\ m_nodes d0 = m_nodes d
             /\ m_notifications d0 = m_notifications d
             /\ d' = fold_left ReadConfig_child (ChildElements root) d0.
Proof.
  intros Hload. unfold ReadConfig. rewrite Hload.
  destruct (QueryIntAttribute root "version") as [v|]; [|discriminate].
  destruct (negb (uint32 v =? c_configVersion)); [discriminate|].
  destruct (Attribute_strtol root "home_id") as [h|]; [|discriminate].
  destruct (negb (uint32 h =? m_homeId d)); [discriminate|].
  destruct (QueryIntAttribute root "node_id") as [n|]; [|discriminate].
  destruct (negb (uint8 n =? m_nodeId d)); [discriminate|].
  intros [= <-]. eexists. split; [|split; [|split; [|reflexivity]]];
    destruct (QueryIntAttribute root "api_capabilities");
    destruct (QueryIntAttribute root "controller_capabilities");
    destruct (QueryIntAttribute root "poll_interval"); reflexivity.
Qed.

(** C8, amended. [ReadConfig] returns false and leaves the driver and the
    nodes as they are whenever the version attribute of the snapshot is
    missing or, as a uint32, differs from the schema version 3, or the
    home_id attribute is missing or its value cut to 32 bits differs from
    the driver's home id, or the node_id attribute is missing or its low
    8 bits differ from the controller's node id. *)
Theorem ReadConfig_mismatch (d : Driver) (root : TiXmlElement) :
  LoadFile (m_homeId d) = Some root ->
  snapshot_rejected d root ->
  ReadConfig d = (false, d).
Proof.
  intros Hload Hrej. unfold ReadConfig. rewrite Hload.
  destruct (QueryIntAttribute root "version") as [v|] eqn:Hv; [|reflexivity].
  destruct (uint32 v =? c_configVersion) eqn:Ev; [|reflexivity]. cbn [negb].
  destruct (Attribute_strtol root "home_id") as [h|] eqn:Hh; [|reflexivity].
  destruct (uint32 h =? m_homeId d) eqn:Eh; [|reflexivity]. cbn [negb].
  destruct (QueryIntAttribute root "node_id") as [n|] eqn:Hn; [|reflexivity].
  destruct (uint8 n =? m_nodeId d) eqn:En; [|reflexivity]. exfalso.
  apply Z.eqb_eq in Ev, Eh, En.
  destruct Hrej as [H|[(v' & H & Hne)|[H|[(h' & H & Hne)|[H|(n' & H & Hne)]]]]];
    congruence.
Qed.

(** C10. When a snapshot is loaded, every Node element whose id attribute
    reads as an integer gets an entry of the node table at the low 8 bits of
    that integer, and a NodeAdded notification for it is queued; the integer
    is not checked against any range. *)
Theorem ReadConfig_node_ids (d d' : Driver) (root e : TiXmlElement) (intVal : Z) :
  LoadFile (m_homeId d) = Some root ->
  ReadConfig d = (true, d') ->
  In e (ChildElements root) ->
  Value e = Some "Node"%string ->
  QueryIntAttribute e "id" = Some intVal ->
  is_Some (m_nodes d' !! (intVal mod 256))
  /\ In (mkNotification Type_NodeAdded (m_homeId d) (intVal mod 256))
        (m_notifications d').
Proof.
  intros Hload Hread Hin Hv Hid.
  destruct (ReadConfig_true d d' root Hload Hread) as (d0 & Hh & _ & _ & ->).
  rewrite <- Hh. apply (ReadConfig_children_add _ d0 e); assumption.
Qed.

(** *** Completion of the node queries *)

Lemma scan_nodes_fold (d : Driver) (l : list nat) (a s : bool) :
  let r := fold_left (scan_slot d) l (a, s) in
  (fst r = true <->
   a = true /\ forall i node, In i l -> m_nodes d !! Z.of_nat i = Some node ->
                              GetCurrentQueryStage node = QueryStage_Complete)
  /\ (snd r = true <->
      s = true /\ forall i node, In i l -> m_nodes d !! Z.of_nat i = Some node ->
                                 GetCurrentQueryStage node <> QueryStage_Complete ->
                                 IsListeningDevice node = false).
Proof.
  revert a s. induction l as [|i l IH]; intros a s; cbn zeta.
  - simpl. split; (split; [intros ->; split; [reflexivity | intros ? ? []] | tauto]).
  - cbn [fold_left]. unfold scan_slot at 2 4.
    destruct (m_nodes d !! Z.of_nat i) as [node|] eqn:Hi.
    + destruct (bool_decide (GetCurrentQueryStage node = QueryStage_Complete)) eqn:Hc.
      * apply bool_decide_eq_true in Hc. cbn [negb].
        destruct (IH a s) as [IHa IHs]. cbn zeta in IHa, IHs. split.
        -- rewrite IHa. split; intros [Ha H]; (split; [exact Ha|]).
           ++ intros j n [<-|Hj] Hn; [congruence | eauto].
           ++ intros j n Hj. apply H. right. exact Hj.
        -- rewrite IHs. split; intros [Hs H]; (split; [exact Hs|]).
           ++ intros j n [<-|Hj] Hn Hne; [congruence | eauto].
           ++ intros j n Hj. apply H. right. exact Hj.
      * apply bool_decide_eq_false in Hc. cbn [negb].
        destruct (IH false (if IsListeningDevice node then false else s)) as [IHa IHs].
        cbn zeta in IHa, IHs. split.
        -- rewrite IHa. split; [intros [? _]; discriminate|].
           intros [_ H]. exfalso. apply Hc. apply (H i node); [left; reflexivity | exact Hi].
        -- rewrite IHs. split.
           ++ intros [Hs H]. destruct (IsListeningDevice node) eqn:Hl; [discriminate|].
              split; [exact Hs|]. intros j n [<-|Hj] Hn Hne; [congruence | eauto].
           ++ intros [Hs H]. rewrite (H i node (or_introl eq_refl) Hi Hc).
              split; [exact Hs|]. intros j n Hj. apply H. right. exact Hj.
    + destruct (IH a s) as [IHa IHs]. cbn zeta in IHa, IHs. split.
      * rewrite IHa. split; intros [Ha H]; (split; [exact Ha|]).
        -- intros j n [<-|Hj] Hn; [congruence | eauto].
        -- intros j n Hj. apply H. right. exact Hj.
      * rewrite IHs. split; intros [Hs H]; (split; [exact Hs|]).
        -- intros j n [<-|Hj] Hn Hne; [congruence | eauto].
        -- intros j n Hj. apply H. right. exact Hj.
Qed.

Lemma in_slots (i : nat) : In i slots <-> (i < 256)%nat.
Proof. unfold slots. rewrite in_seq. lia. Qed.

Lemma scan_nodes_spec (d : Driver) :
  (fst (scan_nodes d) = true <-> all_complete d)
  /\ (snd (scan_nodes d) = true <-> sleeping_only d).
Proof.
  destruct (scan_nodes_fold d slots true true) as [Ha Hs].
  unfold scan_nodes. split.
  - rewrite Ha. unfold all_complete. split.
    + intros [_ H] i node Hi Hn. apply (H (Z.to_nat i)); [apply in_slots; lia|].
      rewrite Z2Nat.id by lia. exact Hn.
    + intros H. split; [reflexivity|]. intros i node Hi Hn.
      apply in_slots in Hi. apply (H (Z.of_nat i)); [lia | exact Hn].
  - rewrite Hs. unfold sleeping_only. split.
    + intros [_ H] i node Hi Hn. apply (H (Z.to_nat i)); [apply in_slots; lia|].
      rewrite Z2Nat.id by lia. exact Hn.
    + intros H. split; [reflexivity|]. intros i node Hi Hn.
      apply in_slots in Hi. apply (H (Z.of_nat i)); [lia | exact Hn].
Qed.

Lemma skipn_length_app {A} (l k : list A) : skipn (length l) (l ++ k) = k.
Proof. induction l; simpl; auto. Qed.

Lemma queued_by_refl (d : Driver) : queued_by d d = [].
Proof. unfold queued_by. apply skipn_all. Qed.

(** What one call of [CheckCompletedNodeQueries] queues, and where it
    leaves the two flags. *)
Lemma CheckCompletedNodeQueries_cases (d : Driver) :
  let d' := CheckCompletedNodeQueries d in
  (queued_by d d' = []
   /\ m_allNodesQueried d' = m_allNodesQueried d
   /\ m_awakeNodesQueried d' = m_awakeNodesQueried d)
  \/ (queued_by d d' = [mkNotification Type_AllNodesQueried (m_homeId d) 0xff]
      /\ m_allNodesQueried d = false /\ all_complete d
      /\ m_allNodesQueried d' = true /\ m_awakeNodesQueried d' = true)
  \/ (queued_by d d' = [mkNotification Type_AwakeNodesQueried (m_homeId d) 0xff]
      /\ m_awakeNodesQueried d = false /\ sleeping_only d
      /\ m_allNodesQueried d' = m_allNodesQueried d /\ m_awakeNodesQueried d' = true).
Proof.
  cbn zeta. unfold CheckCompletedNodeQueries.
  destruct (scan_nodes_spec d) as [Ha Hs].
  destruct (m_allNodesQueried d) eqn:Hall; cbn [negb].
  { left. rewrite queued_by_refl. auto. }
  destruct (scan_nodes d) as [all sl]. cbn [fst snd] in Ha, Hs.
  destruct all.
  { right. left. unfold queued_by. cbn. rewrite skipn_length_app.
    repeat split; auto. apply Ha. reflexivity. }
  destruct sl.
  - destruct (m_awakeNodesQueried d) eqn:Haw; cbn [negb].
    + left. rewrite queued_by_refl. auto.
    + right. right. unfold queued_by. cbn. rewrite skipn_length_app.
      repeat split; auto. apply Hs. reflexivity.
  - left. rewrite queued_by_refl. auto.
Qed.

Lemma count_type_app (t : NotificationType) (tr1 tr2 : list (Driver * Notification)) :
  count_type t (tr1 ++ tr2) = (count_type t tr1 + count_type t tr2)%nat.
Proof. unfold count_type. rewrite List.filter_app, length_app. reflexivity. Qed.

Lemma count_type_other (t : NotificationType) (d : Driver) (ns : list Notification) :
  Forall (fun n => n_type n <> t) ns -> count_type t (map (pair d) ns) = 0%nat.
Proof.
  induction 1 as [|n ns Hn _ IH]; [reflexivity|].
  unfold count_type in *. cbn [map List.filter]. unfold is_type at 1. cbn [snd].
  rewrite bool_decide_eq_false_2 by exact Hn. exact IH.
Qed.

Lemma count_type_one (t : NotificationType) (d : Driver) (n : Notification) :
  n_type n = t -> count_type t (map (pair d) [n]) = 1%nat.
Proof.
  intros Hn. unfold count_type. cbn [map List.filter]. unfold is_type. cbn [snd].
  rewrite bool_decide_eq_true_2 by exact Hn. reflexivity.
Qed.

(** The invariant of an execution: a notification of the kind is in the
    trace at most once, and when it is there its flag is set. *)
Lemma execution_invariant (d0 d : Driver) (tr : list (Driver * Notification)) :
  execution d0 tr d ->
  (count_type Type_AllNodesQueried tr = 0%nat
   \/ (count_type Type_AllNodesQueried tr = 1%nat /\ m_allNodesQueried d = true))
  /\ (count_type Type_AwakeNodesQueried tr = 0%nat
      \/ (count_type Type_AwakeNodesQueried tr = 1%nat /\ m_awakeNodesQueried d = true))
  /\ (forall dd n, In (dd, n) tr -> n_type n = Type_AllNodesQueried -> all_complete dd)
  /\ (forall dd n, In (dd, n) tr -> n_type n = Type_AwakeNodesQueried -> sleeping_only dd).
Proof.
  induction 1 as [|tr d Hex (IHall & IHaw & IHc & IHs)
                  |tr d ns d' Hex (IHall & IHaw & IHc & IHs) Hfa Hfw Hns].
  - repeat split; auto; intros ? ? [].
  - rewrite !count_type_app.
    destruct (CheckCompletedNodeQueries_cases d)
      as [(Hq & Ha & Hw)|[(Hq & Ha & Hc & Ha' & Hw')|(Hq & Hw & Hs & Ha' & Hw')]];
      cbn zeta in *; rewrite Hq.
    + cbn [map]. unfold count_type at 2 4 6 8. cbn [List.filter length].
      rewrite !Nat.add_0_r, Ha, Hw, app_nil_r. auto.
    + rewrite (count_type_one Type_AllNodesQueried) by reflexivity.
      rewrite (count_type_other Type_AwakeNodesQueried)
        by (repeat constructor; discriminate).
      rewrite !Nat.add_0_r. split; [|split; [|split]].
      * right. destruct IHall as [->|[_ Hf]]; [auto | congruence].
      * destruct IHaw as [?|[? _]]; auto.
      * intros dd n Hin Ht. apply in_app_or in Hin. destruct Hin as [Hin|Hin]; [eauto|].
        cbn in Hin. destruct Hin as [[= <- <-]|[]]. exact Hc.
      * intros dd n Hin Ht. apply in_app_or in Hin. destruct Hin as [Hin|Hin]; [eauto|].
        cbn in Hin. destruct Hin as [[= <- <-]|[]]. discriminate.
    + rewrite (count_type_one Type_AwakeNodesQueried) by reflexivity.
      rewrite (count_type_other Type_AllNodesQueried)
        by (repeat constructor; discriminate).
      rewrite !Nat.add_0_r, Ha'. split; [|split; [|split]].
      * exact IHall.
      * right. destruct IHaw as [->|[_ Hf]]; [auto | congruence].
      * intros dd n Hin Ht. apply in_app_or in Hin. destruct Hin as [Hin|Hin]; [eauto|].
        cbn in Hin. destruct Hin as [[= <- <-]|[]]. discriminate.
      * intros dd n Hin Ht. apply in_app_or in Hin. destruct Hin as [Hin|Hin]; [eauto|].
        cbn in Hin. destruct Hin as [[= <- <-]|[]]. exact Hs.
  - rewrite !count_type_app.
    rewrite (count_type_other Type_AllNodesQueried)
      by (eapply Forall_impl; [exact Hns|]; cbn; tauto).
    rewrite (count_type_other Type_AwakeNodesQueried)
      by (eapply Forall_impl; [exact Hns|]; cbn; tauto).
    rewrite !Nat.add_0_r, Hfa, Hfw. split; [exact IHall|]. split; [exact IHaw|].
    rewrite List.Forall_forall in Hns.
    split; intros dd n Hin Ht; apply in_app_or in Hin; destruct Hin as [Hin|Hin];
      eauto; apply in_map_iff in Hin; destruct Hin as (n' & [= <- <-] & Hin);
      apply Hns in Hin; tauto.
Qed.

(** C6. Over every execution of a driver the AllNodesQueried notification
    is queued at most once, and only by a step that starts where every node
    of the table has query stage Complete; the AwakeNodesQueried
    notification is queued at most once, and only by a step that starts
    where every node whose stage is not Complete is a non-listening
    device. *)
Theorem query_notifications_once (d0 d : Driver) (tr : list (Driver * Notification)) :
  execution d0 tr d ->
  (count_type Type_AllNodesQueried tr <= 1)%nat
  /\ (count_type Type_AwakeNodesQueried tr <= 1)%nat
  /\ (forall dd n, In (dd, n) tr -> n_type n = Type_AllNodesQueried -> all_complete dd)
  /\ (forall dd n, In (dd, n) tr -> n_type n = Type_AwakeNodesQueried -> sleeping_only dd).
Proof.
  intros Hex. destruct (execution_invariant d0 d tr Hex) as (Ha & Hw & Hc & Hs).
  repeat split; auto; [destruct Ha as [->|[-> _]] | destruct Hw as [->|[-> _]]]; lia.
Qed.

(** *** The transaction engine *)

(** [WriteMsg] on a message that has tries left: the frame is written, the
    attempt counted and the expectations armed; the counters of retries and
    of dropped messages stay as they are. *)
Lemma WriteMsg_sends (d : Driver) (msg : Msg) :
  m_currentMsg d = Some msg ->
  m_sendAttempts msg < MAX_TRIES ->
  exists d',
    WriteMsg d = (true, d')
    /\ m_currentMsg d' = Some (SetSendAttempts (m_sendAttempts msg + 1) msg)
    /\ m_written d' = m_written d ++ [m_buffer msg]
    /\ m_waitingForAck d' = true
    /\ m_expectedCallbackId d' = m_callbackId msg
    /\ m_expectedReply d' = msg_expectedReply msg
    /\ m_retries (m_stats d') = m_retries (m_stats d)
    /\ m_dropped (m_stats d') = m_dropped (m_stats d).
Proof.
  intros Hcur Hlt. unfold WriteMsg. rewrite Hcur.
  rewrite (proj2 (Z.leb_gt _ _) Hlt). cbv zeta. cbn [m_targetNodeId SetSendAttempts].
  destruct (m_targetNodeId msg =? 255).
  - eexists. split; [reflexivity|]. cbn. auto 10.
  - match goal with |- context [GetNodeUnsafe ?n ?x] => destruct (GetNodeUnsafe n x) end;
      (eexists; split; [reflexivity|]; cbn; auto 10).
Qed.

(** [WriteMsg] on a message that has used its tries: nothing is written,
    the message is dropped and the expectations are reset; the counters of
    retries and of dropped messages stay as they are. *)
Lemma WriteMsg_drops (d : Driver) (msg : Msg) :
  m_currentMsg d = Some msg ->
  MAX_TRIES <= m_sendAttempts msg ->
  WriteMsg d = (false, RemoveCurrentMsg d).
Proof.
  intros Hcur Hge. unfold WriteMsg. rewrite Hcur.
  rewrite (proj2 (Z.leb_le _ _) Hge). reflexivity.
Qed.

(** The send attempts of the current message never pass MAX_TRIES. *)
Lemma WriteMsg_attempts (d : Driver) :
  (forall msg, m_currentMsg d = Some msg -> 0 <= m_sendAttempts msg <= MAX_TRIES) ->
  forall msg, m_currentMsg (snd (WriteMsg d)) = Some msg ->
              0 <= m_sendAttempts msg <= MAX_TRIES.
Proof.
  intros Hd msg. destruct (m_currentMsg d) as [cur|] eqn:Hcur.
  - specialize (Hd cur eq_refl). destruct (Z.lt_ge_cases (m_sendAttempts cur) MAX_TRIES) as [Hlt|Hge].
    + destruct (WriteMsg_sends d cur Hcur Hlt) as (d' & -> & Hc & _). cbn [snd].
      rewrite Hc. intros [= <-]. cbn. unfold uint8, MAX_TRIES in *.
      rewrite Z.mod_small; lia.
    + rewrite (WriteMsg_drops d cur Hcur Hge). cbn. discriminate.
  - unfold WriteMsg. rewrite Hcur. cbn. rewrite Hcur. discriminate.
Qed.

(** C2, as the code runs it.  A message with no attempt yet is at the head
    of a queue; it is dequeued and its callback never arrives, so the wait
    times out again and again.  The same frame bytes are written three
    times, the send attempts going 1, 2, 3; the third timeout drops the
    message and resets the whole transaction state.  The counter of retries
    and the counter of dropped messages are where they were: nothing in
    the driver counts them up. *)
Theorem retry_budget_counters (d : Driver) (q : MsgQueue) (msg : Msg)
    (rest : list MsgQueueItem) :
  qget q (m_msgQueue d) = MsgQueueCmd_SendMsg msg :: rest ->
  m_sendAttempts msg = 0 ->
  exists d1 d2 d3 d4,
    WriteNextMsg q d = Some (true, d1)
    /\ WriteMsg d1 = (true, d2)
    /\ WriteMsg d2 = (true, d3)
    /\ WriteMsg d3 = (false, d4)
    /\ (m_sendAttempts <$> m_currentMsg d1) = Some 1
    /\ (m_sendAttempts <$> m_currentMsg d2) = Some 2
    /\ (m_sendAttempts <$> m_currentMsg d3) = Some 3
    /\ m_written d4 = m_written d ++ [m_buffer msg; m_buffer msg; m_buffer msg]
    /\ m_currentMsg d4 = None
    /\ m_waitingForAck d4 = false
    /\ m_expectedCallbackId d4 = 0
    /\ m_expectedReply d4 = 0
    /\ m_expectedCommandClassId d4 = 0
    /\ m_expectedNodeId d4 = 0
    /\ m_retries (m_stats d4) = m_retries (m_stats d)
    /\ m_dropped (m_stats d4) = m_dropped (m_stats d).
Proof.
  intros Hq Hatt. unfold WriteNextMsg. rewrite Hq.
  set (da := pop_front q (set_m_currentMsg (Some msg) d)).
  assert (Hda : m_currentMsg da = Some msg /\ m_written da = m_written d
                /\ m_stats da = m_stats d).
  { unfold da, pop_front. cbn. destruct (tail _); cbn; auto. }
  destruct Hda as (Hca & Hwa & Hsa).
  destruct (WriteMsg_sends da msg Hca) as (d1 & E1 & C1 & W1 & _ & _ & _ & R1 & D1);
    [rewrite Hatt; reflexivity|].
  set (m1 := SetSendAttempts (m_sendAttempts msg + 1) msg) in *.
  destruct (WriteMsg_sends d1 m1 C1) as (d2 & E2 & C2 & W2 & _ & _ & _ & R2 & D2);
    [cbn; rewrite Hatt; reflexivity|].
  set (m2 := SetSendAttempts (m_sendAttempts m1 + 1) m1) in *.
  destruct (WriteMsg_sends d2 m2 C2) as (d3 & E3 & C3 & W3 & _ & _ & _ & R3 & D3);
    [cbn; rewrite Hatt; reflexivity|].
  set (m3 := SetSendAttempts (m_sendAttempts m2 + 1) m2) in *.
  assert (A1 : m_sendAttempts m1 = 1) by (cbn; rewrite Hatt; reflexivity).
  assert (A2 : m_sendAttempts m2 = 2) by (cbn; rewrite Hatt; reflexivity).
  assert (A3 : m_sendAttempts m3 = 3) by (cbn; rewrite Hatt; reflexivity).
  exists d1, d2, d3, (RemoveCurrentMsg d3).
  rewrite E1, E2, E3, C1, C2, C3.
  rewrite (WriteMsg_drops d3 m3 C3) by (rewrite A3; unfold MAX_TRIES; lia).
  cbn [fmap option_fmap option_map]. rewrite A1, A2, A3.
  repeat (split; [reflexivity|]).
  split; [|cbn; repeat split; congruence].
  cbn. rewrite W3, W2, W1, Hwa. cbn. rewrite <- !app_assoc. reflexivity.
Qed.

(** *** Sleeping nodes *)

Lemma move_queue_spec (target : Z) (q : list MsgQueueItem) (w : WakeUp) :
  move_queue target q w
  = if existsb (marker_for target) q then None
    else Some (List.filter (fun item => negb (for_target target item)) q,
               mkWakeUp (m_awake w)
                        (m_pendingQueue w ++ List.filter (buffered target) q)).
Proof.
  unfold buffered, for_target.
  revert w. induction q as [|item q IH]; intros w.
  - cbn. rewrite app_nil_r. destruct w; reflexivity.
  - cbn [move_queue List.filter existsb].
    destruct item as [m|n s]; cbn [item_target marker_for orb].
    + destruct (target =? m_targetNodeId m); cbn [negb andb].
      * destruct (IsWakeUpNoMoreInformationCommand m); cbn [negb].
        -- apply IH.
        -- rewrite IH. destruct (existsb (marker_for target) q); [reflexivity|].
           cbn. rewrite <- app_assoc. reflexivity.
      * rewrite IH. destruct (existsb (marker_for target) q); reflexivity.
    + destruct (target =? n); cbn [negb andb orb]; [reflexivity|].
      rewrite IH. destruct (existsb (marker_for target) q); reflexivity.
Qed.

Lemma move_queues_spec (target : Z) (d : Driver) (w : WakeUp) :
  move_queues target all_queues (d, w)
  = if marker_queued target d then None
    else Some
      (set_m_queueEvent
         (events_reset (without_target target (m_msgQueue d)) (m_queueEvent d))
         (set_m_msgQueue (without_target target (m_msgQueue d)) d),
       mkWakeUp (m_awake w)
         (m_pendingQueue w
          ++ List.filter (buffered target) (all_queued (m_msgQueue d)))).
Proof.
  destruct d as [? ? ? ? ? ? ? ? ? ? ? ? ? ? ? ? ? ? [q0 q1 q2 q3 q4] [e0 e1 e2 e3 e4] ? ? ?].
  unfold marker_queued, all_queues, all_queued, without_target, events_reset, qmap.
  cbn [m_msgQueue qCommand qWakeUp qSend qQuery qPoll].
  rewrite !existsb_app.
  cbn [move_queues]. unfold move_queue_i.
  cbn -[move_queue List.filter existsb]. rewrite move_queue_spec.
  destruct (existsb (marker_for target) q0); [reflexivity|]. cbn [orb].
  destruct (List.filter _ q0) eqn:F0; cbn -[move_queue List.filter existsb];
    rewrite move_queue_spec;
    (destruct (existsb (marker_for target) q1); [reflexivity|]); cbn [orb];
    destruct (List.filter (fun item => negb (for_target target item)) q1) eqn:F1;
    cbn -[move_queue List.filter existsb]; rewrite move_queue_spec;
    (destruct (existsb (marker_for target) q2); [reflexivity|]); cbn [orb];
    destruct (List.filter (fun item => negb (for_target target item)) q2) eqn:F2;
    cbn -[move_queue List.filter existsb]; rewrite move_queue_spec;
    (destruct (existsb (marker_for target) q3); [reflexivity|]); cbn [orb];
    destruct (List.filter (fun item => negb (for_target target item)) q3) eqn:F3;
    cbn -[move_queue List.filter existsb]; rewrite move_queue_spec;
    (destruct (existsb (marker_for target) q4); [reflexivity|]);
    destruct (List.filter (fun item => negb (for_target target item)) q4) eqn:F4;
    cbn -[move_queue List.filter existsb];
    rewrite !List.filter_app, <- !app_assoc; reflexivity.
Qed.

Lemma set_m_queueEvent_id (d : Driver) : set_m_queueEvent (m_queueEvent d) d = d.
Proof. destruct d; reflexivity. Qed.

(** [MoveMessagesToWakeUpQueue] on a node that can sleep.  With a marker of
    the node on a queue the walk has no defined behaviour.  Otherwise the
    node is marked asleep; the current message, when it is for the node, and
    the queued messages of the node leave the transaction state and the
    queues, and those that are not Wake Up No More Information commands are
    appended to the sleeping buffer in that order; the events of the queues
    left empty are reset. *)
Lemma MoveMessagesToWakeUpQueue_spec (target : Z) (d : Driver) (node : Node)
    (w : WakeUp) :
  m_nodes d !! target = Some node ->
  IsListeningDevice node = false ->
  IsFrequentListeningDevice node = false ->
  IsController node = false ->
  m_wakeUp node = Some w ->
  MoveMessagesToWakeUpQueue target d
  = if marker_queued target d then None
    else Some
      (true,
       set_m_nodes
         (<[target := set_m_wakeUp
                        (Some (mkWakeUp false
                                 (m_pendingQueue w
                                  ++ List.filter (buffered target)
                                       (current_for target d
                                        ++ all_queued (m_msgQueue d)))))
                        node]> (m_nodes d))
         (set_m_queueEvent
            (events_reset (without_target target (m_msgQueue d)) (m_queueEvent d))
            (set_m_msgQueue (without_target target (m_msgQueue d))
               (match current_for target d with
                | [] => d
                | _ => clear_expectations (set_m_currentMsg None d)
                end)))).
Proof.
  intros Hn Hl Hf Hc Hw. unfold MoveMessagesToWakeUpQueue, GetNodeUnsafe, current_for.
  rewrite Hn, Hl, Hf, Hc, Hw. cbn [negb andb].
  destruct (m_currentMsg d) as [cur|] eqn:Hcur.
  - destruct (target =? m_targetNodeId cur) eqn:Ht.
    + rewrite move_queues_spec.
      change (marker_queued target (clear_expectations (set_m_currentMsg None d)))
        with (marker_queued target d).
      destruct (marker_queued target d); [reflexivity|].
      cbn [List.filter app]. unfold buffered at 2, for_target.
      cbn [item_target]. rewrite Ht. cbn [andb].
      destruct (IsWakeUpNoMoreInformationCommand cur); cbn [negb];
        cbn; rewrite <- ?app_assoc; reflexivity.
    + rewrite move_queues_spec. destruct (marker_queued target d); [reflexivity|].
      cbn. reflexivity.
  - rewrite move_queues_spec. destruct (marker_queued target d); [reflexivity|].
    cbn. reflexivity.
Qed.

Lemma MoveMessagesToWakeUpQueue_moves (target : Z) (d : Driver) (node : Node)
    (w : WakeUp) :
  m_nodes d !! target = Some node ->
  IsListeningDevice node = false ->
  IsFrequentListeningDevice node = false ->
  IsController node = false ->
  m_wakeUp node = Some w ->
  marker_queued target d = false ->
  MoveMessagesToWakeUpQueue target d
  = Some
      (true,
       set_m_nodes
         (<[target := set_m_wakeUp
                        (Some (mkWakeUp false
                                 (m_pendingQueue w
                                  ++ List.filter (buffered target)
                                       (current_for target d
                                        ++ all_queued (m_msgQueue d)))))
                        node]> (m_nodes d))
         (set_m_queueEvent
            (events_reset (without_target target (m_msgQueue d)) (m_queueEvent d))
            (set_m_msgQueue (without_target target (m_msgQueue d))
               (match current_for target d with
                | [] => d
                | _ => clear_expectations (set_m_currentMsg None d)
                end)))).
Proof.
  intros Hn Hl Hf Hc Hw Hm.
  rewrite (MoveMessagesToWakeUpQueue_spec target d node w Hn Hl Hf Hc Hw), Hm.
  reflexivity.
Qed.

(** The dereference of the marker's [m_msg]: a node that can sleep and has a
    marker on a queue. *)
Lemma MoveMessagesToWakeUpQueue_marker (target : Z) (d : Driver) (node : Node)
    (w : WakeUp) :
  m_nodes d !! target = Some node ->
  IsListeningDevice node = false ->
  IsFrequentListeningDevice node = false ->
  IsController node = false ->
  m_wakeUp node = Some w ->
  marker_queued target d = true ->
  MoveMessagesToWakeUpQueue target d = None.
Proof.
  intros Hn Hl Hf Hc Hw Hm.
  rewrite (MoveMessagesToWakeUpQueue_spec target d node w Hn Hl Hf Hc Hw), Hm.
  reflexivity.
Qed.

Lemma MoveMessagesToWakeUpQueue_not (target : Z) (d : Driver) :
  sleep_capable d target = false ->
  MoveMessagesToWakeUpQueue target d = Some (false, d).
Proof.
  unfold sleep_capable, MoveMessagesToWakeUpQueue, GetNodeUnsafe.
  destruct (m_nodes d !! target) as [node|]; [|reflexivity].
  destruct (negb (IsListeningDevice node) && negb (IsFrequentListeningDevice node)
            && negb (IsController node)); [|reflexivity].
  destruct (m_wakeUp node); [|reflexivity].
  cbn. discriminate.
Qed.

Lemma sleep_capable_true (target : Z) (d : Driver) :
  sleep_capable d target = true ->
  exists node w,
    m_nodes d !! target = Some node /\ IsListeningDevice node = false
    /\ IsFrequentListeningDevice node = false /\ IsController node = false
    /\ m_wakeUp node = Some w.
Proof.
  unfold sleep_capable. destruct (m_nodes d !! target) as [node|]; [|discriminate].
  intros H. apply andb_prop in H. destruct H as [H Hw].
  apply andb_prop in H. destruct H as [H Hc].
  apply andb_prop in H. destruct H as [Hl Hf].
  apply bool_decide_eq_true in Hw. destruct Hw as [w Hw].
  exists node, w. repeat split; auto; apply negb_true_iff; assumption.
Qed.

Lemma qget_qset {A} (q q' : MsgQueue) (v : A) (qs : Queues A) :
  qget q' (qset q v qs) = if decide (q = q') then v else qget q' qs.
Proof. destruct q, q'; reflexivity. Qed.

Lemma qget_qmap {A B} (f : A -> B) (q : MsgQueue) (qs : Queues A) :
  qget q (qmap f qs) = f (qget q qs).
Proof. destruct q; reflexivity. Qed.

(** Replacing a node by one with the same listening flag and the same
    awake state puts no node to sleep. *)
Lemma asleep_in_insert_same (nodes : gmap Z Node) (k n : Z) (node node' : Node) :
  nodes !! k = Some node ->
  IsListeningDevice node' = IsListeningDevice node ->
  (m_awake <$> m_wakeUp node') = (m_awake <$> m_wakeUp node) ->
  asleep_in (<[k := node']> nodes) n -> asleep_in nodes n.
Proof.
  intros Hk Hl Ha (x & w & Hx & Hxl & Hxw & Hxa).
  destruct (decide (k = n)) as [->|Hne].
  - rewrite lookup_insert_eq in Hx. injection Hx as <-.
    rewrite Hxw in Ha. cbn in Ha.
    destruct (m_wakeUp node) as [w0|] eqn:Hw0; [|discriminate].
    injection Ha as Ha. exists node, w0. repeat split; congruence.
  - rewrite lookup_insert_ne in Hx by exact Hne. exists x, w. auto.
Qed.

(** A step that adds no item to a queue and puts no node to sleep keeps
    P3. *)
Lemma no_queued_transfer (d d' : Driver) :
  (forall q item, In item (qget q (m_msgQueue d')) -> In item (qget q (m_msgQueue d))) ->
  (forall n, asleep d' n -> asleep d n) ->
  no_queued_for_sleeper d -> no_queued_for_sleeper d'.
Proof. intros Hq Ha Hd q item Hin Hs. apply (Hd q item); auto. Qed.

Lemma no_queued_enqueue (q : MsgQueue) (item : MsgQueueItem) (d : Driver) :
  ~ asleep d (item_target item) ->
  no_queued_for_sleeper d -> no_queued_for_sleeper (enqueue q item d).
Proof.
  intros Hi Hd q' x. unfold enqueue. cbn. rewrite qget_qset.
  destruct (decide (q = q')) as [->|_].
  - intros Hin. apply in_app_or in Hin. destruct Hin as [Hin|[<-|[]]].
    + apply (Hd q' x Hin).
    + exact Hi.
  - apply Hd.
Qed.

Lemma WriteMsg_keeps (d : Driver) :
  m_msgQueue (snd (WriteMsg d)) = m_msgQueue d
  /\ forall n, asleep (snd (WriteMsg d)) n -> asleep d n.
Proof.
  unfold WriteMsg. destruct (m_currentMsg d) as [msg|]; [|auto].
  destruct (MAX_TRIES <=? m_sendAttempts msg); [cbn; auto|].
  cbv zeta. match goal with |- context [if ?b then _ else _] => destruct b end;
    [cbn; auto|].
  unfold GetNodeUnsafe. cbn.
  destruct (m_nodes d !! m_targetNodeId msg) as [node|] eqn:Hn; cbn; [|auto].
  split; [reflexivity|]. intros n. unfold asleep. cbn.
  apply (asleep_in_insert_same _ _ _ node); auto.
Qed.

Lemma no_queued_WriteMsg (d : Driver) :
  no_queued_for_sleeper d -> no_queued_for_sleeper (snd (WriteMsg d)).
Proof.
  destruct (WriteMsg_keeps d) as [Hq Ha].
  apply no_queued_transfer; [rewrite Hq; auto | exact Ha].
Qed.

Lemma in_tail {A} (x : A) (l : list A) : In x (tail l) -> In x l.
Proof. destruct l; cbn; auto. Qed.

Lemma no_queued_pop_front (q : MsgQueue) (cur : option Msg) (d : Driver) :
  no_queued_for_sleeper d ->
  no_queued_for_sleeper (pop_front q (set_m_currentMsg cur d)).
Proof.
  apply no_queued_transfer.
  - intros q' item. unfold pop_front. cbn.
    destruct (tail (qget q (m_msgQueue d))) eqn:Ht; cbn; rewrite qget_qset;
      (destruct (decide (q = q')) as [->|_]; [|auto]).
    + intros [].
    + rewrite <- Ht. apply in_tail.
  - intros n. unfold pop_front. cbn.
    destruct (tail (qget q (m_msgQueue d))); cbn; auto.
Qed.

(** A message or a marker for a sleeping node goes to the sleeping buffer
    of the node; for any other target it goes to a queue. *)
Lemma no_queued_submit (target : Z) (queue : MsgQueue) (item : MsgQueueItem)
    (d : Driver) (node : Node) :
  item_target item = target ->
  m_nodes d !! target = Some node ->
  no_queued_for_sleeper d ->
  no_queued_for_sleeper
    match (if negb (IsListeningDevice node) then m_wakeUp node else None) with
    | Some wakeUp =>
        if negb (m_awake wakeUp)
        then queue_on_node target node wakeUp item d
        else enqueue queue item d
    | None => enqueue queue item d
    end.
Proof.
  intros Ht Hn Hd.
  destruct (IsListeningDevice node) eqn:Hl; cbn [negb].
  { apply no_queued_enqueue; [|exact Hd]. rewrite Ht.
    intros (x & w & Hx & Hxl & _). congruence. }
  destruct (m_wakeUp node) as [w|] eqn:Hw.
  - destruct (m_awake w) eqn:Ha; cbn [negb].
    + apply no_queued_enqueue; [|exact Hd]. rewrite Ht.
      intros (x & w' & Hx & _ & Hxw & Hxa). congruence.
    + revert Hd. apply no_queued_transfer; [cbn; auto|].
      intros n. unfold asleep, queue_on_node. cbn.
      apply (asleep_in_insert_same _ _ _ node); auto.
      cbn. rewrite Hw. reflexivity.
  - apply no_queued_enqueue; [|exact Hd]. rewrite Ht.
    intros (x & w' & Hx & _ & Hxw & _). congruence.
Qed.

Lemma no_queued_SendMsg (msg : Msg) (q : MsgQueue) (d : Driver) :
  no_queued_for_sleeper d -> no_queued_for_sleeper (SendMsg msg q d).
Proof.
  intros Hd. unfold SendMsg, GetNode. cbv zeta.
  destruct (m_nodes d !! m_targetNodeId (Finalize msg)) as [node|] eqn:Hn.
  - apply (no_queued_submit (m_targetNodeId (Finalize msg))); auto.
  - apply no_queued_enqueue; [|exact Hd]. cbn.
    intros (x & w & Hx & _). congruence.
Qed.

Lemma no_queued_SendQueryStageComplete (nodeId : Z) (stage : QueryStage)
    (q : MsgQueue) (d : Driver) :
  no_queued_for_sleeper d ->
  no_queued_for_sleeper (SendQueryStageComplete nodeId stage q d).
Proof.
  intros Hd. unfold SendQueryStageComplete, GetNode. cbv zeta.
  destruct (m_nodes d !! nodeId) as [node|] eqn:Hn; [|exact Hd].
  apply (no_queued_submit nodeId); auto.
Qed.

Lemma no_queued_MoveMessagesToWakeUpQueue (target : Z) (d d' : Driver) (r : bool) :
  MoveMessagesToWakeUpQueue target d = Some (r, d') ->
  no_queued_for_sleeper d ->
  no_queued_for_sleeper d'.
Proof.
  intros Hm Hd. destruct (sleep_capable d target) eqn:Hs.
  - destruct (sleep_capable_true _ _ Hs) as (node & w & Hn & Hl & Hf & Hc & Hw).
    rewrite (MoveMessagesToWakeUpQueue_spec target d node w Hn Hl Hf Hc Hw) in Hm.
    destruct (marker_queued target d); [discriminate|]. injection Hm as _ <-.
    intros q item. cbn. unfold without_target. rewrite qget_qmap.
    intros Hin. apply List.filter_In in Hin. destruct Hin as [Hin Hne].
    unfold for_target in Hne. apply negb_true_iff, Z.eqb_neq in Hne.
    intros (x & w' & Hx & Hxl & Hxw & Hxa). cbn in Hx.
    rewrite lookup_insert_ne in Hx by exact Hne.
    apply (Hd q item Hin). exists x, w'. repeat split; auto.
  - rewrite (MoveMessagesToWakeUpQueue_not _ _ Hs) in Hm. injection Hm as _ <-. exact Hd.
Qed.

(** What [HandleSendDataRequest] does when it returns. *)
Lemma HandleSendDataRequest_cases (data : list Z) (replication : bool) (d d' : Driver) :
  HandleSendDataRequest data replication d = Some d' ->
  d' = d
  \/ d' = RemoveCurrentMsg d
  \/ d' = set_m_expectedCallbackId 0 d
  \/ exists cur r,
       m_currentMsg d = Some cur /\ replication = false
       /\ MoveMessagesToWakeUpQueue (m_targetNodeId cur) d = Some (r, d').
Proof.
  unfold HandleSendDataRequest.
  destruct (negb (byte_at data 2 =? m_expectedCallbackId d)); [intros [= <-]; auto|].
  destruct (negb (Z.land (byte_at data 3) TRANSMIT_COMPLETE_NOROUTE =? 0));
    [intros [= <-]; auto|].
  destruct (negb (Z.land (byte_at data 3) TRANSMIT_COMPLETE_NO_ACK =? 0)).
  - destruct (m_currentMsg d) as [cur|]; [|intros [= <-]; auto].
    destruct replication; cbn [negb]; [intros [= <-]; auto|].
    destruct (MoveMessagesToWakeUpQueue (m_targetNodeId cur) d) as [[r x]|] eqn:Hm;
      [|discriminate].
    intros [= <-]. right. right. right. exists cur, r. auto.
  - destruct (negb (Z.land (byte_at data 3) TRANSMIT_COMPLETE_FAIL =? 0));
      intros [= <-]; auto.
Qed.

Lemma no_queued_HandleSendDataRequest (data : list Z) (replication : bool)
    (d d' : Driver) :
  HandleSendDataRequest data replication d = Some d' ->
  no_queued_for_sleeper d ->
  no_queued_for_sleeper d'.
Proof.
  intros H Hd.
  destruct (HandleSendDataRequest_cases _ _ _ _ H) as [->|[->|[->|(cur & r & _ & _ & Hm)]]];
    [exact Hd | exact Hd | exact Hd |].
  exact (no_queued_MoveMessagesToWakeUpQueue _ _ _ _ Hm Hd).
Qed.

Lemma no_queued_step (d d' : Driver) :
  (forall n s x, no_queued_for_sleeper x -> no_queued_for_sleeper (AdvanceQueries n s x)) ->
  queue_step d d' -> no_queued_for_sleeper d -> no_queued_for_sleeper d'.
Proof.
  intros Hadv Hstep Hd.
  destruct Hstep as [msg q|nodeId stage q|q r d' Hw| |data repl d' Hh|target r d' Hm].
  - apply no_queued_SendMsg, Hd.
  - apply no_queued_SendQueryStageComplete, Hd.
  - unfold WriteNextMsg in Hw.
    destruct (qget q (m_msgQueue d)) as [|[msg|nodeId stage] rest]; [discriminate| |].
    + injection Hw as Hw. apply (f_equal snd) in Hw. cbn [snd] in Hw. subst d'.
      apply no_queued_WriteMsg, no_queued_pop_front, Hd.
    + unfold GetNodeUnsafe in Hw.
      destruct (m_nodes _ !! nodeId); injection Hw as _ <-.
      * apply Hadv, no_queued_pop_front, Hd.
      * apply no_queued_pop_front, Hd.
  - apply no_queued_WriteMsg, Hd.
  - exact (no_queued_HandleSendDataRequest _ _ _ _ Hh Hd).
  - exact (no_queued_MoveMessagesToWakeUpQueue _ _ _ _ Hm Hd).
Qed.

Lemma no_queued_reachable (d0 d : Driver) :
  (forall n s x, no_queued_for_sleeper x -> no_queued_for_sleeper (AdvanceQueries n s x)) ->
  no_queued_for_sleeper d0 -> queue_reachable d0 d -> no_queued_for_sleeper d.
Proof.
  intros Hadv H0. induction 1 as [|d d' _ IH Hstep]; [exact H0|].
  apply (no_queued_step d d' Hadv Hstep IH).
Qed.

(** [SendMsg] is its two sections, one after the other. *)
Lemma SendMsg_sections (msg : Msg) (q : MsgQueue) (d : Driver) :
  SendMsg msg q d
  = match SendMsg_buffered msg d with
    | Some d' => d'
    | None => enqueue q (MsgQueueCmd_SendMsg (Finalize msg)) d
    end.
Proof.
  unfold SendMsg, SendMsg_buffered. cbv zeta.
  destruct (GetNode (m_targetNodeId (Finalize msg)) d) as [node|]; [|reflexivity].
  destruct (if negb (IsListeningDevice node) then m_wakeUp node else None) as [w|];
    [|reflexivity].
  destruct (negb (m_awake w)); reflexivity.
Qed.

(** A run in which every submission does its two sections without a step
    in between is a run of [queue_step]. *)
Lemma section_atomic_SendMsg (msg : Msg) (q : MsgQueue) (d : Driver)
    (pending : list (MsgQueue * MsgQueueItem)) :
  section_reachable (d, pending) (SendMsg msg q d, pending).
Proof.
  rewrite SendMsg_sections.
  destruct (SendMsg_buffered msg d) as [d'|] eqn:Hb.
  - apply (section_next _ (d, pending)); [apply section_start|].
    apply (section_buffered msg); exact Hb.
  - apply (section_next _ (d, pending ++ [(q, MsgQueueCmd_SendMsg (Finalize msg))])).
    + apply (section_next _ (d, pending)); [apply section_start|].
      apply section_tested; exact Hb.
    + pose proof (section_pushed q (MsgQueueCmd_SendMsg (Finalize msg)) d pending [])
        as H.
      rewrite app_nil_r in H. exact H.
Qed.

(** C3, amended.  A message or a QueryStageComplete marker submitted for a
    node that is in the table, is neither a listening nor a
    frequent-listening device nor a controller, and has a WakeUp class that
    reports not awake, is appended to the sleeping buffer of that node and
    is put on no scheduler queue, whose events stay as they are.
    Consequently, from a state where no queue holds an item for a sleeping
    node (such as the start, with empty queues), no state the driver
    reaches by submitting, dequeueing, resending, handling send-data
    callbacks and moving the items of unresponsive nodes has such an item
    on a queue, as long as these calls run one after the other, with no
    call between the awake test of a submission and its push, and provided
    the query advance of the nodes keeps to that as well. *)
Theorem sleeping_node_redirect (d0 d : Driver) :
  (forall n s x, no_queued_for_sleeper x -> no_queued_for_sleeper (AdvanceQueries n s x)) ->
  no_queued_for_sleeper d0 ->
  queue_reachable d0 d ->
  no_queued_for_sleeper d
  /\ (forall msg q node w,
        m_nodes d !! m_targetNodeId (Finalize msg) = Some node ->
        IsListeningDevice node = false ->
        IsFrequentListeningDevice node = false ->
        IsController node = false ->
        m_wakeUp node = Some w ->
        m_awake w = false ->
        m_msgQueue (SendMsg msg q d) = m_msgQueue d
        /\ m_queueEvent (SendMsg msg q d) = m_queueEvent d
        /\ m_nodes (SendMsg msg q d) !! m_targetNodeId (Finalize msg)
           = Some (set_m_wakeUp
                     (Some (mkWakeUp false
                              (m_pendingQueue w ++ [MsgQueueCmd_SendMsg (Finalize msg)])))
                     node))
  /\ (forall nodeId stage q node w,
        m_nodes d !! nodeId = Some node ->
        IsListeningDevice node = false ->
        IsFrequentListeningDevice node = false ->
        IsController node = false ->
        m_wakeUp node = Some w ->
        m_awake w = false ->
        m_msgQueue (SendQueryStageComplete nodeId stage q d) = m_msgQueue d
        /\ m_queueEvent (SendQueryStageComplete nodeId stage q d) = m_queueEvent d
        /\ m_nodes (SendQueryStageComplete nodeId stage q d) !! nodeId
           = Some (set_m_wakeUp
                     (Some (mkWakeUp false
                              (m_pendingQueue w
                               ++ [MsgQueueCmd_QueryStageComplete nodeId stage])))
                     node)).
Proof.
  intros Hadv H0 Hreach. split; [exact (no_queued_reachable d0 d Hadv H0 Hreach)|].
  split.
  - intros msg q node w Hn Hl _ _ Hw Ha. unfold SendMsg, GetNode. cbv zeta.
    rewrite Hn, Hl. cbn [negb]. rewrite Hw, Ha. cbn [negb].
    unfold queue_on_node, QueueMsg. cbn. rewrite lookup_insert_eq, Ha. auto.
  - intros nodeId stage q node w Hn Hl _ _ Hw Ha.
    unfold SendQueryStageComplete, GetNode. cbv zeta.
    rewrite Hn, Hl. cbn [negb]. rewrite Hw, Ha. cbn [negb].
    unfold queue_on_node, QueueMsg. cbn. rewrite lookup_insert_eq, Ha. auto.
Qed.

(** *** Init-data reconciliation *)

Lemma ReadConfig_child_frame (d : Driver) (e : TiXmlElement) :
  m_init (ReadConfig_child d e) = m_init d
  /\ m_virtualNeighbors (ReadConfig_child d e) = m_virtualNeighbors d.
Proof.
  unfold ReadConfig_child. destruct (Value e) as [str|]; [|auto].
  destruct (String.eqb str "Node"); [|auto].
  destruct (QueryIntAttribute e "id"); auto.
Qed.

Lemma ReadConfig_children_frame (l : list TiXmlElement) (d : Driver) :
  m_init (fold_left ReadConfig_child l d) = m_init d
  /\ m_homeId (fold_left ReadConfig_child l d) = m_homeId d
  /\ m_virtualNeighbors (fold_left ReadConfig_child l d) = m_virtualNeighbors d.
Proof.
  revert d. induction l as [|e l IH]; intros d; [auto|]. cbn [fold_left].
  destruct (IH (ReadConfig_child d e)) as (-> & -> & ->).
  destruct (ReadConfig_child_frame d e) as (-> & ->).
  rewrite ReadConfig_child_homeId. auto.
Qed.

Lemma ReadConfig_frame (d : Driver) :
  m_init (snd (ReadConfig d)) = m_init d
  /\ m_homeId (snd (ReadConfig d)) = m_homeId d
  /\ m_virtualNeighbors (snd (ReadConfig d)) = m_virtualNeighbors d.
Proof.
  unfold ReadConfig. destruct (LoadFile (m_homeId d)) as [root|]; [|auto].
  destruct (QueryIntAttribute root "version") as [v|]; [|auto].
  destruct (negb (uint32 v =? c_configVersion)); [auto|].
  destruct (Attribute_strtol root "home_id") as [h|]; [|auto].
  destruct (negb (uint32 h =? m_homeId d)); [auto|].
  destruct (QueryIntAttribute root "node_id") as [n|]; [|auto].
  destruct (negb (uint8 n =? m_nodeId d)); [auto|].
  cbn [snd]. cbv zeta.
  match goal with |- context [fold_left ReadConfig_child ?l ?x] =>
    destruct (ReadConfig_children_frame l x) as (-> & -> & ->) end.
  destruct (QueryIntAttribute root "api_capabilities");
    destruct (QueryIntAttribute root "controller_capabilities");
    destruct (QueryIntAttribute root "poll_interval"); auto.
Qed.

(** One bit of the bitmap touches the slot of its node only, keeps
    [m_init], the home id and the virtual neighbours, and only appends to
    the notifications. *)
Lemma InitData_bit_frame (data : list Z) (d : Driver) (ij : nat * nat) :
  let d' := InitData_bit data d ij in
  m_init d' = m_init d
  /\ m_homeId d' = m_homeId d
  /\ m_virtualNeighbors d' = m_virtualNeighbors d
  /\ (forall n, n <> node_of_position ij -> m_nodes d' !! n = m_nodes d !! n)
  /\ exists more, m_notifications d' = m_notifications d ++ more.
Proof.
  destruct ij as [i j]. unfold InitData_bit, node_of_position, GetNode. cbn [fst snd].
  set (k := uint8 (Z.of_nat i * 8 + Z.of_nat j + 1)).
  assert (Hnil : exists more, m_notifications d = m_notifications d ++ more)
    by (exists []; rewrite app_nil_r; reflexivity).
  destruct (negb (Z.land _ _ =? 0)).
  - destruct (IsVirtualNode (m_virtualNeighbors d) k); [cbn; auto 6|].
    destruct (m_nodes d !! k) as [node|] eqn:Hk.
    + destruct (negb (m_init d)); cbn; [|auto 6].
      repeat split; auto. intros n Hn. apply lookup_insert_ne. congruence.
    + unfold InitNode. cbn. rewrite Hk. cbn. repeat split; auto.
      * intros n Hn. rewrite lookup_alter_ne by congruence.
        apply lookup_insert_ne. congruence.
      * eexists. rewrite <- app_assoc. reflexivity.
  - destruct (m_nodes d !! k) as [node|] eqn:Hk; cbn; [|auto 6].
    repeat split; auto.
    + intros n Hn. apply lookup_delete_ne. congruence.
    + eexists. reflexivity.
Qed.

Lemma InitData_bits_frame (data : list Z) (l : list (nat * nat)) (d : Driver) (k : Z) :
  (forall ij, In ij l -> node_of_position ij <> k) ->
  let d' := fold_left (InitData_bit data) l d in
  m_init d' = m_init d
  /\ m_homeId d' = m_homeId d
  /\ m_virtualNeighbors d' = m_virtualNeighbors d
  /\ m_nodes d' !! k = m_nodes d !! k
  /\ exists more, m_notifications d' = m_notifications d ++ more.
Proof.
  revert d. induction l as [|ij l IH]; intros d Hl; cbn zeta.
  - repeat split; auto. exists []. rewrite app_nil_r. reflexivity.
  - cbn [fold_left].
    destruct (IH (InitData_bit data d ij)) as (-> & -> & -> & -> & more & ->).
    { intros x Hx. apply Hl. right. exact Hx. }
    destruct (InitData_bit_frame data d ij) as (-> & -> & -> & Hn & more0 & ->).
    repeat split; auto.
    + apply Hn. intros ->. apply (Hl ij); [left|]; reflexivity.
    + eexists. rewrite <- app_assoc. reflexivity.
Qed.

(** What one bit of the bitmap does to the slot of its node. *)
Lemma InitData_bit_at (data : list Z) (d : Driver) (ij : nat * nat) :
  let k := node_of_position ij in
  let d' := InitData_bit data d ij in
  (bit_set data ij = true -> IsVirtualNode (m_virtualNeighbors d) k = false ->
   m_nodes d !! k = None ->
   (exists node, m_nodes d' !! k = Some node
                 /\ GetCurrentQueryStage node = QueryStage_ProtocolInfo)
   /\ m_notifications d' = m_notifications d
                           ++ [mkNotification Type_NodeNew (m_homeId d) k;
                               mkNotification Type_NodeAdded (m_homeId d) k])
  /\ (bit_set data ij = true -> IsVirtualNode (m_virtualNeighbors d) k = false ->
      m_init d = false ->
      forall node, m_nodes d !! k = Some node ->
                   m_nodes d' !! k = Some (SetQueryStage QueryStage_Associations node))
  /\ (bit_set data ij = true -> IsVirtualNode (m_virtualNeighbors d) k = true -> d' = d)
  /\ (bit_set data ij = false ->
      forall node, m_nodes d !! k = Some node ->
                   m_nodes d' !! k = None
                   /\ m_notifications d' = m_notifications d
                                           ++ [mkNotification Type_NodeRemoved (m_homeId d) k]).
Proof.
  destruct ij as [i j]. unfold InitData_bit, node_of_position, bit_set, GetNode.
  cbn [fst snd]. set (k := uint8 (Z.of_nat i * 8 + Z.of_nat j + 1)). cbn zeta.
  split; [|split; [|split]].
  - intros -> -> Hk. rewrite Hk. unfold InitNode. cbn. rewrite Hk. cbn. split.
    + rewrite lookup_alter_eq, lookup_insert_eq. cbn. eexists. split; reflexivity.
    + rewrite <- app_assoc. reflexivity.
  - intros -> -> Hi node Hk. rewrite Hk, Hi. cbn. apply lookup_insert_eq.
  - intros -> ->. reflexivity.
  - intros -> node Hk. rewrite Hk. cbn. split; [apply lookup_delete_eq | reflexivity].
Qed.

Lemma bitmap_positions_In (i j : nat) :
  (i < 29)%nat -> (j < 8)%nat -> In (i, j) bitmap_positions.
Proof.
  intros Hi Hj. unfold bitmap_positions. apply in_flat_map. exists i. split.
  - apply in_seq. unfold NUM_NODE_BITFIELD_BYTES. lia.
  - apply in_map. apply in_seq. lia.
Qed.

Lemma bitmap_positions_NoDup : List.NoDup (map node_of_position bitmap_positions).
Proof.
  apply NoDup_ListNoDup. apply (bool_decide_unpack _). vm_compute. exact I.
Qed.

(** The bits before and after a position are those of other nodes. *)
Lemma bitmap_positions_split (i j : nat) :
  (i < 29)%nat -> (j < 8)%nat ->
  exists l1 l2,
    bitmap_positions = l1 ++ (i, j) :: l2
    /\ (forall ij, In ij l1 -> node_of_position ij <> node_of_position (i, j))
    /\ (forall ij, In ij l2 -> node_of_position ij <> node_of_position (i, j)).
Proof.
  intros Hi Hj. pose proof bitmap_positions_NoDup as Hnd.
  destruct (in_split _ _ (bitmap_positions_In i j Hi Hj)) as (l1 & l2 & Hs).
  exists l1, l2. split; [exact Hs|]. rewrite Hs in Hnd.
  rewrite map_app in Hnd. cbn [map] in Hnd. apply List.NoDup_remove_2 in Hnd.
  split; intros ij Hin Heq; apply Hnd; apply in_or_app; [left|right];
    rewrite <- Heq; apply in_map; exact Hin.
Qed.

(** C7, amended.  On the first SERIAL_API_GET_INIT_DATA response whose
    bitmap length byte is 29, with the node table as the snapshot load
    leaves it: a set bit for a node id that is not a virtual node and is
    not in the table creates a node at query stage ProtocolInfo and queues
    NodeNew followed by NodeAdded; a set bit for a non-virtual id that is
    in the table sets that node's stage to Associations; a set bit for the
    id of a virtual node is ignored, the slot staying as it is; a clear bit
    for an id in the table deletes the node and queues NodeRemoved. *)
Theorem InitData_reconciliation (data : list Z) (d : Driver) (i j : nat) :
  m_init d = false ->
  byte_at data 4 = NUM_NODE_BITFIELD_BYTES ->
  (i < 29)%nat -> (j < 8)%nat ->
  let nodeId := Z.of_nat i * 8 + Z.of_nat j + 1 in
  let table := m_nodes (reconcile_start d) in
  let virtual := IsVirtualNode (m_virtualNeighbors d) nodeId in
  let d' := HandleSerialAPIGetInitDataResponse data d in
  (bit_set data (i, j) = true -> virtual = false -> table !! nodeId = None ->
   (exists node, m_nodes d' !! nodeId = Some node
                 /\ GetCurrentQueryStage node = QueryStage_ProtocolInfo)
   /\ exists before after,
        m_notifications d'
        = before ++ [mkNotification Type_NodeNew (m_homeId d) nodeId;
                     mkNotification Type_NodeAdded (m_homeId d) nodeId] ++ after)
  /\ (bit_set data (i, j) = true -> virtual = false ->
      forall node, table !! nodeId = Some node ->
                   m_nodes d' !! nodeId = Some (SetQueryStage QueryStage_Associations node))
  /\ (bit_set data (i, j) = true -> virtual = true ->
      m_nodes d' !! nodeId = table !! nodeId)
  /\ (bit_set data (i, j) = false ->
      forall node, table !! nodeId = Some node ->
                   m_nodes d' !! nodeId = None
                   /\ In (mkNotification Type_NodeRemoved (m_homeId d) nodeId)
                         (m_notifications d')).
Proof.
  intros Hinit Hlen Hi Hj nodeId table virtual d'.
  assert (Hk : node_of_position (i, j) = nodeId).
  { unfold node_of_position, uint8, nodeId. cbn [fst snd]. apply Z.mod_small. lia. }
  destruct (bitmap_positions_split i j Hi Hj) as (l1 & l2 & Hs & H1 & H2).
  rewrite Hk in H1, H2.
  (* the state in which the loops start *)
  set (d0 := set_m_initCaps (byte_at data 3)
               (set_m_initVersion (byte_at data 2) (reconcile_start d))).
  assert (Hd' : d' = set_m_init true
                       (fold_left (InitData_bit data) l2
                          (InitData_bit data (fold_left (InitData_bit data) l1 d0) (i, j)))).
  { unfold d', HandleSerialAPIGetInitDataResponse. rewrite Hinit. cbn [negb].
    cbv zeta. rewrite Hlen, Z.eqb_refl, Hs, fold_left_app. reflexivity. }
  destruct (ReadConfig_frame (SetDriverReady d)) as (Fi & Fh & Fv).
  assert (F0 : m_init d0 = false /\ m_homeId d0 = m_homeId d
               /\ m_virtualNeighbors d0 = m_virtualNeighbors d
               /\ m_nodes d0 = table).
  { unfold d0, table, reconcile_start. cbn. rewrite Fi, Fh, Fv. cbn. auto. }
  destruct F0 as (F0i & F0h & F0v & F0n).
  destruct (InitData_bits_frame data l1 d0 nodeId H1) as (E1i & E1h & E1v & E1n & _).
  set (d1 := fold_left (InitData_bit data) l1 d0) in *.
  set (d2 := InitData_bit data d1 (i, j)) in *.
  destruct (InitData_bits_frame data l2 d2 nodeId H2) as (_ & _ & _ & E2n & more & E2m).
  assert (Hn' : m_nodes d' !! nodeId = m_nodes d2 !! nodeId)
    by (rewrite Hd'; cbn; exact E2n).
  assert (Hm' : m_notifications d' = m_notifications d2 ++ more)
    by (rewrite Hd'; cbn; exact E2m).
  destruct (InitData_bit_at data d1 (i, j)) as (Cnew & Cknown & Cvirt & Cgone).
  rewrite Hk in Cnew, Cknown, Cvirt, Cgone. fold d2 in Cnew, Cknown, Cvirt, Cgone.
  rewrite E1v, F0v, E1n, F0n, E1h, F0h, E1i, F0i in *.
  rewrite Hn', Hm'. fold virtual in Cnew, Cknown, Cvirt.
  split; [|split; [|split]].
  - intros Hb Hv Ht. destruct (Cnew Hb Hv Ht) as [Hnode Hnot]. split; [exact Hnode|].
    exists (m_notifications d1), more. rewrite Hnot, <- app_assoc. reflexivity.
  - intros Hb Hv node Ht. apply Cknown; auto.
  - intros Hb Hv. rewrite (Cvirt Hb Hv). congruence.
  - intros Hb node Ht. destruct (Cgone Hb node Ht) as [Hnone Hnot]. split; [exact Hnone|].
    rewrite Hnot. apply in_or_app. left. apply in_or_app. right. left. reflexivity.
Qed.

(** *** Failure of a send-data callback *)

(** C5, amended.  For a SEND_DATA or REPLICATION_SEND_DATA callback whose
    callback id is the expected one: when the NO_ROUTE bit of the transmit
    status is set the current message is dropped and the transaction state
    is cleared.  Otherwise, when the NO_ACK bit is set: on a SEND_DATA
    callback with a current message whose target can sleep and has no
    QueryStageComplete marker on a scheduler queue, the driver does
    [MoveMessagesToWakeUpQueue] on the target, which marks it asleep, moves
    the current message and every queued message of the target to its
    sleeping buffer except the Wake Up No More Information commands, which
    are dropped, clears the transaction state and resets the events of the
    queues left empty, after which the generic callback handling has
    nothing to do; on a REPLICATION_SEND_DATA callback no redirection is
    tried: no item leaves a queue and the WakeUp state of no node
    changes. *)
Theorem send_data_callback_failure (data : list Z) (replication : bool) (d : Driver) :
  byte_at data 2 = m_expectedCallbackId d ->
  let status := byte_at data 3 in
  (Z.land status TRANSMIT_COMPLETE_NOROUTE <> 0 ->
   exists d',
     HandleSendDataRequest data replication d = Some d'
     /\ d' = RemoveCurrentMsg d
     /\ m_currentMsg d' = None /\ m_waitingForAck d' = false
     /\ m_expectedCallbackId d' = 0 /\ m_expectedReply d' = 0
     /\ m_expectedCommandClassId d' = 0 /\ m_expectedNodeId d' = 0)
  /\ (Z.land status TRANSMIT_COMPLETE_NOROUTE = 0 ->
      Z.land status TRANSMIT_COMPLETE_NO_ACK <> 0 ->
      (replication = false ->
       forall cur node w,
         m_currentMsg d = Some cur ->
         m_nodes d !! m_targetNodeId cur = Some node ->
         IsListeningDevice node = false ->
         IsFrequentListeningDevice node = false ->
         IsController node = false ->
         m_wakeUp node = Some w ->
         marker_queued (m_targetNodeId cur) d = false ->
         exists d',
           HandleSendDataRequest data replication d = Some d'
           /\ MoveMessagesToWakeUpQueue (m_targetNodeId cur) d = Some (true, d')
           /\ m_nodes d' !! m_targetNodeId cur
              = Some (set_m_wakeUp
                        (Some (mkWakeUp false
                                 (m_pendingQueue w
                                  ++ List.filter (buffered (m_targetNodeId cur))
                                       (MsgQueueCmd_SendMsg cur
                                        :: all_queued (m_msgQueue d)))))
                        node)
           /\ m_msgQueue d' = without_target (m_targetNodeId cur) (m_msgQueue d)
           /\ m_queueEvent d'
              = events_reset (without_target (m_targetNodeId cur) (m_msgQueue d))
                             (m_queueEvent d)
           /\ m_currentMsg d' = None /\ m_waitingForAck d' = false
           /\ m_expectedCallbackId d' = 0 /\ m_expectedReply d' = 0
           /\ m_expectedCommandClassId d' = 0 /\ m_expectedNodeId d' = 0
           /\ ProcessMsg_callback data d' = d')
      /\ (replication = true ->
          exists d',
            HandleSendDataRequest data replication d = Some d'
            /\ m_msgQueue d' = m_msgQueue d
            /\ forall n, m_wakeUp <$> m_nodes d' !! n = m_wakeUp <$> m_nodes d !! n)).
Proof.
  intros Hcb status. unfold HandleSendDataRequest. fold status.
  rewrite Hcb, Z.eqb_refl. cbn [negb]. split.
  - intros Hr. rewrite (proj2 (Z.eqb_neq _ _) Hr). cbn [negb].
    eexists. split; [reflexivity|]. driver_simpl. auto 10.
  - intros Hr Ha. rewrite Hr, Z.eqb_refl, (proj2 (Z.eqb_neq _ _) Ha). cbn [negb].
    split.
    + intros -> cur node w Hcur Hn Hl Hf Hc Hw Hm. rewrite Hcur. cbn [negb].
      rewrite (MoveMessagesToWakeUpQueue_moves _ d node w Hn Hl Hf Hc Hw Hm).
      unfold current_for. rewrite Hcur, Z.eqb_refl.
      eexists. split; [reflexivity|]. split; [reflexivity|].
      driver_simpl. rewrite lookup_insert_eq.
      split; [cbn [app]; reflexivity|].
      do 8 (split; [reflexivity|]).
      unfold ProcessMsg_callback. driver_simpl. reflexivity.
    + intros ->. exists d. cbn [negb].
      split; [destruct (m_currentMsg d); reflexivity|]. split; reflexivity.
Qed.

End Properties.

Section PollerProperties.

Context {vs : ValueStore}.

Lemma on_poll_list_In (v : ValueID) (l : list ValueID) :
  on_poll_list v l = true <-> In v l.
Proof.
  induction l as [|x l IH]; simpl.
  - split; [discriminate | tauto].
  - destruct (decide (x = v)) as [->|Hne].
    + split; auto.
    + rewrite IH. split; [tauto | intros [H|H]; [contradiction | exact H]].
Qed.

Lemma erase_first_In (v x : ValueID) (l : list ValueID) :
  In x (erase_first v l) -> In x l.
Proof.
  induction l as [|y l IH]; simpl; [tauto|].
  destruct (decide (y = v)); simpl; tauto.
Qed.

Lemma erase_first_NoDup (v : ValueID) (l : list ValueID) :
  List.NoDup l -> List.NoDup (erase_first v l).
Proof.
  induction 1 as [|y l Hy Hl IH]; simpl; [constructor|].
  destruct (decide (y = v)); [exact Hl|].
  constructor; [|exact IH]. intros Hin. apply Hy. eapply erase_first_In, Hin.
Qed.

Lemma NoDup_snoc (v : ValueID) (l : list ValueID) :
  List.NoDup l -> ~ In v l -> List.NoDup (l ++ [v]).
Proof.
  induction 1 as [|y l Hy Hl IH]; simpl; intros Hv.
  - constructor; [tauto | constructor].
  - constructor.
    + rewrite in_app_iff. simpl. intros [H|[H|[]]]; [tauto | subst; tauto].
    + apply IH. tauto.
Qed.

Lemma EnablePoll_NoDup (v : ValueID) (d : Driver) (l : list ValueID) :
  List.NoDup l -> List.NoDup (snd (EnablePoll v d l)).
Proof.
  intros Hl. unfold EnablePoll.
  destruct (m_nodes d !! uint8 (GetNodeId v)) as [node|]; [|exact Hl].
  destruct (GetValue node v); [|exact Hl].
  destruct (on_poll_list v l) eqn:Hon; [exact Hl|].
  simpl. apply NoDup_snoc; [exact Hl|].
  rewrite <- on_poll_list_In, Hon. discriminate.
Qed.

Lemma poll_step_NoDup (op : PollOp) (l : list ValueID) :
  List.NoDup l -> List.NoDup (poll_step l op).
Proof.
  intros Hl. destruct op as [v d|v d|d]; simpl.
  - apply EnablePoll_NoDup, Hl.
  - unfold DisablePoll. destruct (m_nodes d !! uint8 (GetNodeId v)); [|exact Hl].
    destruct (on_poll_list v l); [|exact Hl]. simpl. apply erase_first_NoDup, Hl.
  - unfold PollThread_rotate. destruct l as [|x l]; [constructor|].
    destruct (m_awakeNodesQueried d); [|exact Hl].
    inversion Hl; subst. apply NoDup_snoc; assumption.
Qed.

Lemma poll_run_NoDup (ops : list PollOp) (l : list ValueID) :
  List.NoDup l -> List.NoDup (poll_run ops l).
Proof.
  revert l. induction ops as [|op ops IH]; intros l Hl; [exact Hl|].
  apply IH, poll_step_NoDup, Hl.
Qed.

(** C9. [EnablePoll] is idempotent: for a value id whose node and value
    exist and that is on the poll list already, the call returns true and
    leaves the poll list as it is; and whatever sequence of [EnablePoll],
    [DisablePoll] and poll-thread turns has run from the empty list, the
    poll list holds no entry twice. *)
Theorem EnablePoll_idempotent (v : ValueID) (d : Driver) (node : Node)
    (l : list ValueID) :
  m_nodes d !! uint8 (GetNodeId v) = Some node ->
  GetValue node v = true ->
  In v l ->
  EnablePoll v d l = (true, l)
  /\ EnablePoll v d (snd (EnablePoll v d l)) = EnablePoll v d l
  /\ forall ops : list PollOp, List.NoDup (poll_run ops []).
Proof.
  intros Hnode Hval Hin.
  assert (H1 : EnablePoll v d l = (true, l)).
  { unfold EnablePoll. rewrite Hnode, Hval.
    rewrite (proj2 (on_poll_list_In v l) Hin). reflexivity. }
  split; [exact H1|]. split.
  - rewrite H1. simpl. exact H1.
  - intros ops. apply poll_run_NoDup. constructor.
Qed.

End PollerProperties.

(** * Scenarios *)

(** C1, as the code runs it.  A SEND_DATA message is sent and the ACK of
    the controller is lost; the response and the matching callback arrive
    while the driver still waits for the ACK.  The generic callback handling
    of [ProcessMsg] deletes the current message and leaves
    [m_waitingForAck] set (and [m_expectedNodeId] at the target): the
    current message is null although the driver waits for an ACK.  From
    there every timeout finds no message to resend and changes nothing, and
    no queue is served. *)
Theorem transaction_closed_while_waiting_for_ack :
  exists d : Driver,
    lost_ack_run = Some d
    /\ m_currentMsg d = None
    /\ m_waitingForAck d = true
    /\ m_expectedNodeId d = 5
    /\ ~ in_flight_invariant d
    /\ DriverThread_turn (ext := plain_ext) Wait_Timeout d = Some ([], d)
    /\ forall q, DriverThread_turn (ext := plain_ext) (Wait_Queue q) d = None.
Proof.
  eexists. split; [vm_compute; reflexivity|].
  split; [reflexivity|]. split; [reflexivity|]. split; [reflexivity|].
  split; [|split].
  - intros [_ H]. destruct (H eq_refl) as [m Hm]. discriminate Hm.
  - vm_compute. reflexivity.
  - intros q. destruct q; reflexivity.
Qed.

(** S1: a frame with a wrong trailing byte gets a NAK and counts as a bad
    checksum. *)
Lemma ReadMsg_checksum_witness :
  exists d',
    ReadMsg (ext := plain_ext) (Some SOF) (Body 3 [0x00; 0x15; 0x00])
            (fresh_driver 0x0184f0a3 1) = Some (true, d')
    /\ m_written d' = [[NAK]]
    /\ m_badChecksum (m_stats d') = 1.
Proof.
  destruct (ReadMsg_checksum (ext := plain_ext) (fresh_driver 0x0184f0a3 1)
              0x00 0x15 0x00 []) as [_ Hbad].
  destruct Hbad as (d' & Hread & _ & Hw & Hb & _); [vm_compute; discriminate|].
  cbn [length app] in Hread. change (3 + Z.of_nat 0) with 3 in Hread.
  exists d'. split; [exact Hread|]. rewrite Hw, Hb. split; reflexivity.
Defined.

(** C8 as stated fails: the node_id attribute 257 differs from the node id
    1 of the controller, and the snapshot is loaded all the same, because
    the attribute is compared after it is cut to 8 bits. *)
Lemma ReadConfig_accepts_node_id_257 :
  let ext := sample_ext (Some snapshot_257) (fun _ => false) in
  let d := fresh_driver 0x0184f0a3 1 in
  LoadFile (m_homeId d) = Some snapshot_257
  /\ QueryIntAttribute snapshot_257 "node_id" = Some 257
  /\ 257 <> m_nodeId d
  /\ fst (ReadConfig d) = true
  /\ snd (ReadConfig d) <> d
  /\ is_Some (m_nodes (snd (ReadConfig d)) !! 5).
Proof.
  cbv zeta. split; [reflexivity|]. split; [reflexivity|]. split; [discriminate|].
  split; [reflexivity|]. split.
  - intros H. apply (f_equal m_notifications) in H. vm_compute in H. discriminate H.
  - vm_compute. eauto.
Defined.

Lemma ReadConfig_mismatch_witness :
  let ext := sample_ext (Some snapshot_v2) (fun _ => false) in
  ReadConfig (fresh_driver 0x0184f0a3 1) = (false, fresh_driver 0x0184f0a3 1).
Proof.
  cbv zeta.
  apply (ReadConfig_mismatch (ext := sample_ext (Some snapshot_v2) (fun _ => false))
           (fresh_driver 0x0184f0a3 1) snapshot_v2).
  - reflexivity.
  - right. left. exists 2. split; [reflexivity | vm_compute; discriminate].
Defined.

(** The node elements with the ids 0, 233 and 511 give the entries 0, 233
    and 255 of the table. *)
Lemma ReadConfig_node_ids_witness :
  let ext := sample_ext (Some snapshot_out_of_range) (fun _ => false) in
  let d' := snd (ReadConfig (fresh_driver 0x0184f0a3 1)) in
  is_Some (m_nodes d' !! 0) /\ is_Some (m_nodes d' !! 233) /\ is_Some (m_nodes d' !! 255).
Proof.
  cbv zeta.
  pose (ext := sample_ext (Some snapshot_out_of_range) (fun _ => false)).
  pose (d := fresh_driver 0x0184f0a3 1).
  assert (Hr : ReadConfig (ext := ext) d = (true, snd (ReadConfig (ext := ext) d)))
    by (vm_compute; reflexivity).
  fold ext. fold d. remember (snd (ReadConfig (ext := ext) d)) as d' eqn:Hd'.
  pose proof (fun e v Hin => ReadConfig_node_ids (ext := ext) d d' snapshot_out_of_range
                               e v eq_refl Hr Hin) as H.
  destruct (H (mkXmlElem "Node" [("id", 0)] []) 0
              (or_introl eq_refl) eq_refl eq_refl) as [H0 _].
  destruct (H (mkXmlElem "Node" [("id", 233)] []) 233
              (or_intror (or_introl eq_refl)) eq_refl eq_refl) as [H233 _].
  destruct (H (mkXmlElem "Node" [("id", 511)] []) 511
              (or_intror (or_intror (or_introl eq_refl))) eq_refl eq_refl) as [H511 _].
  change (0 mod 256) with 0 in H0. change (233 mod 256) with 233 in H233.
  change (511 mod 256) with 255 in H511. auto.
Defined.

(** S5: the awake nodes are queried, then the sleeper completes, then all
    nodes are queried; a further check queues nothing. *)
Lemma query_notifications_once_witness :
  exists tr d,
    execution (driver_s5 QueryStage_ProtocolInfo false) tr d
    /\ map (fun e => n_type (snd e)) tr = [Type_AwakeNodesQueried; Type_AllNodesQueried]
    /\ (count_type Type_AllNodesQueried tr <= 1)%nat
    /\ (count_type Type_AwakeNodesQueried tr <= 1)%nat.
Proof.
  pose (d0 := driver_s5 QueryStage_ProtocolInfo false).
  pose (d1 := CheckCompletedNodeQueries d0).
  pose (d2 := driver_s5 QueryStage_Complete true).
  pose (d3 := CheckCompletedNodeQueries d2).
  pose proof (exec_check d0 [] d0 (exec_start d0)) as H1. fold d1 in H1.
  pose proof (exec_other d0 _ d1 [] d2 H1 eq_refl eq_refl (List.Forall_nil _)) as H2.
  pose proof (exec_check d0 _ d2 H2) as H3. fold d3 in H3.
  pose proof (exec_check d0 _ d3 H3) as H4.
  eexists. eexists. split; [exact H4|]. split; [vm_compute; reflexivity|].
  destruct (query_notifications_once _ _ _ H4) as (Ha & Hw & _).
  split; [exact Ha | exact Hw].
Defined.

(** S2 on the sample driver: three writes of the frame, then the drop, and
    both counters still 0. *)
Lemma retry_budget_counters_witness :
  exists d1 d2 d3 d4,
    WriteNextMsg (ext := plain_ext) MsgQueue_Send driver_with_send_data = Some (true, d1)
    /\ WriteMsg d1 = (true, d2)
    /\ WriteMsg d2 = (true, d3)
    /\ WriteMsg d3 = (false, d4)
    /\ m_written d4
       = [m_buffer send_data_msg; m_buffer send_data_msg; m_buffer send_data_msg]
    /\ m_currentMsg d4 = None
    /\ m_retries (m_stats d4) = 0
    /\ m_dropped (m_stats d4) = 0.
Proof.
  destruct (retry_budget_counters (ext := plain_ext) driver_with_send_data MsgQueue_Send
              send_data_msg [] eq_refl eq_refl)
    as (d1 & d2 & d3 & d4 & E0 & E1 & E2 & E3 & _ & _ & _ & Hw & Hc & _ & _ & _ & _ & _
        & Hr & Hd).
  exists d1, d2, d3, d4. repeat (split; [assumption|]). exact Hd.
Defined.

(** C3 as stated fails when a submission is interleaved with the driver
    thread.  Node 7 is awake and its first message is in flight; a producer
    submits another message for node 7 and finds the node awake; before it
    pushes, the NO_ACK callback of the message in flight arrives and
    [MoveMessagesToWakeUpQueue] marks node 7 asleep; the producer then
    pushes, and the Send queue holds a message for the sleeping node 7. *)
Lemma submission_interleaved_with_move :
  let d0 := sleeper_state in
  let item := MsgQueueCmd_SendMsg (Finalize (External := plain_ext) msg7b) in
  no_queued_for_sleeper d0
  /\ SendMsg_buffered (ext := plain_ext) msg7b d0 = None
  /\ exists d1,
       HandleSendDataRequest (ext := plain_ext) no_ack_callback false d0 = Some d1
       /\ section_reachable (ext := plain_ext) (d0, [])
            (enqueue MsgQueue_Send item d1, [])
       /\ In item (qget MsgQueue_Send (m_msgQueue (enqueue MsgQueue_Send item d1)))
       /\ asleep (enqueue MsgQueue_Send item d1) (item_target item)
       /\ ~ no_queued_for_sleeper (enqueue MsgQueue_Send item d1).
Proof.
  cbv zeta.
  assert (Hd1 : exists d1,
            HandleSendDataRequest (ext := plain_ext) no_ack_callback false sleeper_state
            = Some d1) by (vm_compute; eexists; reflexivity).
  destruct Hd1 as [d1 Hd1].
  assert (Htest : SendMsg_buffered (ext := plain_ext) msg7b sleeper_state = None)
    by (vm_compute; reflexivity).
  assert (Hin : In (MsgQueueCmd_SendMsg (Finalize (External := plain_ext) msg7b))
                   (qget MsgQueue_Send
                      (m_msgQueue
                         (enqueue MsgQueue_Send
                            (MsgQueueCmd_SendMsg (Finalize (External := plain_ext) msg7b))
                            d1)))).
  { unfold enqueue. cbn. apply in_or_app. right. left. reflexivity. }
  assert (Hasleep : asleep
                      (enqueue MsgQueue_Send
                         (MsgQueueCmd_SendMsg (Finalize (External := plain_ext) msg7b)) d1)
                      7).
  { vm_compute in Hd1. injection Hd1 as <-.
    eexists. eexists. split; [vm_compute; reflexivity|].
    split; [reflexivity|]. split; reflexivity. }
  split; [|split; [exact Htest|]].
  - intros q item Hq (node & w & Hn & _ & Hw & Ha).
    destruct q; vm_compute in Hq;
      repeat (destruct Hq as [<-|Hq]); try contradiction;
      vm_compute in Hn; try discriminate Hn; injection Hn as <-;
      vm_compute in Hw; injection Hw as <-; discriminate Ha.
  - exists d1. split; [exact Hd1|]. split; [|split; [exact Hin|split; [exact Hasleep|]]].
    + apply (section_next _ (d1, [(MsgQueue_Send,
                 MsgQueueCmd_SendMsg (Finalize (External := plain_ext) msg7b))])).
      * apply (section_next _ (sleeper_state, [(MsgQueue_Send,
                   MsgQueueCmd_SendMsg (Finalize (External := plain_ext) msg7b))])).
        -- apply (section_next _ (sleeper_state, [])); [apply section_start|].
           apply (section_tested (ext := plain_ext) msg7b MsgQueue_Send sleeper_state []).
           exact Htest.
        -- apply section_driver.
           apply (step_HandleSendDataRequest _ no_ack_callback false d1 Hd1).
      * apply (section_pushed (ext := plain_ext) MsgQueue_Send
                 (MsgQueueCmd_SendMsg (Finalize (External := plain_ext) msg7b)) d1 [] []).
    + intros H. exact (H MsgQueue_Send _ Hin Hasleep).
Defined.

(** S3: node 7 is asleep; a message submitted for it goes to its sleeping
    buffer and the queues hold nothing for a sleeping node. *)
Lemma sleeping_node_redirect_witness :
  let d := SendMsg (ext := plain_ext) msg7a MsgQueue_Send (driver_with_sleeper false) in
  no_queued_for_sleeper d
  /\ m_msgQueue (SendMsg (ext := plain_ext) msg7b MsgQueue_Send d) = m_msgQueue d.
Proof.
  cbv zeta.
  pose (d0 := driver_with_sleeper false).
  pose (d := SendMsg (ext := plain_ext) msg7a MsgQueue_Send d0).
  assert (Hadv : forall n s x, no_queued_for_sleeper x ->
                               no_queued_for_sleeper (AdvanceQueries (External := plain_ext) n s x))
    by (intros n s x Hx; exact Hx).
  assert (H0 : no_queued_for_sleeper d0) by (intros q item Hin; destruct q; destruct Hin).
  pose proof (reach_step (ext := plain_ext) d0 d0 d (reach_start d0)
                (step_SendMsg d0 msg7a MsgQueue_Send)) as Hreach.
  destruct (sleeping_node_redirect (ext := plain_ext) d0 d Hadv H0 Hreach)
    as (Hinv & Hsend & _).
  split; [exact Hinv|].
  destruct (Hsend msg7b MsgQueue_Send
              (set_m_wakeUp (Some (mkWakeUp false [MsgQueueCmd_SendMsg msg7a]))
                 (sleeper_node false))
              (mkWakeUp false [MsgQueueCmd_SendMsg msg7a])
              eq_refl eq_refl eq_refl eq_refl eq_refl eq_refl) as (Hq & _).
  exact Hq.
Defined.

(** C5 as stated fails for REPLICATION_SEND_DATA: the callback id matches,
    the status is NO_ACK without NO_ROUTE, the current message is for node 7
    and node 7 can sleep, so that [MoveMessagesToWakeUpQueue] would move; the
    handler leaves the driver as it is, the message current and the node
    awake. *)
Lemma replication_callback_not_redirected :
  let d := sleeper_state in
  sleeper_in_flight = Some d
  /\ byte_at no_ack_replication_callback 2 = m_expectedCallbackId d
  /\ Z.land (byte_at no_ack_replication_callback 3)
            (TRANSMIT_COMPLETE_NOROUTE (External := plain_ext)) = 0
  /\ Z.land (byte_at no_ack_replication_callback 3)
            (TRANSMIT_COMPLETE_NO_ACK (External := plain_ext)) <> 0
  /\ (m_targetNodeId <$> m_currentMsg d) = Some 7
  /\ sleep_capable d 7 = true
  /\ HandleSendDataRequest (ext := plain_ext) no_ack_replication_callback true d = Some d
  /\ exists d1,
       MoveMessagesToWakeUpQueue (ext := plain_ext) 7 d = Some (true, d1)
       /\ d1 <> d.
Proof.
  cbv zeta. split; [vm_compute; reflexivity|].
  split; [vm_compute; reflexivity|]. split; [reflexivity|]. split; [discriminate|].
  split; [vm_compute; reflexivity|]. split; [vm_compute; reflexivity|].
  split; [vm_compute; reflexivity|].
  eexists. split; [vm_compute; reflexivity|].
  intros H. apply (f_equal m_currentMsg) in H. vm_compute in H. discriminate H.
Defined.

(** The NO_ACK callback of SEND_DATA on the same state: the two Basic Gets
    for node 7 are in its sleeping buffer, the Wake Up No More Information
    is gone, the message for node 5 stays queued, and the event of the
    emptied WakeUp queue is reset. *)
Lemma send_data_callback_failure_witness :
  let d := sleeper_state in
  byte_at no_ack_callback 2 = m_expectedCallbackId d
  /\ marker_queued 7 d = false
  /\ exists d',
       HandleSendDataRequest (ext := plain_ext) no_ack_callback false d = Some d'
       /\ (m_pendingQueue <$> (m_nodes d' !! 7 ≫= m_wakeUp))
          = Some [MsgQueueCmd_SendMsg (SetSendAttempts 1 msg7a); MsgQueueCmd_SendMsg msg7b]
       /\ m_msgQueue d' = mkQueues [] [] [MsgQueueCmd_SendMsg send_data_msg] [] []
       /\ m_queueEvent d' = mkQueues false false true false false
       /\ m_currentMsg d' = None.
Proof.
  cbv zeta.
  assert (Hcb : byte_at no_ack_callback 2 = m_expectedCallbackId sleeper_state)
    by (vm_compute; reflexivity).
  split; [exact Hcb|]. split; [vm_compute; reflexivity|].
  destruct (send_data_callback_failure (ext := plain_ext) no_ack_callback false
              sleeper_state Hcb) as [_ H].
  destruct (H eq_refl) as [Hmove _]; [discriminate|].
  assert (Hcur : m_currentMsg sleeper_state = Some (SetSendAttempts 1 msg7a))
    by (vm_compute; reflexivity).
  assert (Hnode : m_nodes sleeper_state !! m_targetNodeId (SetSendAttempts 1 msg7a)
                  = Some (set_node_writeCnt 1 (sleeper_node true)))
    by (vm_compute; reflexivity).
  destruct (Hmove eq_refl (SetSendAttempts 1 msg7a)
              (set_node_writeCnt 1 (sleeper_node true)) (mkWakeUp true [])
              Hcur Hnode eq_refl eq_refl eq_refl eq_refl eq_refl)
    as (d' & Hh & _ & Hn & Hq & He & Hc & _).
  exists d'. split; [exact Hh|].
  change (m_targetNodeId (SetSendAttempts 1 msg7a)) with 7 in Hn.
  rewrite Hn, Hq, He, Hc. vm_compute. auto.
Defined.

(** C7 as stated fails for a virtual node: with node 9 a virtual node of a
    bridge controller, its bit set and its slot empty, no node is created
    and no NodeNew is queued for it. *)
Lemma InitData_ignores_virtual_node :
  let ext := sample_ext None (fun nodeId => nodeId =? 9) in
  let d := fresh_driver 0x0184f0a3 1 in
  let d' := HandleSerialAPIGetInitDataResponse init_data_2_5_9 d in
  m_init d = false
  /\ byte_at init_data_2_5_9 4 = 29
  /\ bit_set init_data_2_5_9 (1%nat, 0%nat) = true
  /\ m_nodes (reconcile_start d) !! 9 = None
  /\ m_nodes d' !! 9 = None
  /\ ~ In (mkNotification Type_NodeNew (m_homeId d) 9) (m_notifications d').
Proof.
  cbv zeta. split; [reflexivity|]. split; [reflexivity|]. split; [reflexivity|].
  split; [reflexivity|]. split; [vm_compute; reflexivity|].
  vm_compute. intros [H|[H|[H|[H|[H|[]]]]]]; discriminate H.
Defined.

(** S4: the snapshot has the nodes 2, 5 and 7 and the bitmap the nodes 2, 5
    and 9: node 9 is created at ProtocolInfo. *)
Lemma InitData_reconciliation_witness :
  let ext := sample_ext (Some snapshot_2_5_7) (fun _ => false) in
  let d := fresh_driver 0x0184f0a3 1 in
  m_init d = false
  /\ byte_at init_data_2_5_9 4 = NUM_NODE_BITFIELD_BYTES
  /\ exists node,
       m_nodes (HandleSerialAPIGetInitDataResponse init_data_2_5_9 d) !! 9 = Some node
       /\ GetCurrentQueryStage node = QueryStage_ProtocolInfo.
Proof.
  cbv zeta. split; [reflexivity|]. split; [reflexivity|].
  pose (ext := sample_ext (Some snapshot_2_5_7) (fun _ => false)).
  pose proof (InitData_reconciliation (ext := ext) init_data_2_5_9
                (fresh_driver 0x0184f0a3 1) 1 0 eq_refl eq_refl
                (le_S _ _ (le_S _ _ (le_S _ _ (le_S _ _ (le_S _ _ (le_S _ _ (le_S _ _
                 (le_S _ _ (le_S _ _ (le_S _ _ (le_S _ _ (le_S _ _ (le_S _ _ (le_S _ _
                 (le_S _ _ (le_S _ _ (le_S _ _ (le_S _ _ (le_S _ _ (le_S _ _ (le_S _ _
                 (le_S _ _ (le_S _ _ (le_S _ _ (le_S _ _ (le_S _ _ (le_S _ _
                 (le_n 2))))))))))))))))))))))))))))
                (le_S _ _ (le_S _ _ (le_S _ _ (le_S _ _ (le_S _ _ (le_S _ _ (le_S _ _
                 (le_n 1))))))))) as H.
  cbv zeta in H. destruct H as (Hnew & _).
  change (Z.of_nat 1 * 8 + Z.of_nat 0 + 1) with 9 in Hnew.
  destruct Hnew as [Hnode _]; [reflexivity | reflexivity | vm_compute; reflexivity|].
  exact Hnode.
Defined.

(** A value of node 5 that is on the poll list already. *)
Lemma EnablePoll_idempotent_witness :
  let vs := sample_values in
  let d := set_m_nodes (<[5 := mains_node 5]> ∅) (fresh_driver 0x0184f0a3 1) in
  EnablePoll (vs := vs) 0x05000001 d [0x05000001; 0x05000002]
  = (true, [0x05000001; 0x05000002]).
Proof.
  cbv zeta.
  destruct (EnablePoll_idempotent (vs := sample_values) 0x05000001
              (set_m_nodes (<[5 := mains_node 5]> ∅) (fresh_driver 0x0184f0a3 1))
              (mains_node 5) [0x05000001; 0x05000002]) as [H _].
  - reflexivity.
  - reflexivity.
  - left. reflexivity.
  - exact H.
Defined.

(** * Further properties of the driver engine *)

(** Projections of the driver out of its setters. *)
Ltac engine_simpl :=
  cbn [m_init m_awakeNodesQueried m_allNodesQueried m_notifytransactions
       m_homeId m_nodeId m_initVersion m_initCaps m_controllerCaps
       m_pollInterval m_nodes m_virtualNeighbors m_currentMsg
       m_waitingForAck m_expectedCallbackId m_expectedReply
       m_expectedCommandClassId m_expectedNodeId m_msgQueue m_queueEvent
       m_stats m_written m_notifications set_m_init set_m_awakeNodesQueried
       set_m_allNodesQueried set_m_initVersion set_m_initCaps
       set_m_controllerCaps set_m_pollInterval set_m_nodes set_m_currentMsg
       set_m_waitingForAck set_m_expectedCallbackId set_m_expectedReply
       set_m_expectedCommandClassId set_m_expectedNodeId set_m_msgQueue
       set_m_queueEvent set_m_stats set_m_written set_m_notifications
       clear_expectations RemoveCurrentMsg QueueNotification
       controller_Write upd_stats fst snd].

(** Splits a conjunction of facts, with their hypotheses, into goals closed
    by computation or by the hypotheses. *)
Ltac split_facts :=
  repeat split; intros; repeat split;
  try reflexivity; try congruence;
  try (match goal with H : _ \/ _ |- _ => destruct H; congruence end).

Section Engine.

Context {ext : External}.

(** ** The events of the queues *)

Lemma events_match_enqueue (q : MsgQueue) (item : MsgQueueItem) (d : Driver) :
  events_match d -> events_match (enqueue q item d).
Proof.
  intros Hd q'. unfold enqueue. engine_simpl. rewrite !qget_qset.
  destruct (decide (q = q')) as [->|_]; [|apply Hd].
  destruct (qget q' (m_msgQueue d)); reflexivity.
Qed.

Lemma events_match_pop_front (q : MsgQueue) (cur : option Msg) (d : Driver) :
  events_match d -> events_match (pop_front q (set_m_currentMsg cur d)).
Proof.
  intros Hd q'. unfold pop_front. engine_simpl.
  destruct (tail (qget q (m_msgQueue d))) as [|x rest] eqn:Ht; engine_simpl;
    rewrite !qget_qset; destruct (decide (q = q')) as [->|_];
    try apply Hd; try reflexivity.
  rewrite Hd. destruct (qget q' (m_msgQueue d)); [discriminate Ht | reflexivity].
Qed.

Lemma events_match_submit (target : Z) (queue : MsgQueue) (item : MsgQueueItem)
    (d : Driver) (node : Node) :
  events_match d ->
  events_match
    match (if negb (IsListeningDevice node) then m_wakeUp node else None) with
    | Some wakeUp =>
        if negb (m_awake wakeUp)
        then queue_on_node target node wakeUp item d
        else enqueue queue item d
    | None => enqueue queue item d
    end.
Proof.
  intros Hd.
  destruct (if negb (IsListeningDevice node) then m_wakeUp node else None) as [w|];
    [|apply events_match_enqueue, Hd].
  destruct (negb (m_awake w)); [|apply events_match_enqueue, Hd].
  intros q. apply Hd.
Qed.

Lemma events_match_WriteMsg (d : Driver) :
  events_match d -> events_match (snd (WriteMsg d)).
Proof.
  intros Hd q. destruct (WriteMsg_keeps d) as [Hq _]. rewrite Hq.
  assert (He : m_queueEvent (snd (WriteMsg d)) = m_queueEvent d).
  { unfold WriteMsg. destruct (m_currentMsg d) as [msg|]; [|reflexivity].
    destruct (MAX_TRIES <=? m_sendAttempts msg); [reflexivity|]. cbv zeta.
    match goal with |- context [if ?b then _ else _] => destruct b end; [reflexivity|].
    match goal with |- context [GetNodeUnsafe ?n ?x] => destruct (GetNodeUnsafe n x) end;
      reflexivity. }
  rewrite He. apply Hd.
Qed.

Lemma is_empty_filter_nonempty {A} (f : A -> bool) (l : list A) :
  is_empty (List.filter f l) = false -> is_empty l = false.
Proof. destruct l; [discriminate | reflexivity]. Qed.

Lemma events_match_MoveMessagesToWakeUpQueue (target : Z) (d d' : Driver) (r : bool) :
  MoveMessagesToWakeUpQueue target d = Some (r, d') ->
  events_match d -> events_match d'.
Proof.
  intros Hm Hd. destruct (sleep_capable d target) eqn:Hs.
  - destruct (sleep_capable_true _ _ Hs) as (node & w & Hn & Hl & Hf & Hc & Hw).
    rewrite (MoveMessagesToWakeUpQueue_spec target d node w Hn Hl Hf Hc Hw) in Hm.
    destruct (marker_queued target d); [discriminate|]. injection Hm as _ <-.
    intros q. engine_simpl.
    assert (Hq : m_msgQueue (match current_for target d with
                             | [] => d
                             | _ => clear_expectations (set_m_currentMsg None d)
                             end) = m_msgQueue d)
      by (destruct (current_for target d); reflexivity).
    pose proof (Hd q) as Hdq. unfold without_target, events_reset, qmap.
    destruct q; cbn [qget qCommand qWakeUp qSend qQuery qPoll] in *;
      match goal with
      | |- (if is_empty ?l then false else ?e) = _ =>
          destruct (is_empty l) eqn:He; [reflexivity|];
          rewrite Hdq; apply is_empty_filter_nonempty in He; rewrite He; reflexivity
      end.
  - rewrite (MoveMessagesToWakeUpQueue_not _ _ Hs) in Hm. injection Hm as _ <-. exact Hd.
Qed.

Lemma events_match_step (d d' : Driver) :
  (forall n s x, events_match x -> events_match (AdvanceQueries n s x)) ->
  queue_step d d' -> events_match d -> events_match d'.
Proof.
  intros Hadv Hstep Hd.
  destruct Hstep as [msg q|nodeId stage q|q r d' Hw| |data repl d' Hh|target r d' Hm].
  - unfold SendMsg, GetNode. cbv zeta.
    destruct (m_nodes d !! m_targetNodeId (Finalize msg)) as [node|].
    + apply (events_match_submit (m_targetNodeId (Finalize msg))), Hd.
    + apply events_match_enqueue, Hd.
  - unfold SendQueryStageComplete, GetNode. cbv zeta.
    destruct (m_nodes d !! nodeId) as [node|]; [|exact Hd].
    apply (events_match_submit nodeId), Hd.
  - unfold WriteNextMsg in Hw.
    destruct (qget q (m_msgQueue d)) as [|[msg|nodeId stage] rest]; [discriminate| |].
    + injection Hw as Hw. apply (f_equal snd) in Hw. cbn [snd] in Hw. subst d'.
      apply events_match_WriteMsg, events_match_pop_front, Hd.
    + unfold GetNodeUnsafe in Hw.
      destruct (m_nodes _ !! nodeId); injection Hw as _ <-.
      * apply Hadv, events_match_pop_front, Hd.
      * apply events_match_pop_front, Hd.
  - apply events_match_WriteMsg, Hd.
  - destruct (HandleSendDataRequest_cases _ _ _ _ Hh)
      as [->|[->|[->|(cur & r & _ & _ & Hm)]]]; [exact Hd | exact Hd | exact Hd |].
    exact (events_match_MoveMessagesToWakeUpQueue _ _ _ _ Hm Hd).
  - exact (events_match_MoveMessagesToWakeUpQueue _ _ _ _ Hm Hd).
Qed.

(** X1. The event of each of the five queues is set exactly when the queue
    is not empty: this holds in every state reached from one where it holds
    by submitting messages and markers, dequeueing, resending, handling
    send-data callbacks and moving the items of unresponsive nodes (the
    calls that return), provided the query advance of the nodes keeps to it
    as well. *)
Theorem queue_events_match (d0 d : Driver) :
  (forall n s x, events_match x -> events_match (AdvanceQueries n s x)) ->
  events_match d0 ->
  queue_reachable d0 d ->
  events_match d.
Proof.
  intros Hadv H0. induction 1 as [|d d' _ IH Hstep]; [exact H0|].
  apply (events_match_step d d' Hadv Hstep IH).
Qed.

(** ** The single-byte signals *)

(** X2. An ACK clears [m_waitingForAck] and counts; it closes the
    transaction, clearing the current message and every expectation, exactly
    when neither a callback nor a reply is expected, and otherwise leaves
    the current message and the expectations as they are.  Nothing is
    written, and no notification is queued. *)
Theorem ReadMsg_ack (rest : FrameRead) (d : Driver) :
  exists d',
  ReadMsg (Some ACK) rest d = Some (true, d')
  /\ m_waitingForAck d' = false
  /\ m_ACKCnt (m_stats d') = incr (m_ACKCnt (m_stats d))
  /\ m_written d' = m_written d
  /\ m_notifications d' = m_notifications d
  /\ (m_expectedCallbackId d = 0 -> m_expectedReply d = 0 ->
      m_currentMsg d' = None /\ waiting d' = false
      /\ m_expectedCommandClassId d' = 0 /\ m_expectedNodeId d' = 0)
  /\ (m_expectedCallbackId d <> 0 \/ m_expectedReply d <> 0 ->
      m_currentMsg d' = m_currentMsg d
      /\ m_expectedCallbackId d' = m_expectedCallbackId d
      /\ m_expectedReply d' = m_expectedReply d
      /\ waiting d' = true).
Proof.
  unfold ReadMsg.
  change (ACK =? SOF) with false. change (ACK =? CAN) with false.
  change (ACK =? NAK) with false. change (ACK =? ACK) with true. cbv iota zeta.
  engine_simpl.
  destruct (Z.eq_dec (m_expectedCallbackId d) 0) as [Hc|Hc];
    destruct (Z.eq_dec (m_expectedReply d) 0) as [Hr|Hr].
  - rewrite Hc, Hr. cbn [Z.eqb andb]. eexists. split; [reflexivity|].
    unfold waiting. engine_simpl. split_facts.
  - rewrite Hc, (proj2 (Z.eqb_neq 0 _) (fun H => Hr (eq_sym H))).
    cbn [Z.eqb andb]. eexists. split; [reflexivity|]. unfold waiting. engine_simpl.
    rewrite Hc, (proj2 (Z.eqb_neq _ 0) Hr). split_facts.
  - rewrite (proj2 (Z.eqb_neq 0 _) (fun H => Hc (eq_sym H))).
    cbn [andb]. eexists. split; [reflexivity|]. unfold waiting. engine_simpl.
    rewrite (proj2 (Z.eqb_neq _ 0) Hc). split_facts.
  - rewrite (proj2 (Z.eqb_neq 0 _) (fun H => Hc (eq_sym H))).
    cbn [andb]. eexists. split; [reflexivity|]. unfold waiting. engine_simpl.
    rewrite (proj2 (Z.eqb_neq _ 0) Hc). split_facts.
Qed.


(** X3. A NAK or a CAN from the controller resends the current message: as
    long as it has tries left the same frame bytes are written once more,
    the attempt is counted and the driver waits for the ACK again; once the
    tries are used up the message is dropped instead, with nothing written;
    and without a current message nothing is written at all.  The signal is
    counted in its own counter. *)
Theorem ReadMsg_nak_can (b : Z) (rest : FrameRead) (d : Driver) :
  b = NAK \/ b = CAN ->
  exists d',
  ReadMsg (Some b) rest d = Some (true, d') /\
  (forall msg, m_currentMsg d = Some msg -> m_sendAttempts msg < MAX_TRIES ->
     m_written d' = m_written d ++ [m_buffer msg]
     /\ m_currentMsg d' = Some (SetSendAttempts (m_sendAttempts msg + 1) msg)
     /\ m_waitingForAck d' = true)
  /\ (forall msg, m_currentMsg d = Some msg -> MAX_TRIES <= m_sendAttempts msg ->
        m_written d' = m_written d /\ m_currentMsg d' = None /\ waiting d' = false)
  /\ (m_currentMsg d = None ->
        m_written d' = m_written d /\ m_currentMsg d' = None
        /\ waiting d' = waiting d)
  /\ (b = NAK -> m_NAKCnt (m_stats d') = incr (m_NAKCnt (m_stats d))
                 /\ m_CANCnt (m_stats d') = m_CANCnt (m_stats d))
  /\ (b = CAN -> m_CANCnt (m_stats d') = incr (m_CANCnt (m_stats d))
                 /\ m_NAKCnt (m_stats d') = m_NAKCnt (m_stats d)).
Proof.
  intros Hb.
  assert (Hcount : exists d1,
             ReadMsg (Some b) rest d = Some (true, snd (WriteMsg d1))
             /\ m_currentMsg d1 = m_currentMsg d /\ m_written d1 = m_written d
             /\ waiting d1 = waiting d
             /\ (b = NAK -> m_NAKCnt (m_stats d1) = incr (m_NAKCnt (m_stats d))
                            /\ m_CANCnt (m_stats d1) = m_CANCnt (m_stats d))
             /\ (b = CAN -> m_CANCnt (m_stats d1) = incr (m_CANCnt (m_stats d))
                            /\ m_NAKCnt (m_stats d1) = m_NAKCnt (m_stats d))).
  { unfold ReadMsg. destruct Hb as [-> | ->].
    - change (NAK =? SOF) with false. change (NAK =? CAN) with false.
      change (NAK =? NAK) with true. cbv iota zeta.
      eexists. split; [reflexivity|]. split_facts.
      all: exfalso; unfold NAK, CAN in *; discriminate.
    - change (CAN =? SOF) with false. change (CAN =? CAN) with true.
      cbv iota zeta.
      eexists. split; [reflexivity|]. split_facts.
      all: exfalso; unfold NAK, CAN in *; discriminate. }
  destruct Hcount as (d1 & Hread & Hc1 & Hw1 & Hwait1 & Hnak & Hcan).
  exists (snd (WriteMsg d1)). split; [exact Hread|]. clear Hread.
  assert (Hstats : m_stats (snd (WriteMsg d1)) =
                   m_stats (snd (WriteMsg d1)) -> True) by auto.
  split; [|split; [|split; [|split]]].
  - intros msg Hcur Hlt. rewrite <- Hc1 in Hcur.
    destruct (WriteMsg_sends d1 msg Hcur Hlt) as (d2 & -> & Hc2 & Hw2 & Ha2 & _).
    cbn [snd]. rewrite Hw2, Hw1. auto.
  - intros msg Hcur Hge. rewrite <- Hc1 in Hcur.
    rewrite (WriteMsg_drops d1 msg Hcur Hge). cbn [snd]. unfold waiting.
    engine_simpl. rewrite Hw1. auto.
  - intros Hcur. rewrite <- Hc1 in Hcur. unfold WriteMsg. rewrite Hcur. cbn [snd].
    rewrite Hw1, Hwait1. auto.
  - intros E. destruct (Hnak E) as [<- <-]. clear Hnak Hcan Hstats.
    unfold WriteMsg. destruct (m_currentMsg d1) as [msg|]; [|auto].
    destruct (MAX_TRIES <=? m_sendAttempts msg); [auto|]. cbv zeta.
    match goal with |- context [if ?c then _ else _] => destruct c end; [auto|].
    match goal with |- context [GetNodeUnsafe ?n ?x] => destruct (GetNodeUnsafe n x) end;
      auto.
  - intros E. destruct (Hcan E) as [<- <-]. clear Hnak Hcan Hstats.
    unfold WriteMsg. destruct (m_currentMsg d1) as [msg|]; [|auto].
    destruct (MAX_TRIES <=? m_sendAttempts msg); [auto|]. cbv zeta.
    match goal with |- context [if ?c then _ else _] => destruct c end; [auto|].
    match goal with |- context [GetNodeUnsafe ?n ?x] => destruct (GetNodeUnsafe n x) end;
      auto.
Qed.

(** X4. A frame that stops after the SOF, with the length byte missing
    after 100 ms or the body missing after 500 ms, is aborted: the abort is
    counted, nothing is written to the controller, and the message in flight
    is not dropped, the transaction state, the queues, the nodes and the
    notifications staying as they are.  And when there is nothing to read
    [ReadMsg] returns false and changes nothing. *)
Theorem ReadMsg_frame_timeout (rest : FrameRead) (d : Driver) :
  (rest = LengthTimeout \/ exists len, rest = BodyTimeout len) ->
  ReadMsg None rest d = Some (false, d)
  /\ exists d',
  ReadMsg (Some SOF) rest d = Some (true, d')
  /\ m_readAborts (m_stats d') = incr (m_readAborts (m_stats d))
  /\ m_written d' = m_written d
  /\ m_currentMsg d' = m_currentMsg d
  /\ m_waitingForAck d' = m_waitingForAck d
  /\ m_expectedCallbackId d' = m_expectedCallbackId d
  /\ m_expectedReply d' = m_expectedReply d
  /\ m_msgQueue d' = m_msgQueue d
  /\ m_nodes d' = m_nodes d
  /\ m_notifications d' = m_notifications d
  /\ m_badChecksum (m_stats d') = m_badChecksum (m_stats d).
Proof.
  intros Hrest. split; [reflexivity|].
  unfold ReadMsg. rewrite Z.eqb_refl. cbv zeta.
  destruct Hrest as [-> | [len ->]];
    destruct (m_waitingForAck d) eqn:Hw; engine_simpl; rewrite Hw;
    (eexists; split; [reflexivity|]); engine_simpl; split_facts.
Qed.

(** X5. A byte that is neither SOF, ACK, NAK nor CAN is out of frame: the
    driver answers with exactly one NAK and counts it; the transaction
    state, the queues, the nodes and the notifications stay as they are. *)
Theorem ReadMsg_out_of_frame (b : Z) (rest : FrameRead) (d : Driver) :
  b <> SOF -> b <> ACK -> b <> NAK -> b <> CAN ->
  exists d',
  ReadMsg (Some b) rest d = Some (true, d')
  /\ m_written d' = m_written d ++ [[NAK]]
  /\ m_OOFCnt (m_stats d') = incr (m_OOFCnt (m_stats d))
  /\ m_currentMsg d' = m_currentMsg d
  /\ m_waitingForAck d' = m_waitingForAck d
  /\ m_expectedCallbackId d' = m_expectedCallbackId d
  /\ m_expectedReply d' = m_expectedReply d
  /\ m_msgQueue d' = m_msgQueue d
  /\ m_nodes d' = m_nodes d
  /\ m_notifications d' = m_notifications d.
Proof.
  intros Hs Ha Hn Hc. unfold ReadMsg.
  rewrite (proj2 (Z.eqb_neq _ _) Hs), (proj2 (Z.eqb_neq _ _) Hc),
    (proj2 (Z.eqb_neq _ _) Hn), (proj2 (Z.eqb_neq _ _) Ha).
  eexists. split; [reflexivity|]. engine_simpl. split_facts.
Qed.

(** ** The checksum *)

Lemma lxor_cancel_r (a b z : Z) : Z.lxor a z = Z.lxor b z -> a = b.
Proof.
  intros H. apply (f_equal (fun x => Z.lxor x z)) in H.
  rewrite !Z.lxor_assoc, Z.lxor_nilpotent, !Z.lxor_0_r in H. exact H.
Qed.

Lemma fold_lxor_inj (l : list Z) (a b : Z) :
  fold_left Z.lxor l a = fold_left Z.lxor l b -> a = b.
Proof.
  revert a b. induction l as [|z l IH]; intros a b H; [exact H|].
  cbn [fold_left] in H. apply IH in H. exact (lxor_cancel_r a b z H).
Qed.

Lemma fold_lxor_changed (l1 l2 : list Z) (x y c : Z) :
  x <> y ->
  fold_left Z.lxor (l1 ++ x :: l2) c <> fold_left Z.lxor (l1 ++ y :: l2) c.
Proof.
  intros Hxy H. rewrite !fold_left_app in H. cbn [fold_left] in H.
  apply fold_lxor_inj in H. rewrite !(Z.lxor_comm (fold_left Z.lxor l1 c)) in H.
  apply lxor_cancel_r in H. contradiction.
Qed.

(** The checksum and the trailing byte of a frame whose body has the length
    that the length byte announces. *)
Lemma frame_checksum_body (len : Z) (body : list Z) (last : Z) :
  len = Z.of_nat (length body) + 1 ->
  frame_checksum (SOF :: len :: body ++ [last]) (len + 2)
  = fold_left Z.lxor (len :: body) 0xff
  /\ byte_at (SOF :: len :: body ++ [last]) (Z.to_nat (len + 2 - 1)) = last.
Proof.
  intros ->. split.
  - unfold frame_checksum. rewrite fold_xor_seq.
    + replace (Z.to_nat (Z.of_nat (length body) + 1 + 2 - 2)) with (S (length body))
        by lia.
      cbn [skipn firstn]. rewrite firstn_app, firstn_all, Nat.sub_diag.
      cbn [firstn]. rewrite app_nil_r. reflexivity.
    + cbn [length]. rewrite length_app. cbn [length]. lia.
  - unfold byte_at.
    replace (Z.to_nat (Z.of_nat (length body) + 1 + 2 - 1)) with (S (S (length body)))
      by lia.
    cbn [nth]. rewrite app_nth2 by lia. rewrite Nat.sub_diag. reflexivity.
Qed.

(** X6. The checksum detects every change of a single byte after the
    length byte: when a frame passes the checksum test, the frame that
    differs from it in exactly one byte of the body, the trailing byte
    included, fails the test; the driver answers it with a NAK, counts a bad
    checksum and does not dispatch it. *)
Theorem ReadMsg_detects_changed_byte (d : Driver) (len x y : Z) (l1 l2 : list Z) :
  len = Z.of_nat (length (l1 ++ x :: l2)) ->
  frame_ok len (l1 ++ x :: l2) = true ->
  x <> y ->
  frame_ok len (l1 ++ y :: l2) = false
  /\ ReadMsg (Some SOF) (Body len (l1 ++ y :: l2)) d
     = Some (true, controller_Write [NAK]
                     (upd_stats (fun s => set_m_badChecksum (incr (m_badChecksum s)) s)
                                (sof_counted d))).
Proof.
  intros Hlen Hok Hxy.
  assert (Hbad : frame_ok len (l1 ++ y :: l2) = false).
  { unfold frame_ok in *. destruct l2 as [|z l2].
    - assert (Hl : len = Z.of_nat (length l1) + 1)
        by (rewrite Hlen, length_app; cbn [length]; lia).
      destruct (frame_checksum_body len l1 x Hl) as [Hc Ht].
      destruct (frame_checksum_body len l1 y Hl) as [Hc' Ht'].
      rewrite Hc, Ht in Hok. rewrite Hc', Ht'. apply Z.eqb_eq in Hok.
      apply Z.eqb_neq. congruence.
    - destruct (exists_last (l := z :: l2)) as (m & t & E); [discriminate|].
      rewrite E in *.
      assert (E1 : l1 ++ x :: m ++ [t] = (l1 ++ x :: m) ++ [t])
        by (rewrite <- app_assoc; reflexivity).
      assert (E2 : l1 ++ y :: m ++ [t] = (l1 ++ y :: m) ++ [t])
        by (rewrite <- app_assoc; reflexivity).
      assert (Hl : len = Z.of_nat (length (l1 ++ x :: m)) + 1)
        by (rewrite Hlen, E1, length_app; cbn [length]; lia).
      assert (Hl' : len = Z.of_nat (length (l1 ++ y :: m)) + 1)
        by (rewrite Hl, !length_app; reflexivity).
      rewrite E1 in Hok. rewrite E2.
      destruct (frame_checksum_body len (l1 ++ x :: m) t Hl) as [Hc Ht].
      destruct (frame_checksum_body len (l1 ++ y :: m) t Hl') as [Hc' Ht'].
      rewrite Hc, Ht in Hok. rewrite Hc', Ht'. apply Z.eqb_eq in Hok.
      apply Z.eqb_neq. rewrite Hok.
      change (len :: l1 ++ x :: m) with ((len :: l1) ++ x :: m).
      change (len :: l1 ++ y :: m) with ((len :: l1) ++ y :: m).
      apply fold_lxor_changed. exact Hxy. }
  split; [exact Hbad|].
  unfold ReadMsg. rewrite Z.eqb_refl. cbv zeta. unfold frame_ok in Hbad.
  rewrite Hbad. unfold sof_counted. reflexivity.
Qed.

(** ** Moving the items of an unresponsive node *)

Lemma filter_idem {A} (f : A -> bool) (l : list A) :
  List.filter f (List.filter f l) = List.filter f l.
Proof.
  induction l as [|x l IH]; [reflexivity|]. cbn [List.filter].
  destruct (f x) eqn:Hx; [|exact IH]. cbn [List.filter]. rewrite Hx, IH. reflexivity.
Qed.

Lemma filter_buffered_without (target : Z) (l : list MsgQueueItem) :
  List.filter (buffered target)
    (List.filter (fun item => negb (for_target target item)) l) = [].
Proof.
  induction l as [|x l IH]; [reflexivity|]. cbn [List.filter].
  destruct (for_target target x) eqn:Hx; cbn [negb]; [exact IH|].
  cbn [List.filter]. unfold buffered at 1. rewrite Hx. exact IH.
Qed.

Lemma without_target_idem (target : Z) (qs : Queues (list MsgQueueItem)) :
  without_target target (without_target target qs) = without_target target qs.
Proof.
  destruct qs. unfold without_target, qmap. cbn. rewrite !filter_idem. reflexivity.
Qed.

Lemma buffered_all_queued_without (target : Z) (qs : Queues (list MsgQueueItem)) :
  List.filter (buffered target) (all_queued (without_target target qs)) = [].
Proof.
  destruct qs. unfold all_queued, without_target, qmap. cbn.
  rewrite !List.filter_app, !filter_buffered_without. reflexivity.
Qed.

Lemma events_reset_idem (qs : Queues (list MsgQueueItem)) (ev : Queues bool) :
  events_reset qs (events_reset qs ev) = events_reset qs ev.
Proof.
  destruct qs as [q0 q1 q2 q3 q4], ev. unfold events_reset. cbn.
  destruct (is_empty q0), (is_empty q1), (is_empty q2), (is_empty q3), (is_empty q4);
    reflexivity.
Qed.

Lemma marker_filter_without (target : Z) (l : list MsgQueueItem) :
  existsb (marker_for target)
    (List.filter (fun item => negb (for_target target item)) l) = false.
Proof.
  induction l as [|x l IH]; [reflexivity|]. cbn [List.filter].
  destruct (for_target target x) eqn:Hx; cbn [negb]; [exact IH|].
  cbn [existsb]. rewrite IH, orb_false_r.
  destruct x as [m|n s]; [reflexivity|]. exact Hx.
Qed.

Lemma marker_queued_without (target : Z) (d : Driver) (qs : Queues (list MsgQueueItem)) :
  m_msgQueue d = without_target target qs -> marker_queued target d = false.
Proof.
  intros H. unfold marker_queued. rewrite H. destruct qs.
  unfold all_queued, without_target, qmap. cbn [qCommand qWakeUp qSend qQuery qPoll].
  rewrite !existsb_app, !marker_filter_without. reflexivity.
Qed.

(** X7. [MoveMessagesToWakeUpQueue] on a node that can sleep.  With a
    QueryStageComplete marker of the node on a scheduler queue the walk
    over the queues reads the target through the marker's [m_msg], which
    was never assigned, and the call has no defined result.  With no such
    marker the call returns true, and a second call right after the first
    returns true again and changes nothing more: the node is asleep, none
    of its items is left in the transaction state or on a queue, and
    nothing is put into its sleeping buffer a second time. *)
Theorem MoveMessagesToWakeUpQueue_twice (target : Z) (d : Driver) :
  sleep_capable d target = true ->
  (marker_queued target d = true -> MoveMessagesToWakeUpQueue target d = None)
  /\ (marker_queued target d = false ->
      exists d1,
        MoveMessagesToWakeUpQueue target d = Some (true, d1)
        /\ MoveMessagesToWakeUpQueue target d1 = Some (true, d1)
        /\ asleep d1 target
        /\ current_for target d1 = []
        /\ (forall q item, In item (qget q (m_msgQueue d1)) ->
                           item_target item <> target)).
Proof.
  intros Hs.
  destruct (sleep_capable_true _ _ Hs) as (node & w & Hn & Hl & Hf & Hc & Hw).
  split; [exact (MoveMessagesToWakeUpQueue_marker target d node w Hn Hl Hf Hc Hw)|].
  intros Hmark.
  rewrite (MoveMessagesToWakeUpQueue_moves target d node w Hn Hl Hf Hc Hw Hmark).
  set (P := m_pendingQueue w
            ++ List.filter (buffered target)
                 (current_for target d ++ all_queued (m_msgQueue d))).
  set (node1 := set_m_wakeUp (Some (mkWakeUp false P)) node).
  set (dc := match current_for target d with
             | [] => d
             | _ => clear_expectations (set_m_currentMsg None d)
             end).
  assert (Hdc : m_msgQueue dc = m_msgQueue d /\ m_nodes dc = m_nodes d
                /\ m_queueEvent dc = m_queueEvent d /\ current_for target dc = [])
    by (unfold dc, current_for; destruct (m_currentMsg d) as [cur|] eqn:Hm;
        [destruct (target =? m_targetNodeId cur) eqn:E; engine_simpl;
         [auto | rewrite Hm, E; auto]
        | rewrite Hm; auto]).
  destruct Hdc as (Hq & Hnodes & Hev & Hcur).
  set (d1 := set_m_nodes (<[target := node1]> (m_nodes d))
               (set_m_queueEvent
                  (events_reset (without_target target (m_msgQueue d)) (m_queueEvent d))
                  (set_m_msgQueue (without_target target (m_msgQueue d)) dc))).
  assert (Hcur1 : current_for target d1 = []) by exact Hcur.
  assert (Hmark1 : marker_queued target d1 = false)
    by (apply (marker_queued_without target d1 (m_msgQueue d)); reflexivity).
  exists d1. split; [reflexivity|]. split; [|split; [|split]].
  - rewrite (MoveMessagesToWakeUpQueue_moves target d1 node1 (mkWakeUp false P));
      [| apply lookup_insert_eq | exact Hl | exact Hf | exact Hc | reflexivity
       | exact Hmark1].
    rewrite Hcur1. f_equal. f_equal. unfold d1 at 1 2 3 4 5. engine_simpl.
    cbn [app m_pendingQueue].
    rewrite without_target_idem, events_reset_idem, buffered_all_queued_without.
    rewrite app_nil_r, insert_insert_eq.
    unfold d1, node1. destruct dc. reflexivity.
  - exists node1, (mkWakeUp false P). unfold d1. engine_simpl.
    rewrite lookup_insert_eq. auto.
  - exact Hcur1.
  - intros q item. unfold d1. engine_simpl. unfold without_target.
    rewrite qget_qmap. intros Hin. apply List.filter_In in Hin.
    destruct Hin as [_ Hne]. unfold for_target in Hne.
    apply negb_true_iff, Z.eqb_neq in Hne. congruence.
Qed.

(** ** Creating a node *)

(** X8. [InitNode] puts a new node into the slot, as [SetQueryStage] leaves
    it at stage ProtocolInfo, and touches no other slot.  On an empty slot
    it queues NodeAdded; on an occupied slot it queues NodeRemoved for the
    old node and then NodeAdded for the new one. *)
Theorem InitNode_slot (nodeId : Z) (d : Driver) :
  let d' := InitNode nodeId d in
  (exists node, m_nodes d' !! nodeId = Some node
                /\ GetCurrentQueryStage node = QueryStage_ProtocolInfo)
  /\ (forall n, n <> nodeId -> m_nodes d' !! n = m_nodes d !! n)
  /\ (m_nodes d !! nodeId = None ->
      m_notifications d'
      = m_notifications d ++ [mkNotification Type_NodeAdded (m_homeId d) nodeId])
  /\ (is_Some (m_nodes d !! nodeId) ->
      m_notifications d'
      = m_notifications d ++ [mkNotification Type_NodeRemoved (m_homeId d) nodeId;
                              mkNotification Type_NodeAdded (m_homeId d) nodeId]).
Proof.
  cbv zeta. unfold InitNode.
  destruct (m_nodes d !! nodeId) as [old|] eqn:Hold; engine_simpl.
  - split; [|split; [|split]].
    + rewrite lookup_alter_eq, lookup_insert_eq. cbn. eauto.
    + intros n Hn. rewrite lookup_alter_ne, lookup_insert_ne by congruence. reflexivity.
    + discriminate.
    + intros _. rewrite <- app_assoc. reflexivity.
  - split; [|split; [|split]].
    + rewrite lookup_alter_eq, lookup_insert_eq. cbn. eauto.
    + intros n Hn. rewrite lookup_alter_ne, lookup_insert_ne by congruence. reflexivity.
    + reflexivity.
    + intros [x Hx]. discriminate Hx.
Qed.


(** ** Completion of the node queries, again *)

Lemma scan_nodes_nodes (d d' : Driver) :
  m_nodes d' = m_nodes d -> scan_nodes d' = scan_nodes d.
Proof.
  intros H. unfold scan_nodes. generalize (true, true). generalize slots.
  induction l as [|i l IH]; intros acc; [reflexivity|].
  cbn [fold_left]. rewrite IH. f_equal. unfold scan_slot. rewrite H. reflexivity.
Qed.

Lemma CheckCompletedNodeQueries_done (d : Driver) :
  m_allNodesQueried d = true -> CheckCompletedNodeQueries d = d.
Proof. intros Hall. unfold CheckCompletedNodeQueries. rewrite Hall. reflexivity. Qed.

Lemma CheckCompletedNodeQueries_awake_done (d : Driver) (sl : bool) :
  m_allNodesQueried d = false ->
  scan_nodes d = (false, sl) ->
  (sl = true -> m_awakeNodesQueried d = true) ->
  CheckCompletedNodeQueries d = d.
Proof.
  intros Hall Hscan Haw. unfold CheckCompletedNodeQueries. rewrite Hall, Hscan.
  cbn [negb]. destruct sl; [|reflexivity]. rewrite (Haw eq_refl). reflexivity.
Qed.

Lemma scan_nodes_empty (d : Driver) : m_nodes d = ∅ -> scan_nodes d = (true, true).
Proof.
  intros Hempty. unfold scan_nodes. generalize slots.
  induction l as [|i l IH]; [reflexivity|].
  cbn [fold_left]. unfold scan_slot at 2. rewrite Hempty, lookup_empty. exact IH.
Qed.

(** X9. [CheckCompletedNodeQueries] is idempotent: a second check right
    after a check changes nothing and queues nothing.  Once
    [m_allNodesQueried] is set a check never does anything; and on an empty
    node table the first check queues AllNodesQueried at once. *)
Theorem CheckCompletedNodeQueries_idempotent (d : Driver) :
  CheckCompletedNodeQueries (CheckCompletedNodeQueries d) = CheckCompletedNodeQueries d
  /\ (m_allNodesQueried d = true -> CheckCompletedNodeQueries d = d)
  /\ (m_allNodesQueried d = false -> m_nodes d = ∅ ->
      m_notifications (CheckCompletedNodeQueries d)
      = m_notifications d ++ [mkNotification Type_AllNodesQueried (m_homeId d) 0xff]).
Proof.
  split; [|split].
  - destruct (m_allNodesQueried d) eqn:Hall.
    { rewrite (CheckCompletedNodeQueries_done d Hall).
      apply CheckCompletedNodeQueries_done, Hall. }
    destruct (scan_nodes d) as [all sl] eqn:Hscan.
    assert (Hc : CheckCompletedNodeQueries d
                 = if all then
                     set_m_allNodesQueried true
                       (set_m_awakeNodesQueried true
                          (QueueNotification
                             (mkNotification Type_AllNodesQueried (m_homeId d) 0xff) d))
                   else if sl then
                     if negb (m_awakeNodesQueried d) then
                       set_m_awakeNodesQueried true
                         (QueueNotification
                            (mkNotification Type_AwakeNodesQueried (m_homeId d) 0xff) d)
                     else d
                   else d).
    { unfold CheckCompletedNodeQueries. rewrite Hall, Hscan. reflexivity. }
    destruct all.
    { rewrite Hc. apply CheckCompletedNodeQueries_done. reflexivity. }
    destruct sl.
    + destruct (m_awakeNodesQueried d) eqn:Haw; cbn [negb] in Hc; rewrite Hc.
      * apply (CheckCompletedNodeQueries_awake_done d true Hall Hscan). intros _. exact Haw.
      * apply (CheckCompletedNodeQueries_awake_done _ true).
        -- exact Hall.
        -- rewrite <- Hscan. apply scan_nodes_nodes. reflexivity.
        -- intros _. reflexivity.
    + rewrite Hc. apply (CheckCompletedNodeQueries_awake_done d false Hall Hscan).
      discriminate.
  - apply CheckCompletedNodeQueries_done.
  - intros Hall Hempty. unfold CheckCompletedNodeQueries.
    rewrite Hall, (scan_nodes_empty d Hempty). reflexivity.
Qed.

(** ** The init-data bitmap and the node table *)

Lemma bitmap_positions_range (ij : nat * nat) :
  In ij bitmap_positions -> (fst ij < 29)%nat /\ (snd ij < 8)%nat.
Proof.
  unfold bitmap_positions. rewrite in_flat_map. intros (i & Hi & Hij).
  apply in_seq in Hi. apply in_map_iff in Hij. destruct Hij as (j & <- & Hj).
  apply in_seq in Hj. unfold NUM_NODE_BITFIELD_BYTES in Hi. cbn [fst snd]. lia.
Qed.

Lemma node_of_position_range (ij : nat * nat) :
  In ij bitmap_positions -> 1 <= node_of_position ij <= 232.
Proof.
  intros Hin. destruct (bitmap_positions_range ij Hin) as [Hi Hj].
  unfold node_of_position, uint8. rewrite Z.mod_small; lia.
Qed.

(** A bit of the bitmap leaves the slot of its node, when the node is not
    virtual, filled exactly when the bit is set. *)
Lemma InitData_bit_is_Some (data : list Z) (d : Driver) (ij : nat * nat) :
  IsVirtualNode (m_virtualNeighbors d) (node_of_position ij) = false ->
  is_Some (m_nodes (InitData_bit data d ij) !! node_of_position ij)
  <-> bit_set data ij = true.
Proof.
  destruct ij as [i j]. unfold InitData_bit, node_of_position, bit_set, GetNode.
  cbn [fst snd]. set (k := uint8 (Z.of_nat i * 8 + Z.of_nat j + 1)). intros Hv.
  destruct (negb (Z.land _ _ =? 0)).
  - rewrite Hv. destruct (m_nodes d !! k) as [node|] eqn:Hk.
    + destruct (negb (m_init d)); engine_simpl.
      * rewrite lookup_insert_eq. split; [reflexivity | intros _; eexists; reflexivity].
      * rewrite Hk. split; [reflexivity | intros _; eexists; reflexivity].
    + unfold InitNode. engine_simpl. rewrite Hk. engine_simpl.
      rewrite lookup_alter_eq, lookup_insert_eq.
      split; [reflexivity | intros _; eexists; reflexivity].
  - destruct (m_nodes d !! k) as [node|] eqn:Hk; engine_simpl.
    + rewrite lookup_delete_eq. split; [intros [x Hx]; discriminate | discriminate].
    + rewrite Hk. split; [intros [x Hx]; discriminate | discriminate].
Qed.

(** Once [m_init] is set, a set bit of a node that is in the table changes
    nothing. *)
Lemma InitData_bit_known_later (data : list Z) (d : Driver) (ij : nat * nat) :
  bit_set data ij = true ->
  m_init d = true ->
  is_Some (m_nodes d !! node_of_position ij) ->
  InitData_bit data d ij = d.
Proof.
  destruct ij as [i j]. unfold InitData_bit, node_of_position, bit_set, GetNode.
  cbn [fst snd]. intros -> Hi [node Hk].
  destruct (IsVirtualNode _ _); [reflexivity|]. rewrite Hk, Hi. reflexivity.
Qed.

(** The notifications of one bit, and of the bits of a list, are those of
    the node table. *)
Lemma InitData_bit_events (data : list Z) (d : Driver) (ij : nat * nat) :
  exists more, m_notifications (InitData_bit data d ij) = m_notifications d ++ more
               /\ Forall node_table_event more.
Proof.
  destruct ij as [i j]. unfold InitData_bit, GetNode.
  set (k := uint8 (Z.of_nat i * 8 + Z.of_nat j + 1)).
  assert (Hnil : exists more, m_notifications d = m_notifications d ++ more
                              /\ Forall node_table_event more)
    by (exists []; rewrite app_nil_r; split; [reflexivity | constructor]).
  destruct (negb (Z.land _ _ =? 0)).
  - destruct (IsVirtualNode (m_virtualNeighbors d) k); [exact Hnil|].
    destruct (m_nodes d !! k) as [node|] eqn:Hk.
    + destruct (negb (m_init d)); exact Hnil.
    + unfold InitNode. engine_simpl. rewrite Hk. engine_simpl. eexists. split.
      * rewrite <- app_assoc. reflexivity.
      * repeat (apply List.Forall_cons; [unfold node_table_event; cbn; auto|]).
        apply List.Forall_nil.
  - destruct (m_nodes d !! k) as [node|] eqn:Hk; [|exact Hnil]. engine_simpl.
    eexists. split; [reflexivity|].
    apply List.Forall_cons; [unfold node_table_event; cbn; auto | apply List.Forall_nil].
Qed.

Lemma InitData_bits_events (data : list Z) (l : list (nat * nat)) (d : Driver) :
  exists more,
    m_notifications (fold_left (InitData_bit data) l d) = m_notifications d ++ more
    /\ Forall node_table_event more.
Proof.
  revert d. induction l as [|ij l IH]; intros d.
  - exists []. rewrite app_nil_r. split; [reflexivity | constructor].
  - cbn [fold_left]. destruct (IH (InitData_bit data d ij)) as (m2 & -> & H2).
    destruct (InitData_bit_events data d ij) as (m1 & -> & H1).
    exists (m1 ++ m2). rewrite <- app_assoc. split; [reflexivity|].
    apply Forall_app. split; assumption.
Qed.

(** The handler as the loops over the bitmap, run from [bitmap_start]. *)
Lemma HandleSerialAPIGetInitDataResponse_loops (data : list Z) (d : Driver) :
  byte_at data 4 = NUM_NODE_BITFIELD_BYTES ->
  HandleSerialAPIGetInitDataResponse data d
  = set_m_init true
      (fold_left (InitData_bit data) bitmap_positions
         (set_m_initCaps (byte_at data 3)
            (set_m_initVersion (byte_at data 2) (bitmap_start d)))).
Proof.
  intros Hlen. unfold HandleSerialAPIGetInitDataResponse, bitmap_start, reconcile_start.
  cbv zeta. rewrite Hlen, Z.eqb_refl. reflexivity.
Qed.

Lemma bitmap_start_frame (d : Driver) :
  m_init (bitmap_start d) = m_init d
  /\ m_homeId (bitmap_start d) = m_homeId d
  /\ m_virtualNeighbors (bitmap_start d) = m_virtualNeighbors d.
Proof.
  unfold bitmap_start, reconcile_start. destruct (negb (m_init d)); [|auto].
  destruct (ReadConfig_frame (SetDriverReady d)) as (-> & -> & ->). auto.
Qed.

(** The slot of the node of a position after the handler: that of the bit
    of the position, run in a state that has the slot, the flag and the
    virtual neighbours of [bitmap_start]. *)
Lemma InitData_position (data : list Z) (d : Driver) (i j : nat) :
  byte_at data 4 = NUM_NODE_BITFIELD_BYTES ->
  (i < 29)%nat -> (j < 8)%nat ->
  exists d1,
    m_init d1 = m_init d
    /\ m_virtualNeighbors d1 = m_virtualNeighbors d
    /\ m_nodes d1 !! node_of_position (i, j)
       = m_nodes (bitmap_start d) !! node_of_position (i, j)
    /\ m_nodes (HandleSerialAPIGetInitDataResponse data d) !! node_of_position (i, j)
       = m_nodes (InitData_bit data d1 (i, j)) !! node_of_position (i, j).
Proof.
  intros Hlen Hi Hj.
  destruct (bitmap_positions_split i j Hi Hj) as (l1 & l2 & Hs & H1 & H2).
  rewrite (HandleSerialAPIGetInitDataResponse_loops data d Hlen), Hs, fold_left_app.
  cbn [fold_left]. engine_simpl.
  set (d0 := set_m_initCaps (byte_at data 3)
               (set_m_initVersion (byte_at data 2) (bitmap_start d))).
  destruct (bitmap_start_frame d) as (Fi & _ & Fv).
  destruct (InitData_bits_frame data l1 d0 _ H1) as (E1i & _ & E1v & E1n & _).
  exists (fold_left (InitData_bit data) l1 d0).
  split; [rewrite E1i; exact Fi|]. split; [rewrite E1v; exact Fv|].
  split; [exact E1n|].
  destruct (InitData_bits_frame data l2
              (InitData_bit data (fold_left (InitData_bit data) l1 d0) (i, j)) _ H2)
    as (_ & _ & _ & E2n & _).
  exact E2n.
Qed.

Lemma InitData_table_events (data : list Z) (d : Driver) :
  byte_at data 4 = NUM_NODE_BITFIELD_BYTES ->
  exists more,
    m_notifications (HandleSerialAPIGetInitDataResponse data d)
    = m_notifications (bitmap_start d) ++ more
    /\ Forall node_table_event more.
Proof.
  intros Hlen. rewrite (HandleSerialAPIGetInitDataResponse_loops data d Hlen).
  generalize bitmap_positions. intros l. engine_simpl.
  match goal with |- context [fold_left _ _ ?d0] =>
    destruct (InitData_bits_events data l d0) as (more & -> & Hm)
  end.
  exists more. split; [reflexivity | exact Hm].
Qed.

(** X10. After an init-data response whose bitmap length byte is 29, on the
    first response or a later one, the node table is the bitmap: for every
    node id from 1 to 232 that is not the id of a virtual node, the id is
    in the table exactly when its bit is set.  The slots of the ids 0 and
    233 to 255 are as they were when the loops started, [m_init] is set,
    and the loops queue nothing but NodeNew, NodeAdded and NodeRemoved. *)
Theorem InitData_table_is_bitmap (data : list Z) (d : Driver) :
  byte_at data 4 = NUM_NODE_BITFIELD_BYTES ->
  let d' := HandleSerialAPIGetInitDataResponse data d in
  (forall i j : nat,
     (i < 29)%nat -> (j < 8)%nat ->
     let nodeId := Z.of_nat i * 8 + Z.of_nat j + 1 in
     IsVirtualNode (m_virtualNeighbors d) nodeId = false ->
     (is_Some (m_nodes d' !! nodeId) <-> bit_set data (i, j) = true))
  /\ (forall k, ~ 1 <= k <= 232 -> m_nodes d' !! k = m_nodes (bitmap_start d) !! k)
  /\ m_init d' = true
  /\ exists more,
       m_notifications d' = m_notifications (bitmap_start d) ++ more
       /\ Forall node_table_event more.
Proof.
  intros Hlen. cbv zeta. split; [|split; [|split]].
  - intros i j Hi Hj Hv.
    assert (Hk : node_of_position (i, j) = Z.of_nat i * 8 + Z.of_nat j + 1).
    { unfold node_of_position, uint8. cbn [fst snd]. apply Z.mod_small. lia. }
    destruct (InitData_position data d i j Hlen Hi Hj) as (d1 & _ & E1v & _ & Hn).
    rewrite <- Hk in *. rewrite Hn. apply InitData_bit_is_Some. rewrite E1v. exact Hv.
  - intros k Hk. rewrite (HandleSerialAPIGetInitDataResponse_loops data d Hlen).
    assert (Hl : forall ij, In ij bitmap_positions -> node_of_position ij <> k).
    { intros ij Hin Heq. apply Hk. rewrite <- Heq. apply node_of_position_range, Hin. }
    revert Hl. generalize bitmap_positions. intros l Hl. engine_simpl.
    match goal with |- context [fold_left _ _ ?d0] =>
      destruct (InitData_bits_frame data l d0 k Hl) as (_ & _ & _ & -> & _)
    end.
    reflexivity.
  - rewrite (HandleSerialAPIGetInitDataResponse_loops data d Hlen).
    generalize bitmap_positions. intros l. reflexivity.
  - apply InitData_table_events, Hlen.
Qed.

(** X11. An init-data response that comes when [m_init] is set already
    neither marks the driver ready nor reads the snapshot again, and leaves
    every node whose bit is set and that is in the table untouched: its
    query stage is not put back to Associations.  The response still
    creates the nodes of new bits at ProtocolInfo and removes the nodes of
    cleared bits. *)
Theorem InitData_later_response (data : list Z) (d : Driver) (i j : nat) :
  m_init d = true ->
  byte_at data 4 = NUM_NODE_BITFIELD_BYTES ->
  (i < 29)%nat -> (j < 8)%nat ->
  let nodeId := Z.of_nat i * 8 + Z.of_nat j + 1 in
  let d' := HandleSerialAPIGetInitDataResponse data d in
  (bit_set data (i, j) = true ->
   forall node, m_nodes d !! nodeId = Some node -> m_nodes d' !! nodeId = Some node)
  /\ (bit_set data (i, j) = true ->
      IsVirtualNode (m_virtualNeighbors d) nodeId = false ->
      m_nodes d !! nodeId = None ->
      exists node, m_nodes d' !! nodeId = Some node
                   /\ GetCurrentQueryStage node = QueryStage_ProtocolInfo)
  /\ (bit_set data (i, j) = false -> m_nodes d' !! nodeId = None)
  /\ (exists more, m_notifications d' = m_notifications d ++ more
                   /\ Forall node_table_event more).
Proof.
  intros Hinit Hlen Hi Hj. cbv zeta.
  assert (Hk : node_of_position (i, j) = Z.of_nat i * 8 + Z.of_nat j + 1).
  { unfold node_of_position, uint8. cbn [fst snd]. apply Z.mod_small. lia. }
  assert (Hstart : bitmap_start d = d) by (unfold bitmap_start; rewrite Hinit; reflexivity).
  destruct (InitData_position data d i j Hlen Hi Hj) as (d1 & E1i & E1v & E1n & Hn).
  rewrite Hstart in E1n. rewrite Hinit in E1i. rewrite Hk in *. rewrite Hn.
  destruct (InitData_bit_at data d1 (i, j)) as (Cnew & _ & Cvirt & Cgone).
  rewrite Hk in Cnew, Cvirt, Cgone. cbv zeta in Cnew, Cvirt, Cgone.
  split; [|split; [|split]].
  - intros Hb node Hnode.
    rewrite (InitData_bit_known_later data d1 (i, j) Hb E1i)
      by (rewrite Hk, E1n, Hnode; eauto).
    rewrite E1n. exact Hnode.
  - intros Hb Hv Hnone. rewrite <- E1v in Hv. rewrite <- E1n in Hnone.
    destruct (Cnew Hb Hv Hnone) as [Hnode _]. exact Hnode.
  - intros Hb. destruct (m_nodes d1 !! (Z.of_nat i * 8 + Z.of_nat j + 1)) as [node|] eqn:H1.
    + destruct (Cgone Hb node eq_refl) as [Hnone _]. exact Hnone.
    + unfold InitData_bit, GetNode. unfold bit_set in Hb. cbn [fst snd] in Hb.
      unfold node_of_position in Hk. cbn [fst snd] in Hk. rewrite Hb, Hk, H1. exact H1.
  - destruct (InitData_table_events data d Hlen) as (more & Hm & Hf).
    rewrite Hstart in Hm. exists more. split; assumption.
Qed.

(** ** The generic callback handling *)

(** Takes the tests of the goal apart, one after the other, once the
    driver is given by its fields. *)
Ltac callback_simpl :=
  repeat progress (engine_simpl; rewrite ?Z.eqb_refl; cbn [negb orb andb]).

Ltac callback_cases :=
  repeat (callback_simpl;
          match goal with
          | |- context [?x =? ?y] => is_var x; destruct (x =? y) eqn:?
          | |- context [bool_decide ?P] => destruct (bool_decide P) eqn:?
          | |- context [if ?b then _ else _] => is_var b; destruct b
          end);
  callback_simpl;
  repeat match goal with
         | H : (_ =? _) = true |- _ => apply Z.eqb_eq in H
         | H : (_ =? _) = false |- _ => apply Z.eqb_neq in H
         end.

(** X12. The generic callback handling of [ProcessMsg] only ever takes
    expectations away: the expected callback id is kept or, when the frame
    carries it, cleared, and likewise the expected reply.  It closes the
    transaction, deleting the current message and queueing MsgComplete when
    transactions are notified, only when both are 0 afterwards; a frame
    with another callback id than the expected one never closes it.  With
    nothing expected it does nothing at all; and it never touches
    [m_waitingForAck], the queues, the node table or the link. *)
Theorem ProcessMsg_callback_facts (data : list Z) (d : Driver) :
  let d' := ProcessMsg_callback data d in
  (m_expectedCallbackId d = 0 -> m_expectedReply d = 0 -> d' = d)
  /\ (m_expectedCallbackId d' = m_expectedCallbackId d
      \/ (m_expectedCallbackId d' = 0 /\ byte_at data 2 = m_expectedCallbackId d))
  /\ (m_expectedReply d' = m_expectedReply d
      \/ (m_expectedReply d' = 0 /\ byte_at data 1 = m_expectedReply d))
  /\ m_waitingForAck d' = m_waitingForAck d
  /\ m_msgQueue d' = m_msgQueue d
  /\ m_nodes d' = m_nodes d
  /\ m_written d' = m_written d
  /\ ((m_currentMsg d' = m_currentMsg d /\ m_notifications d' = m_notifications d)
      \/ (m_currentMsg d' = None
          /\ m_expectedCallbackId d' = 0 /\ m_expectedReply d' = 0
          /\ m_notifications d'
             = m_notifications d
               ++ (if m_notifytransactions d
                   then [mkNotification Type_MsgComplete (m_homeId d) 0xff]
                   else [])))
  /\ (m_expectedCallbackId d <> 0 -> byte_at data 2 <> m_expectedCallbackId d ->
      m_currentMsg d' = m_currentMsg d
      /\ m_expectedCallbackId d' = m_expectedCallbackId d).
Proof.
  cbv zeta. unfold ProcessMsg_callback. destruct d. callback_cases.
  all: repeat match goal with |- _ /\ _ => split end.
  all: try reflexivity.
  all: try (intros; congruence).
  all: try (left; reflexivity).
  all: try (right; split; congruence).
  all: try (left; split; reflexivity).
  all: try (right; repeat split; try rewrite app_nil_r; congruence).
  all: try (intros; split; congruence).
Qed.

(** X13. A SEND_DATA callback with the expected callback id and a transmit
    status without the NO_ROUTE, NO_ACK and FAIL bits, received while no
    reply is expected, clears the expected callback id and nothing else:
    the current message is not deleted and no MsgComplete is queued, so the
    driver stops waiting with the message still in place.  When the
    expected reply is the function of the frame, and no command class is
    expected, the same frame does close the transaction. *)
Theorem ProcessMsg_send_data_ok (data : list Z) (d : Driver) :
  byte_at data 0 = REQUEST ->
  func_id (byte_at data 1) = FUNC_ID_ZW_SEND_DATA ->
  byte_at data 2 = m_expectedCallbackId d ->
  Z.land (byte_at data 3) TRANSMIT_COMPLETE_NOROUTE = 0 ->
  Z.land (byte_at data 3) TRANSMIT_COMPLETE_NO_ACK = 0 ->
  Z.land (byte_at data 3) TRANSMIT_COMPLETE_FAIL = 0 ->
  exists d',
  ProcessMsg data d = Some d' /\
  (m_expectedReply d = 0 ->
   d' = set_m_expectedCallbackId 0 d
   /\ m_currentMsg d' = m_currentMsg d
   /\ m_notifications d' = m_notifications d
   /\ waiting d' = m_waitingForAck d)
  /\ (m_expectedReply d <> 0 -> m_expectedReply d = byte_at data 1 ->
      m_expectedCommandClassId d = 0 ->
      m_currentMsg d' = None
      /\ m_expectedCallbackId d' = 0 /\ m_expectedReply d' = 0
      /\ m_notifications d'
         = m_notifications d
           ++ (if m_notifytransactions d
               then [mkNotification Type_MsgComplete (m_homeId d) 0xff]
               else [])).
Proof.
  intros Hreq Hfn Hcb Hnr Hna Hfa.
  assert (Hd : ProcessMsg data d
               = Some (ProcessMsg_callback data (set_m_expectedCallbackId 0 d))).
  { unfold ProcessMsg, ProcessMsg_dispatch. rewrite Hreq, Hfn.
    change (REQUEST =? RESPONSE) with false. change (REQUEST =? REQUEST) with true.
    cbv iota. unfold HandleSendDataRequest.
    rewrite Hcb, Z.eqb_refl, Hnr, Hna, Hfa. reflexivity. }
  eexists. split; [exact Hd|]. clear Hd. split.
  - intros Hr. unfold ProcessMsg_callback, waiting. engine_simpl. rewrite Hr.
    cbn [Z.eqb negb orb]. engine_simpl. rewrite Hr. cbn [Z.eqb negb orb].
    rewrite ?orb_false_r. auto.
  - unfold ProcessMsg_callback. destruct d. engine_simpl. intros Hr Hrd Hcc. subst.
    repeat (engine_simpl; rewrite ?Z.eqb_refl, ?(proj2 (Z.eqb_neq _ _) Hr);
            cbn [negb orb andb]).
    match goal with |- context [if ?b then [_] else _] => destruct b end;
      engine_simpl; rewrite ?app_nil_r; auto.
Qed.

(** ** A send-data callback that reports no ACK *)

Lemma ProcessMsg_send_data_request (data : list Z) (d : Driver) :
  byte_at data 0 = REQUEST ->
  func_id (byte_at data 1) = FUNC_ID_ZW_SEND_DATA ->
  ProcessMsg data d
  = match HandleSendDataRequest data false d with
    | Some x => Some (ProcessMsg_callback data x)
    | None => None
    end.
Proof.
  intros Hreq Hfn. unfold ProcessMsg, ProcessMsg_dispatch. rewrite Hreq, Hfn.
  change (REQUEST =? RESPONSE) with false. change (REQUEST =? REQUEST) with true.
  cbv iota. destruct (HandleSendDataRequest data false d); reflexivity.
Qed.

Lemma HandleSendDataRequest_no_ack (data : list Z) (d : Driver) (cur : Msg) :
  byte_at data 2 = m_expectedCallbackId d ->
  Z.land (byte_at data 3) TRANSMIT_COMPLETE_NOROUTE = 0 ->
  Z.land (byte_at data 3) TRANSMIT_COMPLETE_NO_ACK <> 0 ->
  m_currentMsg d = Some cur ->
  HandleSendDataRequest data false d
  = match MoveMessagesToWakeUpQueue (m_targetNodeId cur) d with
    | Some (_, x) => Some x
    | None => None
    end.
Proof.
  intros Hcb Hnr Hna Hcur. unfold HandleSendDataRequest.
  rewrite Hcb, Z.eqb_refl, Hnr, (proj2 (Z.eqb_neq _ _) Hna), Hcur. reflexivity.
Qed.

(** X26. The SEND_DATA callback that reports NO_ACK for a message whose
    target can sleep, while a QueryStageComplete marker of that target is on
    a scheduler queue: the walk of [MoveMessagesToWakeUpQueue] reads the
    target through the marker's [m_msg], which was never assigned, and
    neither the handler nor [ProcessMsg] nor [ReadMsg] on the frame has a
    defined result. *)
Theorem send_data_no_ack_marker (data : list Z) (d : Driver) (cur : Msg) :
  byte_at data 0 = REQUEST ->
  func_id (byte_at data 1) = FUNC_ID_ZW_SEND_DATA ->
  byte_at data 2 = m_expectedCallbackId d ->
  Z.land (byte_at data 3) TRANSMIT_COMPLETE_NOROUTE = 0 ->
  Z.land (byte_at data 3) TRANSMIT_COMPLETE_NO_ACK <> 0 ->
  m_currentMsg d = Some cur ->
  sleep_capable d (m_targetNodeId cur) = true ->
  marker_queued (m_targetNodeId cur) d = true ->
  HandleSendDataRequest data false d = None
  /\ ProcessMsg data d = None
  /\ forall len, frame_ok len data = true ->
       ReadMsg (Some SOF) (Body len data) d = None.
Proof.
  intros Hreq Hfn Hcb Hnr Hna Hcur Hs Hm.
  destruct (sleep_capable_true _ _ Hs) as (node & w & Hn & Hl & Hf & Hc & Hw).
  assert (Hh : forall x, m_currentMsg x = Some cur -> m_nodes x = m_nodes d ->
                 m_msgQueue x = m_msgQueue d ->
                 m_expectedCallbackId x = m_expectedCallbackId d ->
                 HandleSendDataRequest data false x = None).
  { intros x Hxc Hxn Hxq Hxe.
    rewrite (HandleSendDataRequest_no_ack data x cur) by congruence.
    rewrite (MoveMessagesToWakeUpQueue_marker (m_targetNodeId cur) x node w);
      [reflexivity | rewrite Hxn; exact Hn | exact Hl | exact Hf | exact Hc | exact Hw |].
    unfold marker_queued. rewrite Hxq. exact Hm. }
  split; [apply Hh; [exact Hcur | reflexivity | reflexivity | reflexivity]|]. split.
  - rewrite (ProcessMsg_send_data_request data d Hreq Hfn), Hh;
      [reflexivity | exact Hcur | reflexivity | reflexivity | reflexivity].
  - intros len Hok. unfold ReadMsg. rewrite Z.eqb_refl. cbv zeta.
    unfold frame_ok in Hok. rewrite Hok.
    rewrite (ProcessMsg_send_data_request _ _ Hreq Hfn), Hh; [reflexivity| | | |];
      destruct (m_waitingForAck d) eqn:Ew; engine_simpl; rewrite ?Ew; engine_simpl;
      try reflexivity; exact Hcur.
Qed.

(** X27. The SEND_DATA callback that reports NO_ACK for a message whose
    target cannot sleep, with the expected callback id: the handler leaves
    the driver as it is, and the generic callback handling clears the
    expected callback id.  Nothing is written to the controller and no
    queue changes: the message is not sent again and not queued again; and
    when no reply is expected the current message is deleted. *)
Theorem send_data_no_ack_not_sleeper (data : list Z) (d : Driver) (cur : Msg) :
  byte_at data 0 = REQUEST ->
  func_id (byte_at data 1) = FUNC_ID_ZW_SEND_DATA ->
  byte_at data 2 = m_expectedCallbackId d ->
  m_expectedCallbackId d <> 0 ->
  Z.land (byte_at data 3) TRANSMIT_COMPLETE_NOROUTE = 0 ->
  Z.land (byte_at data 3) TRANSMIT_COMPLETE_NO_ACK <> 0 ->
  m_currentMsg d = Some cur ->
  sleep_capable d (m_targetNodeId cur) = false ->
  HandleSendDataRequest data false d = Some d
  /\ exists d',
       ProcessMsg data d = Some d'
       /\ m_written d' = m_written d
       /\ m_msgQueue d' = m_msgQueue d
       /\ m_expectedCallbackId d' = 0
       /\ (m_currentMsg d' = None \/ m_currentMsg d' = Some cur)
       /\ (m_expectedReply d = 0 -> m_currentMsg d' = None).
Proof.
  intros Hreq Hfn Hcb Hne Hnr Hna Hcur Hs.
  assert (Hh : HandleSendDataRequest data false d = Some d).
  { rewrite (HandleSendDataRequest_no_ack data d cur Hcb Hnr Hna Hcur).
    rewrite (MoveMessagesToWakeUpQueue_not _ _ Hs). reflexivity. }
  split; [exact Hh|].
  rewrite (ProcessMsg_send_data_request data d Hreq Hfn), Hh.
  eexists. split; [reflexivity|].
  clear Hh Hs Hreq Hfn Hnr Hna. revert Hcb Hne Hcur.
  unfold ProcessMsg_callback. generalize (byte_at data 2). intros cb.
  destruct d. engine_simpl. intros Hcb Hne Hcur. subst.
  rewrite (proj2 (Z.eqb_neq _ _) Hne). callback_cases.
  all: repeat match goal with |- _ /\ _ => split end.
  all: try reflexivity.
  all: try congruence.
  all: try (left; reflexivity).
  all: try (right; reflexivity).
  all: try (intros; congruence).
Qed.

(** ** Submitting and dequeueing *)

Lemma qset_qset {A} (q : MsgQueue) (v w : A) (qs : Queues A) :
  qset q v (qset q w qs) = qset q v qs.
Proof. destruct q; reflexivity. Qed.

Lemma qset_qget {A} (q : MsgQueue) (qs : Queues A) : qset q (qget q qs) qs = qs.
Proof. destruct q, qs; reflexivity. Qed.

Lemma set_m_msgQueue_id (d : Driver) : set_m_msgQueue (m_msgQueue d) d = d.
Proof. destruct d. reflexivity. Qed.

Lemma SendMsg_enqueues (msg : Msg) (q : MsgQueue) (d : Driver) :
  ~ asleep d (m_targetNodeId (Finalize msg)) ->
  SendMsg msg q d = enqueue q (MsgQueueCmd_SendMsg (Finalize msg)) d.
Proof.
  intros Hs. unfold SendMsg, GetNode. cbv zeta.
  destruct (m_nodes d !! m_targetNodeId (Finalize msg)) as [node|] eqn:Hn; [|reflexivity].
  destruct (IsListeningDevice node) eqn:Hl; [reflexivity|]. cbn [negb].
  destruct (m_wakeUp node) as [w|] eqn:Hw; [|reflexivity].
  destruct (m_awake w) eqn:Ha; [reflexivity|].
  exfalso. apply Hs. exists node, w. auto.
Qed.

Lemma WriteMsg_queueEvent (d : Driver) :
  m_queueEvent (snd (WriteMsg d)) = m_queueEvent d.
Proof.
  unfold WriteMsg. destruct (m_currentMsg d) as [msg|]; [|reflexivity].
  destruct (MAX_TRIES <=? m_sendAttempts msg); [reflexivity|]. cbv zeta.
  match goal with |- context [if ?b then _ else _] => destruct b end; [reflexivity|].
  match goal with |- context [GetNodeUnsafe ?n ?x] => destruct (GetNodeUnsafe n x) end;
    reflexivity.
Qed.

(** X14. A message for a node that is not asleep goes to the back of the
    queue it is submitted on, and sets the event of that queue; the other
    queues are as before.  Submitted on an empty queue and dequeued at
    once, it is the message written, and the queue and its event are as
    they were before the submission.  Behind an older message, the older
    one is dequeued first and the new one stays queued with the event
    set. *)
Theorem SendMsg_WriteNextMsg (msg : Msg) (q : MsgQueue) (d : Driver) :
  ~ asleep d (m_targetNodeId (Finalize msg)) ->
  let item := MsgQueueCmd_SendMsg (Finalize msg) in
  let d1 := SendMsg msg q d in
  (forall q', qget q' (m_msgQueue d1)
              = if decide (q = q') then qget q (m_msgQueue d) ++ [item]
                else qget q' (m_msgQueue d))
  /\ qget q (m_queueEvent d1) = true
  /\ (qget q (m_msgQueue d) = [] -> qget q (m_queueEvent d) = false ->
      WriteNextMsg q d1 = Some (WriteMsg (set_m_currentMsg (Some (Finalize msg)) d)))
  /\ (forall m0 rest,
        qget q (m_msgQueue d) = MsgQueueCmd_SendMsg m0 :: rest ->
        exists d2,
          WriteNextMsg q d1 = Some (WriteMsg d2)
          /\ m_currentMsg d2 = Some m0
          /\ qget q (m_msgQueue d2) = rest ++ [item]
          /\ qget q (m_queueEvent d2) = true).
Proof.
  intros Hs. cbv zeta. rewrite (SendMsg_enqueues msg q d Hs).
  split; [|split; [|split]].
  - intros q'. unfold enqueue. engine_simpl. apply qget_qset.
  - unfold enqueue. engine_simpl. rewrite qget_qset.
    destruct (decide (q = q)); [reflexivity | congruence].
  - intros Hq He. unfold WriteNextMsg, enqueue. engine_simpl.
    rewrite qget_qset. destruct (decide (q = q)) as [_|]; [|congruence].
    rewrite Hq. cbn [app]. do 2 f_equal.
    unfold pop_front. engine_simpl. rewrite qget_qset.
    destruct (decide (q = q)) as [_|]; [|congruence]. cbn [tail]. engine_simpl.
    rewrite !qset_qset. rewrite <- Hq at 1. rewrite <- He at 1. rewrite !qset_qget.
    destruct d. reflexivity.
  - intros m0 rest Hq. unfold WriteNextMsg, enqueue. engine_simpl.
    rewrite qget_qset. destruct (decide (q = q)) as [_|]; [|congruence].
    rewrite Hq. cbn [app]. eexists. split; [reflexivity|].
    unfold pop_front. engine_simpl. rewrite qget_qset.
    destruct (decide (q = q)) as [_|]; [|congruence]. cbn [tail].
    destruct (rest ++ [MsgQueueCmd_SendMsg (Finalize msg)]) as [|x l] eqn:Hl.
    { destruct rest; discriminate Hl. }
    engine_simpl. rewrite !qget_qset.
    destruct (decide (q = q)); [auto | congruence].
Qed.

(** X15. [SendQueryStageComplete] does not look at the queue it is given:
    the marker of a node that is not asleep goes to the back of the Query
    queue, whose event is set.  For a node that is not in the table the
    marker is dropped and nothing changes, whereas [SendMsg] queues a
    message whose target is not in the table. *)
Theorem SendQueryStageComplete_queue (nodeId : Z) (stage : QueryStage)
    (queue : MsgQueue) (d : Driver) :
  (forall node, m_nodes d !! nodeId = Some node -> ~ asleep d nodeId ->
     SendQueryStageComplete nodeId stage queue d
     = enqueue MsgQueue_Query (MsgQueueCmd_QueryStageComplete nodeId stage) d)
  /\ (m_nodes d !! nodeId = None ->
      SendQueryStageComplete nodeId stage queue d = d
      /\ forall msg, m_targetNodeId (Finalize msg) = nodeId ->
           qget queue (m_msgQueue (SendMsg msg queue d))
           = qget queue (m_msgQueue d) ++ [MsgQueueCmd_SendMsg (Finalize msg)]).
Proof.
  split.
  - intros node Hn Hs. unfold SendQueryStageComplete, GetNode. cbv zeta. rewrite Hn.
    destruct (IsListeningDevice node) eqn:Hl; [reflexivity|]. cbn [negb].
    destruct (m_wakeUp node) as [w|] eqn:Hw; [|reflexivity].
    destruct (m_awake w) eqn:Ha; [reflexivity|].
    exfalso. apply Hs. exists node, w. auto.
  - intros Hn. split.
    + unfold SendQueryStageComplete, GetNode. cbv zeta. rewrite Hn. reflexivity.
    + intros msg Ht. unfold SendMsg, GetNode. cbv zeta. rewrite Ht, Hn.
      unfold enqueue. engine_simpl. rewrite qget_qset.
      destruct (decide (queue = queue)); [reflexivity | congruence].
Qed.

(** ** A snapshot that is accepted *)

Lemma ReadConfig_children_table (l : list TiXmlElement) (d : Driver) :
  let ids :=
    flat_map
      (fun e =>
         match Value e with
         | Some str =>
             if String.eqb str "Node" then
               match QueryIntAttribute e "id" with
               | Some intVal => [uint8 intVal]
               | None => []
               end
             else []
         | None => []
         end) l in
  let d' := fold_left ReadConfig_child l d in
  m_notifications d'
  = m_notifications d ++ map (mkNotification Type_NodeAdded (m_homeId d)) ids
  /\ (forall k, is_Some (m_nodes d' !! k) <-> is_Some (m_nodes d !! k) \/ In k ids)
  /\ m_nodeId d' = m_nodeId d
  /\ m_currentMsg d' = m_currentMsg d
  /\ m_msgQueue d' = m_msgQueue d.
Proof.
  cbv zeta. revert d. induction l as [|e l IH]; intros d.
  - cbn [fold_left flat_map map]. rewrite app_nil_r.
    repeat split; auto. intros [H|[]]. exact H.
  - cbn [fold_left flat_map]. destruct (IH (ReadConfig_child d e)) as (-> & Hk & -> & -> & ->).
    rewrite ReadConfig_child_homeId. rewrite map_app, app_assoc.
    assert (Hc : m_notifications (ReadConfig_child d e)
                 = m_notifications d
                   ++ map (mkNotification Type_NodeAdded (m_homeId d))
                        match Value e with
                        | Some str =>
                            if String.eqb str "Node" then
                              match QueryIntAttribute e "id" with
                              | Some intVal => [uint8 intVal]
                              | None => []
                              end
                            else []
                        | None => []
                        end
                 /\ (forall k, is_Some (m_nodes (ReadConfig_child d e) !! k)
                               <-> is_Some (m_nodes d !! k)
                                   \/ In k match Value e with
                                           | Some str =>
                                               if String.eqb str "Node" then
                                                 match QueryIntAttribute e "id" with
                                                 | Some intVal => [uint8 intVal]
                                                 | None => []
                                                 end
                                               else []
                                           | None => []
                                           end)
                 /\ m_nodeId (ReadConfig_child d e) = m_nodeId d
                 /\ m_currentMsg (ReadConfig_child d e) = m_currentMsg d
                 /\ m_msgQueue (ReadConfig_child d e) = m_msgQueue d).
    { unfold ReadConfig_child.
      assert (Hid : m_notifications d = m_notifications d ++ map
                      (mkNotification Type_NodeAdded (m_homeId d)) []
                    /\ (forall k, is_Some (m_nodes d !! k)
                                  <-> is_Some (m_nodes d !! k) \/ In k [])
                    /\ m_nodeId d = m_nodeId d /\ m_currentMsg d = m_currentMsg d
                    /\ m_msgQueue d = m_msgQueue d).
      { cbn [map In]. rewrite app_nil_r. repeat split; auto. intros [H|[]]. exact H. }
      destruct (Value e) as [str|]; [|exact Hid].
      destruct (String.eqb str "Node"); [|exact Hid].
      destruct (QueryIntAttribute e "id") as [intVal|]; [|exact Hid].
      engine_simpl. cbn [map In]. repeat split; auto.
      - intros Hs. rewrite lookup_alter_is_Some in Hs.
        destruct (decide (uint8 intVal = k)) as [->|Hne]; [auto|].
        rewrite lookup_insert_ne in Hs by exact Hne. auto.
      - intros [Hs|[<-|[]]]; apply lookup_alter_is_Some.
        + apply lookup_insert_is_Some'. auto.
        + rewrite lookup_insert_eq. eauto. }
    destruct Hc as (-> & Hk0 & -> & -> & ->).
    split; [reflexivity|]. split; [|auto].
    intros k. rewrite Hk, Hk0, in_app_iff. tauto.
Qed.

(** X16. A snapshot that passes the three checks of [ReadConfig] is loaded:
    the call returns true and queues one NodeAdded for every Node element
    that has an id, in the order of the document and also when an id comes
    twice; the table then holds the ids it held before and those of the
    snapshot, and no other.  The ids of the controller, the current message
    and the queues are not touched. *)
Theorem ReadConfig_accepted (d : Driver) (root : TiXmlElement) :
  LoadFile (m_homeId d) = Some root ->
  ~ snapshot_rejected d root ->
  let d' := snd (ReadConfig d) in
  fst (ReadConfig d) = true
  /\ m_notifications d'
     = m_notifications d
       ++ map (mkNotification Type_NodeAdded (m_homeId d)) (snapshot_node_ids root)
  /\ (forall k, is_Some (m_nodes d' !! k)
                <-> is_Some (m_nodes d !! k) \/ In k (snapshot_node_ids root))
  /\ m_homeId d' = m_homeId d
  /\ m_nodeId d' = m_nodeId d
  /\ m_currentMsg d' = m_currentMsg d
  /\ m_msgQueue d' = m_msgQueue d.
Proof.
  intros Hload Hrej. cbv zeta.
  destruct (ReadConfig_frame d) as (_ & Hh & _).
  split; [|split; [|split; [|split; [exact Hh|]]]]; revert Hh;
    unfold ReadConfig, snapshot_rejected in *; rewrite Hload.
  all: destruct (QueryIntAttribute root "version") as [v|] eqn:Hv; [|tauto].
  all: destruct (uint32 v =? c_configVersion) eqn:Ev;
    [|apply Z.eqb_neq in Ev; exfalso; apply Hrej; right; left; eauto].
  all: destruct (Attribute_strtol root "home_id") as [h|] eqn:Hhome; [|tauto].
  all: destruct (uint32 h =? m_homeId d) eqn:Eh;
    [|apply Z.eqb_neq in Eh; exfalso; apply Hrej; do 3 right; left; eauto].
  all: destruct (QueryIntAttribute root "node_id") as [n|] eqn:Hn; [|tauto].
  all: destruct (uint8 n =? m_nodeId d) eqn:En;
    [|apply Z.eqb_neq in En; exfalso; apply Hrej; do 5 right; eauto].
  all: cbn [negb fst snd]; cbv zeta; intros _.
  all: try match goal with |- context [fold_left ReadConfig_child ?l ?x] =>
             destruct (ReadConfig_children_table l x) as (Hm & Hk & Hi & Hc & Hq) end.
  all: unfold snapshot_node_ids.
  - reflexivity.
  - rewrite Hm. f_equal.
    + destruct (QueryIntAttribute root "api_capabilities");
        destruct (QueryIntAttribute root "controller_capabilities");
        destruct (QueryIntAttribute root "poll_interval"); reflexivity.
    + f_equal. destruct (QueryIntAttribute root "api_capabilities");
        destruct (QueryIntAttribute root "controller_capabilities");
        destruct (QueryIntAttribute root "poll_interval"); reflexivity.
  - intros k. rewrite Hk.
    destruct (QueryIntAttribute root "api_capabilities");
      destruct (QueryIntAttribute root "controller_capabilities");
      destruct (QueryIntAttribute root "poll_interval"); reflexivity.
  - split; [rewrite Hi | split; [rewrite Hc | rewrite Hq]];
      destruct (QueryIntAttribute root "api_capabilities");
      destruct (QueryIntAttribute root "controller_capabilities");
      destruct (QueryIntAttribute root "poll_interval"); reflexivity.
Qed.

(** ** The notifications of a turn of the driver thread *)

(** Nothing is added to the notifications. *)
Ltac nothing_queued := exists []; rewrite app_nil_r; reflexivity.

Lemma ReadConfig_appends (d : Driver) :
  exists more, m_notifications (snd (ReadConfig d)) = m_notifications d ++ more.
Proof.
  assert (Hnil : exists more, m_notifications d = m_notifications d ++ more)
    by (exists []; rewrite app_nil_r; reflexivity).
  unfold ReadConfig. destruct (LoadFile (m_homeId d)) as [root|]; [|exact Hnil].
  destruct (QueryIntAttribute root "version") as [v|]; [|exact Hnil].
  destruct (negb (uint32 v =? c_configVersion)); [exact Hnil|].
  destruct (Attribute_strtol root "home_id") as [h|]; [|exact Hnil].
  destruct (negb (uint32 h =? m_homeId d)); [exact Hnil|].
  destruct (QueryIntAttribute root "node_id") as [n|]; [|exact Hnil].
  destruct (negb (uint8 n =? m_nodeId d)); [exact Hnil|].
  cbn [snd]. cbv zeta.
  match goal with |- context [fold_left ReadConfig_child ?l ?x] =>
    destruct (ReadConfig_children_table l x) as (-> & _) end.
  destruct (QueryIntAttribute root "api_capabilities");
    destruct (QueryIntAttribute root "controller_capabilities");
    destruct (QueryIntAttribute root "poll_interval"); eexists; reflexivity.
Qed.

Lemma HandleSerialAPIGetInitDataResponse_appends (data : list Z) (d : Driver) :
  exists more,
    m_notifications (HandleSerialAPIGetInitDataResponse data d)
    = m_notifications d ++ more.
Proof.
  assert (Hstart : exists more,
            m_notifications (bitmap_start d) = m_notifications d ++ more).
  { unfold bitmap_start, reconcile_start. destruct (negb (m_init d)).
    - destruct (ReadConfig_appends (SetDriverReady d)) as (more & ->).
      unfold SetDriverReady. engine_simpl. eexists. rewrite <- app_assoc. reflexivity.
    - exists []. rewrite app_nil_r. reflexivity. }
  destruct Hstart as (m0 & H0).
  unfold HandleSerialAPIGetInitDataResponse. cbv zeta.
  fold (reconcile_start d). fold (bitmap_start d).
  destruct (byte_at data 4 =? NUM_NODE_BITFIELD_BYTES).
  - generalize bitmap_positions. intros l. engine_simpl.
    match goal with |- context [fold_left _ _ ?d0] =>
      destruct (InitData_bits_events data l d0) as (more & -> & _)
    end.
    engine_simpl. rewrite H0. eexists. rewrite <- app_assoc. reflexivity.
  - engine_simpl. exists m0. exact H0.
Qed.

Lemma MoveMessagesToWakeUpQueue_notifications (target : Z) (d d' : Driver) (r : bool) :
  MoveMessagesToWakeUpQueue target d = Some (r, d') ->
  m_notifications d' = m_notifications d.
Proof.
  intros Hm. destruct (sleep_capable d target) eqn:Hs.
  - destruct (sleep_capable_true _ _ Hs) as (node & w & Hn & Hl & Hf & Hc & Hw).
    rewrite (MoveMessagesToWakeUpQueue_spec target d node w Hn Hl Hf Hc Hw) in Hm.
    destruct (marker_queued target d); [discriminate|]. injection Hm as _ <-.
    engine_simpl. destruct (current_for target d); reflexivity.
  - rewrite (MoveMessagesToWakeUpQueue_not _ _ Hs) in Hm. injection Hm as _ <-.
    reflexivity.
Qed.

Lemma HandleSendDataRequest_notifications (data : list Z) (replication : bool)
    (d d' : Driver) :
  HandleSendDataRequest data replication d = Some d' ->
  m_notifications d' = m_notifications d.
Proof.
  intros H.
  destruct (HandleSendDataRequest_cases _ _ _ _ H) as [->|[->|[->|(cur & r & _ & _ & Hm)]]];
    [reflexivity | reflexivity | reflexivity |].
  exact (MoveMessagesToWakeUpQueue_notifications _ _ _ _ Hm).
Qed.

Lemma WriteMsg_notifications (d : Driver) :
  m_notifications (snd (WriteMsg d)) = m_notifications d.
Proof.
  unfold WriteMsg. destruct (m_currentMsg d) as [msg|]; [|reflexivity].
  destruct (MAX_TRIES <=? m_sendAttempts msg); [reflexivity|]. cbv zeta.
  match goal with |- context [if ?b then _ else _] => destruct b end; [reflexivity|].
  match goal with |- context [GetNodeUnsafe ?n ?x] => destruct (GetNodeUnsafe n x) end;
    reflexivity.
Qed.

Lemma ProcessMsg_callback_notifications (data : list Z) (d : Driver) :
  m_notifications (ProcessMsg_callback data d) = m_notifications d
  \/ m_notifications (ProcessMsg_callback data d)
     = m_notifications d ++ [mkNotification Type_MsgComplete (m_homeId d) 0xff].
Proof.
  unfold ProcessMsg_callback. destruct d. callback_cases.
  all: first [left; reflexivity | right; reflexivity | congruence].
Qed.

Lemma ProcessMsg_callback_appends (data : list Z) (d : Driver) :
  exists more, m_notifications (ProcessMsg_callback data d) = m_notifications d ++ more.
Proof.
  destruct (ProcessMsg_callback_notifications data d) as [->| ->].
  - exists []. rewrite app_nil_r. reflexivity.
  - eexists. reflexivity.
Qed.

Lemma ProcessMsg_dispatch_appends (data : list Z) (d x : Driver) (handleCallback : bool) :
  (forall frame x, exists more,
      m_notifications (snd (HandleOther frame x)) = m_notifications x ++ more) ->
  ProcessMsg_dispatch data d = Some (handleCallback, x) ->
  exists more, m_notifications x = m_notifications d ++ more.
Proof.
  intros Hother. unfold ProcessMsg_dispatch.
  assert (Hnil : exists more, m_notifications d = m_notifications d ++ more)
    by nothing_queued.
  destruct (byte_at data 0 =? RESPONSE).
  - destruct (func_id (byte_at data 1)).
    all: try (intros [= <- <-]; first [exact Hnil
                | apply HandleSerialAPIGetInitDataResponse_appends | apply Hother]).
    all: destruct (Hother data d) as (more & Hm);
      destruct (HandleOther data d) as [ok y]; cbn [snd] in *;
      intros [= <- <-]; destruct ok; unfold force_completion; engine_simpl; eauto.
  - destruct (byte_at data 0 =? REQUEST); [|intros [= <- <-]; exact Hnil].
    destruct (func_id (byte_at data 1)).
    all: try (intros [= <- <-]; first [exact Hnil | apply Hother]).
    + destruct (HandleSendDataRequest data false d) as [y|] eqn:Hh; [|discriminate].
      intros [= <- <-]. rewrite (HandleSendDataRequest_notifications _ _ _ _ Hh).
      exact Hnil.
    + destruct (HandleSendDataRequest data true d) as [y|] eqn:Hh; [|discriminate].
      intros [= <- <-]. rewrite (HandleSendDataRequest_notifications _ _ _ _ Hh).
      exact Hnil.
    + destruct (Hother data d) as (more & Hm).
      destruct (HandleOther data d) as [removed y]; cbn [snd] in *.
      intros [= <- <-]. eauto.
Qed.

Lemma ProcessMsg_appends (data : list Z) (d d' : Driver) :
  (forall frame x, exists more,
      m_notifications (snd (HandleOther frame x)) = m_notifications x ++ more) ->
  ProcessMsg data d = Some d' ->
  exists more, m_notifications d' = m_notifications d ++ more.
Proof.
  intros Hother. unfold ProcessMsg.
  destruct (ProcessMsg_dispatch data d) as [[handleCallback x]|] eqn:Hd; [|discriminate].
  destruct (ProcessMsg_dispatch_appends data d x handleCallback Hother Hd) as (m1 & H1).
  intros [= <-]. destruct handleCallback; [|eauto].
  destruct (ProcessMsg_callback_appends data x) as (m2 & ->). rewrite H1.
  eexists. rewrite <- app_assoc. reflexivity.
Qed.

Lemma ReadMsg_appends (first : option Z) (rest : FrameRead) (d d' : Driver) (r : bool) :
  (forall frame x, exists more,
      m_notifications (snd (HandleOther frame x)) = m_notifications x ++ more) ->
  ReadMsg first rest d = Some (r, d') ->
  exists more, m_notifications d' = m_notifications d ++ more.
Proof.
  intros Hother.
  unfold ReadMsg. destruct first as [b|]; [|intros [= <- <-]; nothing_queued].
  destruct (b =? SOF).
  - cbv zeta. destruct rest as [|len|len body].
    + intros [= <- <-]. destruct (m_waitingForAck _); nothing_queued.
    + intros [= <- <-]. destruct (m_waitingForAck _); nothing_queued.
    + match goal with |- context [if ?b =? ?c then _ else _] => destruct (b =? c) end.
      * match goal with |- context [ProcessMsg body ?x] =>
          destruct (ProcessMsg body x) as [y|] eqn:Hp; [|discriminate];
          destruct (ProcessMsg_appends body x y Hother Hp) as (more & Hm) end.
        intros [= <- <-]. exists more. rewrite Hm.
        destruct (m_waitingForAck _); reflexivity.
      * intros [= <- <-]. destruct (m_waitingForAck _); nothing_queued.
  - destruct (b =? CAN);
      [intros [= <- <-]; cbv zeta; rewrite WriteMsg_notifications; nothing_queued|].
    destruct (b =? NAK);
      [intros [= <- <-]; cbv zeta; rewrite WriteMsg_notifications; nothing_queued|].
    destruct (b =? ACK); [|intros [= <- <-]; nothing_queued].
    cbv zeta. match goal with |- context [if ?c then _ else _] => destruct c end;
      intros [= <- <-]; nothing_queued.
Qed.

(** X17. A turn of the driver thread loses no notification and keeps none
    back: whatever the wait returns, the notifications handed to the
    watchers start with those that were queued before the turn, in their
    order, followed by those of the turn, and the queue is empty when the
    thread waits again.  This holds when the handlers and the query
    advance that are not modelled only add to the queue; a turn in which
    [MoveMessagesToWakeUpQueue] reads the [m_msg] of a marker has no
    result. *)
Theorem DriverThread_turn_notifications (w : WaitResult) (d d' : Driver)
    (ns : list Notification) :
  (forall frame x, exists more,
      m_notifications (snd (HandleOther frame x)) = m_notifications x ++ more) ->
  (forall n s x, exists more,
      m_notifications (AdvanceQueries n s x) = m_notifications x ++ more) ->
  DriverThread_turn w d = Some (ns, d') ->
  m_notifications d' = []
  /\ exists more, ns = m_notifications d ++ more.
Proof.
  intros Hother Hadv. unfold DriverThread_turn, NotifyWatchers.
  destruct w as [|first rest|q].
  - destruct (waiting d); [|discriminate]. intros H. injection H as <- <-.
    split; [reflexivity|]. rewrite WriteMsg_notifications. nothing_queued.
  - destruct (ReadMsg first rest d) as [[r x]|] eqn:Hr; [|discriminate].
    intros H. injection H as <- <-. split; [reflexivity|].
    exact (ReadMsg_appends first rest d x r Hother Hr).
  - destruct (negb (waiting d) && qget q (m_queueEvent d)); [|discriminate].
    destruct (WriteNextMsg q d) as [[r x]|] eqn:Hw; [|discriminate].
    intros H. injection H as <- <-. split; [reflexivity|].
    unfold WriteNextMsg in Hw.
    destruct (qget q (m_msgQueue d)) as [|[msg|nodeId stage] items]; [discriminate| |].
    + injection Hw as Hw. apply (f_equal snd) in Hw. cbn [snd] in Hw. subst x.
      rewrite WriteMsg_notifications. unfold pop_front. engine_simpl.
      destruct (tail _); nothing_queued.
    + assert (Hp : m_notifications (pop_front q (set_m_currentMsg None d))
                   = m_notifications d)
        by (unfold pop_front; engine_simpl; destruct (tail _); reflexivity).
      destruct (GetNodeUnsafe nodeId _); injection Hw as _ <-.
      * destruct (Hadv nodeId stage (pop_front q (set_m_currentMsg None d))) as (more & ->).
        rewrite Hp. eauto.
      * rewrite Hp. nothing_queued.
Qed.

(** ** The statistics of a turn of the driver thread *)

(** The counters out of their setters. *)
Ltac stats_simpl :=
  cbn [m_SOFCnt m_ACKWaiting m_readAborts m_badChecksum m_readCnt m_writeCnt
       m_CANCnt m_NAKCnt m_ACKCnt m_OOFCnt m_dropped m_retries
       m_controllerReadCnt m_controllerWriteCnt set_m_SOFCnt set_m_ACKWaiting
       set_m_readAborts set_m_badChecksum set_m_readCnt set_m_writeCnt
       set_m_CANCnt set_m_NAKCnt set_m_ACKCnt set_m_OOFCnt
       set_m_controllerWriteCnt].

Lemma uint32_congr (a b k : Z) : a = b + k * 4294967296 -> uint32 a = uint32 b.
Proof. intros ->. unfold uint32. apply Z_mod_plus_full. Qed.

Lemma incr_eq (x : Z) : exists k, incr x = x + 1 + k * 4294967296.
Proof.
  exists (- ((x + 1) / 4294967296)). unfold incr, uint32.
  rewrite Z.mod_eq by lia. ring.
Qed.

Lemma link_untouched_refl (d : Driver) : link_untouched d d.
Proof. split; reflexivity. Qed.

Lemma link_untouched_trans (d1 d2 d3 : Driver) :
  link_untouched d1 d2 -> link_untouched d2 d3 -> link_untouched d1 d3.
Proof. intros [H1 H2] [H3 H4]. split; congruence. Qed.

Lemma ReadConfig_child_link (d : Driver) (e : TiXmlElement) :
  link_untouched d (ReadConfig_child d e).
Proof.
  unfold ReadConfig_child. destruct (Value e) as [str|]; [|apply link_untouched_refl].
  destruct (String.eqb str "Node"); [|apply link_untouched_refl].
  destruct (QueryIntAttribute e "id"); split; reflexivity.
Qed.

Lemma ReadConfig_link (d : Driver) : link_untouched d (snd (ReadConfig d)).
Proof.
  unfold ReadConfig.
  destruct (LoadFile (m_homeId d)) as [root|]; [|apply link_untouched_refl].
  destruct (QueryIntAttribute root "version") as [v|]; [|apply link_untouched_refl].
  destruct (negb (uint32 v =? c_configVersion)); [apply link_untouched_refl|].
  destruct (Attribute_strtol root "home_id") as [h|]; [|apply link_untouched_refl].
  destruct (negb (uint32 h =? m_homeId d)); [apply link_untouched_refl|].
  destruct (QueryIntAttribute root "node_id") as [n|]; [|apply link_untouched_refl].
  destruct (negb (uint8 n =? m_nodeId d)); [apply link_untouched_refl|].
  cbn [snd]. cbv zeta.
  match goal with |- link_untouched d (fold_left _ ?l ?x) =>
    assert (Hx : link_untouched d x)
      by (destruct (QueryIntAttribute root "api_capabilities");
          destruct (QueryIntAttribute root "controller_capabilities");
          destruct (QueryIntAttribute root "poll_interval"); split; reflexivity);
    revert Hx; generalize x; generalize l
  end.
  intros l. induction l as [|e l IH]; intros x Hx; [exact Hx|].
  cbn [fold_left]. apply IH.
  apply (link_untouched_trans _ _ _ Hx), ReadConfig_child_link.
Qed.

Lemma InitData_bit_link (data : list Z) (d : Driver) (ij : nat * nat) :
  link_untouched d (InitData_bit data d ij).
Proof.
  destruct ij as [i j]. unfold InitData_bit, GetNode.
  set (k := uint8 (Z.of_nat i * 8 + Z.of_nat j + 1)).
  destruct (negb (Z.land _ _ =? 0)).
  - destruct (IsVirtualNode (m_virtualNeighbors d) k); [apply link_untouched_refl|].
    destruct (m_nodes d !! k) as [node|] eqn:Hk.
    + destruct (negb (m_init d)); split; reflexivity.
    + unfold InitNode. engine_simpl. rewrite Hk. split; reflexivity.
  - destruct (m_nodes d !! k) as [node|]; split; reflexivity.
Qed.

Lemma HandleSerialAPIGetInitDataResponse_link (data : list Z) (d : Driver) :
  link_untouched d (HandleSerialAPIGetInitDataResponse data d).
Proof.
  assert (Hstart : link_untouched d (bitmap_start d)).
  { unfold bitmap_start, reconcile_start. destruct (negb (m_init d)).
    - apply (link_untouched_trans _ (SetDriverReady d)); [split; reflexivity|].
      apply ReadConfig_link.
    - apply link_untouched_refl. }
  unfold HandleSerialAPIGetInitDataResponse. cbv zeta.
  fold (reconcile_start d). fold (bitmap_start d).
  destruct (byte_at data 4 =? NUM_NODE_BITFIELD_BYTES).
  - generalize bitmap_positions. intros l.
    match goal with |- link_untouched d (set_m_init true (fold_left _ l ?x)) =>
      assert (Hx : link_untouched d x)
        by (apply (link_untouched_trans _ _ _ Hstart); split; reflexivity);
      revert Hx; generalize x
    end.
    induction l as [|ij l IH]; intros x Hx.
    + cbn [fold_left]. apply (link_untouched_trans _ _ _ Hx). split; reflexivity.
    + cbn [fold_left]. apply IH.
      apply (link_untouched_trans _ _ _ Hx), InitData_bit_link.
  - apply (link_untouched_trans _ _ _ Hstart). split; reflexivity.
Qed.

Lemma MoveMessagesToWakeUpQueue_link (target : Z) (d d' : Driver) (r : bool) :
  MoveMessagesToWakeUpQueue target d = Some (r, d') ->
  link_untouched d d'.
Proof.
  intros Hm. destruct (sleep_capable d target) eqn:Hs.
  - destruct (sleep_capable_true _ _ Hs) as (node & w & Hn & Hl & Hf & Hc & Hw).
    rewrite (MoveMessagesToWakeUpQueue_spec target d node w Hn Hl Hf Hc Hw) in Hm.
    destruct (marker_queued target d); [discriminate|]. injection Hm as _ <-.
    unfold link_untouched. engine_simpl. destruct (current_for target d); split; reflexivity.
  - rewrite (MoveMessagesToWakeUpQueue_not _ _ Hs) in Hm. injection Hm as _ <-.
    apply link_untouched_refl.
Qed.

Lemma HandleSendDataRequest_link (data : list Z) (replication : bool) (d d' : Driver) :
  HandleSendDataRequest data replication d = Some d' ->
  link_untouched d d'.
Proof.
  intros H.
  destruct (HandleSendDataRequest_cases _ _ _ _ H) as [->|[->|[->|(cur & r & _ & _ & Hm)]]];
    [apply link_untouched_refl | split; reflexivity | split; reflexivity |].
  exact (MoveMessagesToWakeUpQueue_link _ _ _ _ Hm).
Qed.

Lemma ProcessMsg_callback_link (data : list Z) (d : Driver) :
  link_untouched d (ProcessMsg_callback data d).
Proof.
  unfold ProcessMsg_callback, link_untouched. destruct d. callback_cases.
  all: first [split; reflexivity | congruence].
Qed.

Lemma ProcessMsg_dispatch_link (data : list Z) (d x : Driver) (handleCallback : bool) :
  (forall frame x, link_untouched x (snd (HandleOther frame x))) ->
  ProcessMsg_dispatch data d = Some (handleCallback, x) ->
  link_untouched d x.
Proof.
  intros Hother. unfold ProcessMsg_dispatch.
  destruct (byte_at data 0 =? RESPONSE).
  - destruct (func_id (byte_at data 1)).
    all: try (intros [= <- <-]; first [apply link_untouched_refl
                | apply HandleSerialAPIGetInitDataResponse_link | apply Hother]).
    all: pose proof (Hother data d) as Hm;
      destruct (HandleOther data d) as [ok y]; cbn [snd] in *;
      intros [= <- <-]; destruct ok; [exact Hm|];
      apply (link_untouched_trans _ _ _ Hm); split; reflexivity.
  - destruct (byte_at data 0 =? REQUEST); [|intros [= <- <-]; apply link_untouched_refl].
    destruct (func_id (byte_at data 1)).
    all: try (intros [= <- <-]; first [apply link_untouched_refl | apply Hother]).
    + destruct (HandleSendDataRequest data false d) as [y|] eqn:Hh; [|discriminate].
      intros [= <- <-]. exact (HandleSendDataRequest_link _ _ _ _ Hh).
    + destruct (HandleSendDataRequest data true d) as [y|] eqn:Hh; [|discriminate].
      intros [= <- <-]. exact (HandleSendDataRequest_link _ _ _ _ Hh).
    + pose proof (Hother data d) as Hm.
      destruct (HandleOther data d) as [removed y]; cbn [snd] in *.
      intros [= <- <-]. exact Hm.
Qed.

Lemma ProcessMsg_link (data : list Z) (d d' : Driver) :
  (forall frame x, link_untouched x (snd (HandleOther frame x))) ->
  ProcessMsg data d = Some d' ->
  link_untouched d d'.
Proof.
  intros Hother. unfold ProcessMsg.
  destruct (ProcessMsg_dispatch data d) as [[handleCallback x]|] eqn:Hd; [|discriminate].
  pose proof (ProcessMsg_dispatch_link data d x handleCallback Hother Hd) as Hx.
  intros [= <-]. destruct handleCallback; [|exact Hx].
  apply (link_untouched_trans _ _ _ Hx), ProcessMsg_callback_link.
Qed.

(** A goal on the gaps, once the counters that were incremented are
    written with their wrap-around. *)
Ltac gap_solve :=
  unfold frames_gap, writes_gap; engine_simpl; stats_simpl;
  rewrite ?List.length_app; cbn [length];
  repeat match goal with
         | |- context [incr ?x] =>
             let k := fresh "k" in destruct (incr_eq x) as [k ->]
         end;
  first
    [ reflexivity
    | match goal with
      | k1 : Z, k2 : Z |- uint32 _ = uint32 _ =>
          first [ apply (uint32_congr _ _ (k1 - k2)); lia
                | apply (uint32_congr _ _ (- k1 - k2)); lia ]
      | k : Z |- uint32 _ = uint32 _ =>
          first [ apply (uint32_congr _ _ k); lia
                | apply (uint32_congr _ _ (- k)); lia ]
      end ].

Lemma accounted_refl (d : Driver) : accounted d d.
Proof. repeat split. Qed.

Lemma accounted_trans (d1 d2 d3 : Driver) :
  accounted d1 d2 -> accounted d2 d3 -> accounted d1 d3.
Proof.
  intros (A1 & A2 & A3 & A4 & A5) (B1 & B2 & B3 & B4 & B5).
  repeat split; congruence.
Qed.

Lemma link_untouched_accounted (d d' : Driver) : link_untouched d d' -> accounted d d'.
Proof.
  intros [Hs Hw]. unfold accounted, frames_gap, writes_gap. rewrite Hs, Hw.
  repeat split.
Qed.

Lemma WriteMsg_accounted (d : Driver) : accounted d (snd (WriteMsg d)).
Proof.
  unfold WriteMsg. destruct (m_currentMsg d) as [msg|]; [|apply accounted_refl].
  destruct (MAX_TRIES <=? m_sendAttempts msg);
    [apply link_untouched_accounted; split; reflexivity|].
  cbv zeta.
  match goal with |- context [if ?b then _ else _] => destruct b end.
  - cbn [snd]. unfold accounted. split; [gap_solve|]. split; [gap_solve|].
    repeat split.
  - match goal with |- context [GetNodeUnsafe ?n ?x] => destruct (GetNodeUnsafe n x) end;
      cbn [snd]; unfold accounted; (split; [gap_solve|]); (split; [gap_solve|]);
      repeat split.
Qed.

Lemma ReadMsg_accounted (first : option Z) (rest : FrameRead) (d d' : Driver) (r : bool) :
  (forall frame x, link_untouched x (snd (HandleOther frame x))) ->
  ReadMsg first rest d = Some (r, d') ->
  accounted d d'.
Proof.
  intros Hother. unfold ReadMsg.
  destruct first as [b|]; [|intros [= <- <-]; apply accounted_refl].
  destruct (b =? SOF).
  - cbv zeta. destruct rest as [|len|len body].
    + intros [= <- <-]. unfold accounted.
      destruct (m_waitingForAck _); (split; [gap_solve|]); (split; [gap_solve|]);
        repeat split.
    + intros [= <- <-]. unfold accounted.
      destruct (m_waitingForAck _); (split; [gap_solve|]); (split; [gap_solve|]);
        repeat split.
    + match goal with |- context [if ?x =? ?c then _ else _] => destruct (x =? c) end.
      * match goal with |- context [ProcessMsg body ?x] =>
          destruct (ProcessMsg body x) as [y|] eqn:Hp; [|discriminate];
          intros [= <- <-];
          apply (accounted_trans d x);
            [|apply link_untouched_accounted, (ProcessMsg_link body x y Hother Hp)]
        end.
        unfold accounted.
        destruct (m_waitingForAck _); (split; [gap_solve|]); (split; [gap_solve|]);
          repeat split.
      * intros [= <- <-]. unfold accounted.
        destruct (m_waitingForAck _); (split; [gap_solve|]); (split; [gap_solve|]);
          repeat split.
  - destruct (b =? CAN).
    { cbv zeta. intros [= <- <-].
      match goal with |- accounted d (snd (WriteMsg ?x)) =>
        apply (accounted_trans d x); [|apply WriteMsg_accounted] end.
      unfold accounted. (split; [gap_solve|]); (split; [gap_solve|]); repeat split. }
    destruct (b =? NAK).
    { cbv zeta. intros [= <- <-].
      match goal with |- accounted d (snd (WriteMsg ?x)) =>
        apply (accounted_trans d x); [|apply WriteMsg_accounted] end.
      unfold accounted. (split; [gap_solve|]); (split; [gap_solve|]); repeat split. }
    destruct (b =? ACK).
    + cbv zeta. match goal with |- context [if ?c then _ else _] => destruct c end;
        intros [= <- <-]; unfold accounted; (split; [gap_solve|]); (split; [gap_solve|]);
        repeat split.
    + cbv zeta. intros [= <- <-]. unfold accounted.
      (split; [gap_solve|]); (split; [gap_solve|]); repeat split.
Qed.

(** X18. The statistics add up over every turn of the driver thread: the
    frames counted in [m_SOFCnt] are those aborted, those refused for their
    checksum and those read, and the writes to the controller are the
    messages written and the ACKs and NAKs that answer frames and stray
    bytes, both up to the wrap-around of the uint32 counters; and no turn
    changes [m_dropped], [m_retries] or [m_controllerReadCnt].  This holds
    when the handlers and the query advance that are not modelled leave the
    counters and the link alone; a turn in which [MoveMessagesToWakeUpQueue]
    reads the [m_msg] of a marker has no result. *)
Theorem DriverThread_turn_statistics (w : WaitResult) (d d' : Driver)
    (ns : list Notification) :
  (forall frame x, link_untouched x (snd (HandleOther frame x))) ->
  (forall n s x, link_untouched x (AdvanceQueries n s x)) ->
  DriverThread_turn w d = Some (ns, d') ->
  uint32 (frames_gap d') = uint32 (frames_gap d)
  /\ uint32 (writes_gap d') = uint32 (writes_gap d)
  /\ m_dropped (m_stats d') = m_dropped (m_stats d)
  /\ m_retries (m_stats d') = m_retries (m_stats d)
  /\ m_controllerReadCnt (m_stats d') = m_controllerReadCnt (m_stats d).
Proof.
  intros Hother Hadv. unfold DriverThread_turn, NotifyWatchers.
  assert (Hn : forall x, accounted x (set_m_notifications [] x))
    by (intros x; apply link_untouched_accounted; split; reflexivity).
  intros Hturn. change (accounted d d'). revert Hturn.
  destruct w as [|first rest|q].
  - destruct (waiting d); [|discriminate]. intros H. injection H as _ <-.
    apply (accounted_trans _ _ _ (WriteMsg_accounted d)), Hn.
  - destruct (ReadMsg first rest d) as [[r x]|] eqn:Hr; [|discriminate].
    intros H. injection H as _ <-.
    apply (accounted_trans _ _ _ (ReadMsg_accounted first rest d x r Hother Hr)), Hn.
  - destruct (negb (waiting d) && qget q (m_queueEvent d)); [|discriminate].
    destruct (WriteNextMsg q d) as [[r x]|] eqn:Hw; [|discriminate].
    intros H. injection H as _ <-.
    apply (accounted_trans d x); [|apply Hn].
    unfold WriteNextMsg in Hw.
    destruct (qget q (m_msgQueue d)) as [|[msg|nodeId stage] items]; [discriminate| |].
    + injection Hw as Hw. apply (f_equal snd) in Hw. cbn [snd] in Hw. subst x.
      match goal with |- accounted d (snd (WriteMsg ?y)) =>
        apply (accounted_trans d y); [|apply WriteMsg_accounted] end.
      apply link_untouched_accounted. unfold pop_front, link_untouched. engine_simpl.
      destruct (tail _); split; reflexivity.
    + assert (Hp : link_untouched d (pop_front q (set_m_currentMsg None d)))
        by (unfold pop_front, link_untouched; engine_simpl;
            destruct (tail _); split; reflexivity).
      destruct (GetNodeUnsafe nodeId _); injection Hw as _ <-.
      * apply link_untouched_accounted.
        apply (link_untouched_trans _ _ _ Hp), Hadv.
      * apply link_untouched_accounted, Hp.
Qed.

End Engine.

(** * The answers of the controller *)

Section Controller.

(** ** The home id *)

Lemma land_shifted_low (a b n : Z) :
  0 <= n -> 0 <= b < 2 ^ n -> Z.land (a * 2 ^ n) b = 0.
Proof.
  intros Hn Hb. apply Z.bits_inj'. intros i Hi.
  rewrite Z.land_spec, Z.bits_0.
  destruct (Z.lt_ge_cases i n) as [Hlt|Hge].
  - rewrite Z.mul_pow2_bits_low by lia. reflexivity.
  - assert (Hbi : Z.testbit b i = false).
    { destruct (Z.eq_dec b 0) as [->|Hb0]; [apply Z.bits_0|].
      apply Z.bits_above_log2; [lia|].
      apply Z.lt_le_trans with n; [|exact Hge].
      apply Z.log2_lt_pow2; lia. }
    rewrite Hbi. apply andb_false_r.
Qed.

Lemma lor_shifted (a b n : Z) :
  0 <= n -> 0 <= b < 2 ^ n -> Z.lor (a * 2 ^ n) b = a * 2 ^ n + b.
Proof.
  intros Hn Hb. pose proof (land_shifted_low a b n Hn Hb) as H.
  rewrite <- (Z.lxor_lor _ _ H). symmetry. apply Z.add_nocarry_lxor, H.
Qed.

Lemma byte_of_shifted (h q r lo n : Z) :
  0 <= n -> 0 <= lo < 2 ^ n -> 0 <= r < 256 ->
  h = (q * 256 + r) * 2 ^ n + lo ->
  Z.land (Z.shiftr h n) 0xff = r.
Proof.
  intros Hn Hlo Hr ->. rewrite Z.shiftr_div_pow2 by exact Hn.
  change 0xff with (Z.ones 8). rewrite Z.land_ones by lia.
  assert (Hq : ((q * 256 + r) * 2 ^ n + lo) / 2 ^ n = q * 256 + r).
  { symmetry. apply (Z.div_unique _ _ _ lo); [left; exact Hlo | ring]. }
  rewrite Hq. symmetry. apply (Z.mod_unique _ _ q); [left; lia | lia].
Qed.

(** X19. [HandleMemoryGetIdResponse] reads the home id from the bytes 2 to
    5 of the frame, the most significant first: for bytes in their range
    the home id is their value in base 256, it fits 32 bits, and each of
    the four bytes can be read back from it, so that different answers
    give different home ids.  The node id is byte 6, and the node table,
    the queues and the transaction are not touched. *)
Theorem HandleMemoryGetIdResponse_home_id (data : list Z) (d : Driver) :
  (forall i, 0 <= byte_at data i < 256) ->
  let d' := HandleMemoryGetIdResponse data d in
  m_homeId d'
  = byte_at data 2 * 2 ^ 24 + byte_at data 3 * 2 ^ 16 + byte_at data 4 * 2 ^ 8
    + byte_at data 5
  /\ 0 <= m_homeId d' < 2 ^ 32
  /\ Z.land (Z.shiftr (m_homeId d') 24) 0xff = byte_at data 2
  /\ Z.land (Z.shiftr (m_homeId d') 16) 0xff = byte_at data 3
  /\ Z.land (Z.shiftr (m_homeId d') 8) 0xff = byte_at data 4
  /\ Z.land (m_homeId d') 0xff = byte_at data 5
  /\ m_nodeId d' = byte_at data 6
  /\ m_nodes d' = m_nodes d
  /\ m_msgQueue d' = m_msgQueue d
  /\ m_currentMsg d' = m_currentMsg d.
Proof.
  intros Hb. cbv zeta.
  pose proof (Hb 2%nat) as H2. pose proof (Hb 3%nat) as H3.
  pose proof (Hb 4%nat) as H4. pose proof (Hb 5%nat) as H5.
  assert (Hh : m_homeId (HandleMemoryGetIdResponse data d)
               = byte_at data 2 * 2 ^ 24 + byte_at data 3 * 2 ^ 16
                 + byte_at data 4 * 2 ^ 8 + byte_at data 5).
  { unfold HandleMemoryGetIdResponse, shifted_byte, uint32.
    cbn [m_homeId set_m_homeId set_m_nodeId].
    rewrite !Z.shiftl_mul_pow2 by lia. rewrite !Z.mod_small by lia.
    rewrite (lor_shifted _ (byte_at data 3 * 2 ^ 16) 24) by lia.
    replace (byte_at data 2 * 2 ^ 24 + byte_at data 3 * 2 ^ 16)
      with ((byte_at data 2 * 2 ^ 8 + byte_at data 3) * 2 ^ 16) by lia.
    rewrite (lor_shifted _ (byte_at data 4 * 2 ^ 8) 16) by lia.
    replace ((byte_at data 2 * 2 ^ 8 + byte_at data 3) * 2 ^ 16 + byte_at data 4 * 2 ^ 8)
      with ((byte_at data 2 * 2 ^ 16 + byte_at data 3 * 2 ^ 8 + byte_at data 4) * 2 ^ 8)
      by lia.
    rewrite (lor_shifted _ (byte_at data 5) 8) by lia. lia. }
  rewrite Hh. split; [reflexivity|]. split; [lia|].
  split; [|split; [|split; [|split]]].
  - apply (byte_of_shifted _ 0 _ (byte_at data 3 * 2 ^ 16 + byte_at data 4 * 2 ^ 8
                                  + byte_at data 5)); lia.
  - apply (byte_of_shifted _ (byte_at data 2) _
             (byte_at data 4 * 2 ^ 8 + byte_at data 5)); lia.
  - apply (byte_of_shifted _ (byte_at data 2 * 2 ^ 8 + byte_at data 3) _
             (byte_at data 5)); lia.
  - change 0xff with (Z.ones 8). rewrite Z.land_ones by lia. symmetry.
    apply (Z.mod_unique _ _ (byte_at data 2 * 2 ^ 16 + byte_at data 3 * 2 ^ 8
                             + byte_at data 4)); [left; lia | lia].
  - repeat split.
Qed.

End Controller.

(** * The virtual neighbours *)

Section VirtualNeighbors.

Lemma length_filter_le {A} (p : A -> bool) (l : list A) :
  (length (List.filter p l) <= length l)%nat.
Proof.
  induction l as [|x l IH]; [reflexivity|]. cbn [List.filter length].
  destruct (p x); cbn [length]; lia.
Qed.

Lemma length_filter_map {A B} (g : A -> B) (p : B -> bool) (l : list A) :
  length (List.filter p (map g l)) = length (List.filter (fun x => p (g x)) l).
Proof.
  induction l as [|x l IH]; [reflexivity|]. cbn [map List.filter].
  destruct (p (g x)); cbn [length]; rewrite IH; reflexivity.
Qed.

Lemma length_filter_rev {A} (p : A -> bool) (l : list A) :
  length (List.filter p (rev l)) = length (List.filter p l).
Proof.
  induction l as [|x l IH]; [reflexivity|]. cbn [rev List.filter].
  rewrite List.filter_app, List.length_app, IH. cbn [List.filter].
  destruct (p x); cbn [length]; lia.
Qed.

(** A loop that counts into a uint32 counts the entries that pass the
    test, as long as the counter cannot wrap. *)
Lemma fold_count {A} (p : A -> bool) (l : list A) (num : Z) :
  0 <= num -> num + Z.of_nat (length l) < 4294967296 ->
  fold_left (fun n m => if p m then incr n else n) l num
  = num + Z.of_nat (length (List.filter p l)).
Proof.
  revert num. induction l as [|x l IH]; intros num H0 Hb.
  - cbn. lia.
  - cbn [fold_left List.filter]. cbn [length] in Hb.
    destruct (p x).
    + unfold incr, uint32. rewrite Z.mod_small by lia.
      rewrite IH by lia. cbn [length]. lia.
    + rewrite IH by lia. lia.
Qed.

Lemma neighbor_masks_bits :
  neighbor_masks = rev (map (fun bi => Z.shiftl 1 (Z.of_nat bi)) (seq 0 8)).
Proof. reflexivity. Qed.

(** The bits of a byte that are set, among the 8. *)
Lemma count_byte (bytes : list Z) (i : nat) (num : Z) :
  0 <= num -> num + 8 < 4294967296 ->
  fold_left
    (fun numNeighbors mask =>
       if negb (Z.land (byte_at bytes i) mask =? 0) then incr numNeighbors
       else numNeighbors)
    neighbor_masks num
  = num + Z.of_nat (length (List.filter (fun bi => neighbor_bit bytes i bi) (seq 0 8))).
Proof.
  intros H0 Hb.
  rewrite (fold_count (fun mask => negb (Z.land (byte_at bytes i) mask =? 0)))
    by (change (length neighbor_masks) with 8%nat; lia).
  rewrite neighbor_masks_bits, length_filter_rev, length_filter_map. reflexivity.
Qed.

Lemma count_bytes (bytes : list Z) (l : list nat) (num : Z) :
  0 <= num -> num + 8 * Z.of_nat (length l) < 4294967296 ->
  fold_left
    (fun numNeighbors i =>
       fold_left
         (fun numNeighbors mask =>
            if negb (Z.land (byte_at bytes i) mask =? 0) then incr numNeighbors
            else numNeighbors)
         neighbor_masks numNeighbors)
    l num
  = num
    + Z.of_nat
        (length (List.filter (fun ij => neighbor_bit bytes (fst ij) (snd ij))
                   (flat_map (fun i => map (fun j => (i, j)) (seq 0 8)) l))).
Proof.
  revert num. induction l as [|i l IH]; intros num H0 Hb.
  - cbn. lia.
  - cbn [fold_left flat_map]. cbn [length] in Hb.
    rewrite count_byte by lia.
    pose proof (length_filter_le (fun bi => neighbor_bit bytes i bi) (seq 0 8)) as Hle.
    change (length (seq 0 8)) with 8%nat in Hle.
    rewrite IH by lia.
    rewrite List.filter_app, List.length_app, length_filter_map. cbn [fst snd]. lia.
Qed.

(** The loops that fill the array write the ids of the set bits, in the
    order of the positions. *)
Lemma fill_byte (bytes : list Z) (by_ : nat) (l : list nat) (acc : list Z) :
  fold_left
    (fun neighbors bi =>
       if negb (Z.land (byte_at bytes by_) (Z.shiftl 1 (Z.of_nat bi)) =? 0)
       then neighbors ++ [uint8 (Z.shiftl (Z.of_nat by_) 3 + Z.of_nat bi + 1)]
       else neighbors)
    l acc
  = acc ++ map (fun ij => uint8 (Z.shiftl (Z.of_nat (fst ij)) 3 + Z.of_nat (snd ij) + 1))
             (List.filter (fun ij => neighbor_bit bytes (fst ij) (snd ij))
                (map (fun j => (by_, j)) l)).
Proof.
  revert acc. induction l as [|bi l IH]; intros acc.
  - cbn. rewrite app_nil_r. reflexivity.
  - cbn [fold_left map List.filter fst snd]. rewrite IH. unfold neighbor_bit at 2.
    destruct (negb (Z.land _ _ =? 0)); [|reflexivity].
    cbn [map fst snd]. rewrite <- app_assoc. reflexivity.
Qed.

Lemma fill_bytes (bytes : list Z) (l : list nat) (acc : list Z) :
  fold_left
    (fun neighbors by_ =>
       fold_left
         (fun neighbors bi =>
            if negb (Z.land (byte_at bytes by_) (Z.shiftl 1 (Z.of_nat bi)) =? 0)
            then neighbors ++ [uint8 (Z.shiftl (Z.of_nat by_) 3 + Z.of_nat bi + 1)]
            else neighbors)
         (seq 0 8) neighbors)
    l acc
  = acc ++ map (fun ij => uint8 (Z.shiftl (Z.of_nat (fst ij)) 3 + Z.of_nat (snd ij) + 1))
             (List.filter (fun ij => neighbor_bit bytes (fst ij) (snd ij))
                (flat_map (fun i => map (fun j => (i, j)) (seq 0 8)) l)).
Proof.
  revert acc. induction l as [|by_ l IH]; intros acc.
  - cbn. rewrite app_nil_r. reflexivity.
  - cbn [fold_left flat_map]. rewrite fill_byte, IH.
    rewrite List.filter_app, map_app, app_assoc. reflexivity.
Qed.

Lemma fill_neighbors_ids (bytes : list Z) : fill_neighbors bytes = neighbor_ids bytes.
Proof.
  unfold fill_neighbors, neighbor_ids. rewrite fill_bytes. cbn [app].
  change (flat_map (fun i => map (fun j => (i, j)) (seq 0 8)) (seq 0 29))
    with bitmap_positions.
  apply List.map_ext_in. intros ij Hin. apply List.filter_In in Hin.
  destruct Hin as [Hin _]. destruct (bitmap_positions_range ij Hin) as [Hi Hj].
  rewrite Z.shiftl_mul_pow2 by lia. unfold uint8. rewrite Z.mod_small; lia.
Qed.

Lemma count_neighbors_ids (bytes : list Z) :
  count_neighbors bytes = Z.of_nat (length (neighbor_ids bytes)).
Proof.
  unfold count_neighbors, neighbor_ids.
  rewrite count_bytes by (change (length (seq 0 29)) with 29%nat; lia).
  rewrite List.length_map. reflexivity.
Qed.

(** The ids of the positions ascend. *)
Lemma StronglySorted_filter {A} (R : A -> A -> Prop) (p : A -> bool) (l : list A) :
  StronglySorted R l -> StronglySorted R (List.filter p l).
Proof.
  induction 1 as [|x l Hl IH Hx]; [constructor|]. cbn [List.filter].
  destruct (p x); [|exact IH]. constructor; [exact IH|].
  apply List.Forall_forall. intros y Hy. apply List.filter_In in Hy.
  rewrite List.Forall_forall in Hx. apply Hx, Hy.
Qed.

Lemma StronglySorted_map {A} (f : A -> Z) (l : list A) :
  StronglySorted (fun x y => f x < f y) l <-> StronglySorted Z.lt (map f l).
Proof.
  induction l as [|x l IH]; cbn [map].
  - split; constructor.
  - split; intros H; apply StronglySorted_inv in H; destruct H as [Hl Hx];
      (constructor; [apply IH, Hl|]).
    + apply List.Forall_forall. intros y Hy. apply in_map_iff in Hy.
      destruct Hy as (z & <- & Hz). rewrite List.Forall_forall in Hx. apply Hx, Hz.
    + apply List.Forall_forall. intros z Hz. rewrite List.Forall_forall in Hx.
      apply Hx, in_map, Hz.
Qed.

Lemma StronglySorted_seq (a n : nat) : StronglySorted Z.lt (map Z.of_nat (seq a n)).
Proof.
  revert a. induction n as [|n IH]; intros a; cbn [seq map]; constructor; [apply IH|].
  apply List.Forall_forall. intros y Hy. apply in_map_iff in Hy.
  destruct Hy as (k & <- & Hk). apply in_seq in Hk. lia.
Qed.

Lemma bitmap_positions_ascend :
  StronglySorted
    (fun x y : nat * nat =>
       Z.of_nat (fst x) * 8 + Z.of_nat (snd x) + 1 < Z.of_nat (fst y) * 8 + Z.of_nat (snd y) + 1)
    bitmap_positions.
Proof.
  apply (StronglySorted_map
           (fun ij : nat * nat => Z.of_nat (fst ij) * 8 + Z.of_nat (snd ij) + 1)).
  replace (map (fun ij : nat * nat => Z.of_nat (fst ij) * 8 + Z.of_nat (snd ij) + 1)
             bitmap_positions)
    with (map Z.of_nat (seq 1 232)) by (vm_compute; reflexivity).
  apply StronglySorted_seq.
Qed.

(** X20. [GetVirtualNeighbors] hands out the ids of the bits that are set
    in [m_virtualNeighbors], each once and in ascending order, and returns
    how many they are: the loop that counts, which goes through the bits
    of a byte from the highest, and the loops that fill the array, which
    go from the lowest, agree, so the array is filled exactly.  Without an
    answer from the controller, or with no bit set, it returns 0 and no
    array. *)
Theorem GetVirtualNeighbors_ids (d : Driver) :
  let bytes := m_virtualNeighbors d in
  GetVirtualNeighbors false d = (0, None)
  /\ (neighbor_ids bytes = [] -> GetVirtualNeighbors true d = (0, None))
  /\ (neighbor_ids bytes <> [] ->
      GetVirtualNeighbors true d
      = (Z.of_nat (length (neighbor_ids bytes)), Some (neighbor_ids bytes)))
  /\ StronglySorted Z.lt (neighbor_ids bytes)
  /\ (forall id,
        In id (neighbor_ids bytes)
        <-> exists by_ bi : nat,
              (by_ < 29)%nat /\ (bi < 8)%nat
              /\ id = Z.of_nat by_ * 8 + Z.of_nat bi + 1
              /\ Z.land (byte_at bytes by_) (Z.shiftl 1 (Z.of_nat bi)) <> 0).
Proof.
  cbv zeta. split; [reflexivity|]. split; [|split; [|split]].
  - intros Hnil. unfold GetVirtualNeighbors. cbn [negb].
    rewrite count_neighbors_ids, Hnil. reflexivity.
  - intros Hne. unfold GetVirtualNeighbors. cbn [negb].
    rewrite count_neighbors_ids, fill_neighbors_ids.
    destruct (neighbor_ids (m_virtualNeighbors d)) as [|x l]; [congruence|].
    cbn [length]. rewrite Nat2Z.inj_succ.
    destruct (Z.succ (Z.of_nat (length l)) =? 0) eqn:E; [|reflexivity].
    apply Z.eqb_eq in E. lia.
  - unfold neighbor_ids.
    apply (StronglySorted_map
             (fun ij : nat * nat => Z.of_nat (fst ij) * 8 + Z.of_nat (snd ij) + 1)).
    apply StronglySorted_filter. exact bitmap_positions_ascend.
  - intros id. unfold neighbor_ids. rewrite in_map_iff. split.
    + intros ([by_ bi] & <- & Hin). apply List.filter_In in Hin.
      destruct Hin as [Hin Hbit]. destruct (bitmap_positions_range _ Hin) as [Hi Hj].
      cbn [fst snd] in *. exists by_, bi. repeat split; auto.
      unfold neighbor_bit in Hbit. apply negb_true_iff, Z.eqb_neq in Hbit. exact Hbit.
    + intros (by_ & bi & Hi & Hj & -> & Hbit). exists (by_, bi). split; [reflexivity|].
      apply List.filter_In. split; [apply bitmap_positions_In; assumption|].
      cbn [fst snd]. unfold neighbor_bit. apply negb_true_iff, Z.eqb_neq. exact Hbit.
Qed.

(** X21. After [HandleGetVirtualNodesResponse] the virtual neighbours are
    the 29 bytes that follow the two header bytes of the frame, and
    [GetVirtualNeighbors] then gives an id exactly when its bit is set in
    the frame; nothing else of the driver changes. *)
Theorem HandleGetVirtualNodesResponse_ids (data : list Z) (d : Driver) :
  let '(received, d') := HandleGetVirtualNodesResponse data d in
  received = true
  /\ (forall by_ : nat, (by_ < 29)%nat ->
        byte_at (m_virtualNeighbors d') by_ = byte_at data (2 + by_))
  /\ (forall by_ bi : nat,
        (by_ < 29)%nat -> (bi < 8)%nat ->
        Z.land (byte_at data (2 + by_)) (Z.shiftl 1 (Z.of_nat bi)) <> 0 ->
        exists ids, GetVirtualNeighbors received d' = (Z.of_nat (length ids), Some ids)
                    /\ In (Z.of_nat by_ * 8 + Z.of_nat bi + 1) ids)
  /\ m_nodes d' = m_nodes d
  /\ m_homeId d' = m_homeId d
  /\ m_msgQueue d' = m_msgQueue d
  /\ m_currentMsg d' = m_currentMsg d.
Proof.
  unfold HandleGetVirtualNodesResponse. split; [reflexivity|].
  assert (Hbytes : forall by_ : nat, (by_ < 29)%nat ->
            byte_at (map (fun i => byte_at data (2 + i)) (seq 0 29)) by_
            = byte_at data (2 + by_)).
  { intros by_ Hby. unfold byte_at at 1.
    rewrite (nth_indep _ 0 (byte_at data (2 + 0)))
      by (rewrite List.length_map, List.length_seq; exact Hby).
    rewrite (List.map_nth (fun i => byte_at data (2 + i)) (seq 0 29) 0%nat by_).
    rewrite seq_nth by exact Hby. reflexivity. }
  split; [exact Hbytes|]. split; [|repeat split].
  intros by_ bi Hby Hbi Hbit.
  set (d' := set_m_virtualNeighbors (map (fun i => byte_at data (2 + i)) (seq 0 29)) d).
  assert (Hin : In (Z.of_nat by_ * 8 + Z.of_nat bi + 1)
                   (neighbor_ids (m_virtualNeighbors d'))).
  { unfold neighbor_ids. apply in_map_iff. exists (by_, bi). split; [reflexivity|].
    apply List.filter_In. split; [apply bitmap_positions_In; assumption|].
    cbn [fst snd]. unfold neighbor_bit. apply negb_true_iff, Z.eqb_neq.
    unfold d'. cbn [m_virtualNeighbors set_m_virtualNeighbors].
    rewrite Hbytes by exact Hby. exact Hbit. }
  exists (neighbor_ids (m_virtualNeighbors d')). split; [|exact Hin].
  unfold GetVirtualNeighbors. cbn [negb].
  rewrite count_neighbors_ids, fill_neighbors_ids.
  destruct (neighbor_ids (m_virtualNeighbors d')) as [|x l]; [destruct Hin|].
  cbn [length]. rewrite Nat2Z.inj_succ.
  destruct (Z.succ (Z.of_nat (length l)) =? 0) eqn:E; [|reflexivity].
  apply Z.eqb_eq in E. lia.
Qed.

End VirtualNeighbors.

(** * More on the poll list *)

Section PollerMoreProperties.

Context {vs : ValueStore}.

Lemma erase_first_new (v : ValueID) (l : list ValueID) :
  ~ In v l -> erase_first v (l ++ [v]) = l.
Proof.
  induction l as [|x l IH]; intros Hv; cbn [app erase_first].
  - destruct (decide (v = v)); [reflexivity | congruence].
  - destruct (decide (x = v)) as [->|_]; [exfalso; apply Hv; left; reflexivity|].
    rewrite IH; [reflexivity|]. intros Hin. apply Hv. right. exact Hin.
Qed.

Lemma erase_first_gone (v : ValueID) (l : list ValueID) :
  List.NoDup l -> ~ In v (erase_first v l).
Proof.
  induction 1 as [|x l Hx Hl IH]; cbn [erase_first]; [tauto|].
  destruct (decide (x = v)) as [->|Hne]; [exact Hx|].
  intros [H|H]; [congruence | exact (IH H)].
Qed.

Lemma on_poll_list_false (v : ValueID) (l : list ValueID) :
  ~ In v l -> on_poll_list v l = false.
Proof.
  intros Hv. destruct (on_poll_list v l) eqn:E; [|reflexivity].
  exfalso. apply Hv, on_poll_list_In, E.
Qed.

(** X22. Enabling the poll of a value that is not polled puts it at the
    back of the poll list, and disabling it right after gives the poll
    list back as it was; [isPolled] tells the two states apart.  Disabling
    a value that is not on the list fails and changes nothing; and on a
    list without duplicates a value that has been disabled is no longer
    polled. *)
Theorem DisablePoll_EnablePoll (v : ValueID) (d : Driver) (node : Node)
    (l : list ValueID) :
  m_nodes d !! uint8 (GetNodeId v) = Some node ->
  GetValue node v = true ->
  (~ In v l ->
   EnablePoll v d l = (true, l ++ [v])
   /\ isPolled v d l = false
   /\ isPolled v d (l ++ [v]) = true
   /\ DisablePoll v d (l ++ [v]) = (true, l)
   /\ DisablePoll v d l = (false, l))
  /\ (List.NoDup l -> In v l ->
      fst (DisablePoll v d l) = true
      /\ isPolled v d (snd (DisablePoll v d l)) = false
      /\ forall x, x <> v -> (In x (snd (DisablePoll v d l)) <-> In x l)).
Proof.
  intros Hnode Hval. split.
  - intros Hv. pose proof (on_poll_list_false v l Hv) as Hoff.
    assert (Hon : on_poll_list v (l ++ [v]) = true)
      by (apply on_poll_list_In, in_or_app; right; left; reflexivity).
    unfold EnablePoll, DisablePoll, isPolled. rewrite Hnode, Hval, Hoff, Hon.
    rewrite (erase_first_new v l Hv). auto.
  - intros Hnd Hin. unfold DisablePoll, isPolled. rewrite Hnode.
    rewrite (proj2 (on_poll_list_In v l) Hin). cbn [fst snd].
    split; [reflexivity|]. split.
    + apply on_poll_list_false, erase_first_gone, Hnd.
    + intros x Hx. split; [apply erase_first_In|].
      clear Hnd Hin. induction l as [|y l IH]; cbn [erase_first]; [tauto|].
      destruct (decide (y = v)) as [->|Hne].
      * intros [H|H]; [congruence | exact H].
      * intros [H|H]; [left; exact H | right; exact (IH H)].
Qed.

(** ** The rounds of the poll thread *)

Lemma int32_small (x : Z) : -2147483648 <= x < 2147483648 -> int32 x = x.
Proof. intros H. unfold int32. rewrite Z.mod_small by lia. lia. Qed.

(** The wait of a turn for an interval that is not negative and fits the
    int32: the interval divided by the size of the list. *)
Lemma PollThread_wait (bits P n : Z) :
  32 <= bits -> 0 <= P < 2147483648 -> 0 < n ->
  int32 (size_t bits (int32 P) / n) = P / n.
Proof.
  intros Hb HP Hn. rewrite (int32_small P) by lia. unfold size_t.
  assert (H32 : 2 ^ 32 <= 2 ^ bits) by (apply Z.pow_le_mono_r; lia).
  change (2 ^ 32) with 4294967296 in H32.
  rewrite (Z.mod_small P) by lia.
  assert (Hq : 0 <= P / n <= P).
  { split; [apply Z.div_pos; lia|]. apply Z.div_le_upper_bound; [lia|]. nia. }
  apply int32_small. lia.
Qed.

Lemma PollThread_turns_rotate (bits : Z) (d : Driver) (k : nat) (l : list ValueID) :
  32 <= bits ->
  0 <= m_pollInterval d * 1000 < 2147483648 ->
  m_awakeNodesQueried d = true ->
  (k <= length l)%nat ->
  PollThread_turns bits k d l
  = (firstn k l,
     Z.of_nat k * (m_pollInterval d * 1000 / Z.of_nat (length l)),
     skipn k l ++ firstn k l).
Proof.
  intros Hb HP Haw. revert l. induction k as [|k IH]; intros l Hk.
  - cbn [PollThread_turns firstn skipn]. rewrite app_nil_r. reflexivity.
  - destruct l as [|v rest]; [cbn in Hk; lia|]. cbn [length] in Hk.
    cbn [PollThread_turns]. unfold PollThread_turn. rewrite Haw. cbv zeta.
    assert (Hlen : length (rest ++ [v]) = S (length rest))
      by (rewrite List.length_app; cbn [length]; lia).
    rewrite IH by lia. rewrite Hlen. cbn [length firstn skipn].
    rewrite PollThread_wait by lia.
    rewrite firstn_app, skipn_app.
    replace (k - length rest)%nat with 0%nat by lia.
    cbn [firstn skipn]. rewrite app_nil_r, <- app_assoc. cbn [app].
    f_equal. f_equal. lia.
Qed.

(** X23. A round of the poll thread, for a poll interval that is not
    negative and whose product with 1000 fits the int32 [pollInterval]
    (0 to 2147483 seconds), on a platform whose [size_t] has at least 32
    bits: with [n] values on the poll list and the awake nodes queried, [n]
    turns of the thread take the values in the order of the list, each
    once, and leave the list as it was; the thread waits the interval in
    milliseconds divided by [n] after each, so the round takes no longer
    than the poll interval and less than [n] milliseconds under it. *)
Theorem PollThread_round (bits : Z) (d : Driver) (l : list ValueID) :
  32 <= bits ->
  l <> [] ->
  m_awakeNodesQueried d = true ->
  0 <= m_pollInterval d * 1000 < 2147483648 ->
  let n := length l in
  let '(polled, waited, l') := PollThread_turns bits n d l in
  polled = l
  /\ l' = l
  /\ waited = Z.of_nat n * (m_pollInterval d * 1000 / Z.of_nat n)
  /\ m_pollInterval d * 1000 - Z.of_nat n < waited <= m_pollInterval d * 1000.
Proof.
  intros Hb Hne Haw Hp. cbv zeta.
  rewrite (PollThread_turns_rotate bits d (length l) l Hb Hp Haw) by lia.
  rewrite firstn_all, skipn_all. cbn [app].
  split; [reflexivity|]. split; [reflexivity|]. split; [reflexivity|].
  assert (Hn : 0 < Z.of_nat (length l)) by (destruct l; [congruence | cbn [length]; lia]).
  pose proof (Z.mul_div_le (m_pollInterval d * 1000) (Z.of_nat (length l)) Hn).
  pose proof (Z.mul_succ_div_gt (m_pollInterval d * 1000) (Z.of_nat (length l)) Hn).
  lia.
Qed.

(** ** The mutexes *)

(** X24. [DisablePoll] and [isPolled] unlock every mutex they lock, on
    every path.  [EnablePoll] does so exactly when it returns true: when
    the node is not in the table it returns with [m_pollMutex] still
    locked, and when the node has no such value it returns with the node
    mutex still locked. *)
Theorem poll_mutexes (v : ValueID) (d : Driver) (l : list ValueID) :
  (forall m, held m (DisablePoll_mutex v d l) = 0)
  /\ (forall m, held m (isPolled_mutex v d l) = 0)
  /\ (fst (EnablePoll v d l) = true <-> forall m, held m (EnablePoll_mutex v d l) = 0)
  /\ (m_nodes d !! uint8 (GetNodeId v) = None ->
      held m_pollMutex (EnablePoll_mutex v d l) = 1
      /\ held m_nodeMutex (EnablePoll_mutex v d l) = 0)
  /\ (forall node, m_nodes d !! uint8 (GetNodeId v) = Some node -> GetValue node v = false ->
        held m_pollMutex (EnablePoll_mutex v d l) = 0
        /\ held m_nodeMutex (EnablePoll_mutex v d l) = 1).
Proof.
  unfold DisablePoll_mutex, isPolled_mutex, EnablePoll_mutex, EnablePoll, GetNode_mutex.
  destruct (m_nodes d !! uint8 (GetNodeId v)) as [node|].
  - split; [intros m; destruct (on_poll_list v l), m; reflexivity|].
    split; [intros m; destruct (on_poll_list v l), m; reflexivity|].
    split; [|split; [discriminate|]].
    + destruct (GetValue node v); destruct (on_poll_list v l); cbn [fst]; split.
      all: try (intros _ m; destruct m; reflexivity).
      all: try reflexivity.
      all: try discriminate.
      all: intros H; specialize (H m_nodeMutex); cbn in H; discriminate H.
    + intros node' Hn Hv. injection Hn as <-. rewrite Hv. split; reflexivity.
  - split; [intros m; destruct m; reflexivity|].
    split; [intros m; destruct m; reflexivity|].
    split; [|split; [intros _; split; reflexivity | discriminate]].
    cbn [fst]. split; [discriminate|].
    intros H. specialize (H m_pollMutex). cbn in H. discriminate H.
Qed.

End PollerMoreProperties.

(** * Opening the controller *)

Section RetrySchedule.

Lemma Init_failures_from (n a : nat) (maxAttempts : Z) :
  0 <= maxAttempts ->
  Z.of_nat a + Z.of_nat n < 4294967296 ->
  maxAttempts = 0 \/ Z.of_nat a < maxAttempts ->
  Init_failures n maxAttempts (Z.of_nat a)
  = if negb (maxAttempts =? 0) && (maxAttempts <=? Z.of_nat a + Z.of_nat n)
    then (map retry_wait (seq (S a) (Z.to_nat maxAttempts - a - 1)), true)
    else (map retry_wait (seq (S a) n), false).
Proof.
  intros HM. revert a. induction n as [|n IH]; intros a Hb Ha.
  - cbn [Init_failures seq map].
    destruct (maxAttempts =? 0) eqn:E0; [reflexivity|]. cbn [negb andb].
    apply Z.eqb_neq in E0.
    destruct (maxAttempts <=? Z.of_nat a + Z.of_nat 0) eqn:E1; [|reflexivity].
    apply Z.leb_le in E1. lia.
  - cbn [Init_failures]. unfold Init_failed, incr, uint32.
    rewrite Z.mod_small by lia. cbv zeta.
    replace (Z.of_nat a + 1) with (Z.of_nat (S a)) by lia.
    destruct (maxAttempts =? 0) eqn:E0; cbn [negb andb].
    + destruct (Z.of_nat (S a) <? 25) eqn:E25; cbv iota; rewrite IH by lia;
        rewrite ?E0; cbn [negb andb seq map]; unfold retry_wait at 2;
        rewrite E25; reflexivity.
    + apply Z.eqb_neq in E0.
      destruct (maxAttempts <=? Z.of_nat (S a)) eqn:E1.
      * apply Z.leb_le in E1. cbv iota.
        replace (maxAttempts <=? Z.of_nat a + Z.of_nat (S n)) with true
          by (symmetry; apply Z.leb_le; lia).
        replace (Z.to_nat maxAttempts - a - 1)%nat with 0%nat by lia. reflexivity.
      * apply Z.leb_gt in E1.
        replace (Z.of_nat a + Z.of_nat (S n)) with (Z.of_nat (S a) + Z.of_nat n) by lia.
        destruct (Z.of_nat (S a) <? 25) eqn:E25; cbv iota; rewrite IH by lia;
          rewrite ?(proj2 (Z.eqb_neq _ _) E0); cbn [negb andb];
          (destruct (maxAttempts <=? Z.of_nat (S a) + Z.of_nat n);
           [replace (Z.to_nat maxAttempts - a - 1)%nat
              with (S (Z.to_nat maxAttempts - S a - 1)) by lia|];
           cbn [seq map]; unfold retry_wait at 2; rewrite E25; reflexivity).
Qed.

(** X25. When [Init] keeps failing, the driver thread calls it again after
    5 seconds as long as fewer than 25 calls have failed, which makes two
    minutes in all, and after 30 seconds from then on.  With the option
    DriverMaxAttempts at 0 it never gives up; with the option at [m] it
    gives up at the [m]-th failure, having waited [m - 1] times. *)
Theorem Init_retry_schedule (maxAttempts : Z) (n : nat) :
  0 <= maxAttempts < 4294967296 ->
  Z.of_nat n < 4294967296 ->
  (maxAttempts = 0 \/ Z.of_nat n < maxAttempts ->
   Init_failures n maxAttempts 0 = (map retry_wait (seq 1 n), false))
  /\ (0 < maxAttempts <= Z.of_nat n ->
      Init_failures n maxAttempts 0
      = (map retry_wait (seq 1 (Z.to_nat maxAttempts - 1)), true))
  /\ (forall k : nat, retry_wait k = 5000 <-> (k < 25)%nat)
  /\ fold_right Z.add 0 (map retry_wait (seq 1 24)) = 120000.
Proof.
  intros HM Hn.
  assert (H : Init_failures n maxAttempts (Z.of_nat 0)
              = if negb (maxAttempts =? 0) && (maxAttempts <=? Z.of_nat 0 + Z.of_nat n)
                then (map retry_wait (seq 1 (Z.to_nat maxAttempts - 0 - 1)), true)
                else (map retry_wait (seq 1 n), false)).
  { destruct (Z.eq_dec maxAttempts 0) as [H0|H0].
    - apply Init_failures_from; [lia | lia | left; exact H0].
    - apply Init_failures_from; [lia | lia | right; lia]. }
  change (Z.of_nat 0) with 0 in H. rewrite Z.add_0_l, Nat.sub_0_r in H.
  split; [|split; [|split]].
  - intros Hc. rewrite H. destruct (maxAttempts =? 0) eqn:E0; [reflexivity|].
    apply Z.eqb_neq in E0. cbn [negb andb].
    replace (maxAttempts <=? Z.of_nat n) with false; [reflexivity|].
    symmetry. apply Z.leb_gt. lia.
  - intros Hc. rewrite H. replace (maxAttempts =? 0) with false
      by (symmetry; apply Z.eqb_neq; lia).
    replace (maxAttempts <=? Z.of_nat n) with true by (symmetry; apply Z.leb_le; lia).
    reflexivity.
  - intros k. unfold retry_wait. destruct (Z.of_nat k <? 25) eqn:E.
    + apply Z.ltb_lt in E. split; [lia | reflexivity].
    + apply Z.ltb_ge in E. split; [discriminate | lia].
  - reflexivity.
Qed.

End RetrySchedule.

(** * The further properties on the sample states *)

(** A message submitted for the awake node 7 leaves the events of the
    queues matching the queues. *)
Lemma queue_events_match_witness :
  events_match (SendMsg (ext := plain_ext) msg7a MsgQueue_Send (driver_with_sleeper true)).
Proof.
  apply (queue_events_match (ext := plain_ext) (driver_with_sleeper true)).
  - intros n s x Hx. exact Hx.
  - intros q. destruct q; reflexivity.
  - apply (reach_step (ext := plain_ext) _ _ _ (reach_start _)
             (step_SendMsg _ msg7a MsgQueue_Send)).
Defined.

(** The ACK of the written SEND_DATA frame: the driver no longer waits for
    the ACK and keeps the message, whose callback is still to come. *)
Lemma ReadMsg_ack_witness :
  exists d',
    ReadMsg (ext := plain_ext) (Some ACK) LengthTimeout sent_state = Some (true, d')
    /\ m_waitingForAck d' = false
    /\ m_currentMsg d' = m_currentMsg sent_state.
Proof.
  destruct (ReadMsg_ack (ext := plain_ext) LengthTimeout sent_state)
    as (d' & Hr & Hw & _ & _ & _ & _ & Hk).
  destruct Hk as (Hc & _); [left; vm_compute; discriminate|].
  exists d'. split; [exact Hr|]. split; [exact Hw | exact Hc].
Defined.

(** A NAK while the SEND_DATA frame waits for its ACK: the frame is written
    a second time. *)
Lemma ReadMsg_nak_can_witness :
  exists d',
    ReadMsg (ext := plain_ext) (Some NAK) LengthTimeout sent_state = Some (true, d')
    /\ m_written d'
       = m_written sent_state ++ [m_buffer (SetSendAttempts 1 send_data_msg)].
Proof.
  destruct (ReadMsg_nak_can (ext := plain_ext) NAK LengthTimeout sent_state
              (or_introl eq_refl)) as (d' & Hr & H & _).
  exists d'. split; [exact Hr|].
  destruct (H (SetSendAttempts 1 send_data_msg)) as (Hw & _).
  - vm_compute. reflexivity.
  - vm_compute. reflexivity.
  - exact Hw.
Defined.

(** A SOF with nothing behind it while the SEND_DATA frame waits for its
    ACK: one abort, and the message stays. *)
Lemma ReadMsg_frame_timeout_witness :
  exists d',
    ReadMsg (ext := plain_ext) (Some SOF) LengthTimeout sent_state = Some (true, d')
    /\ m_readAborts (m_stats d') = incr (m_readAborts (m_stats sent_state))
    /\ m_currentMsg d' = m_currentMsg sent_state.
Proof.
  destruct (ReadMsg_frame_timeout (ext := plain_ext) LengthTimeout sent_state
              (or_introl eq_refl)) as (_ & d' & Hr & Ha & _ & Hc & _).
  exists d'. split; [exact Hr|]. split; [exact Ha | exact Hc].
Defined.

(** The byte 0x42 out of frame is answered with a NAK. *)
Lemma ReadMsg_out_of_frame_witness :
  exists d',
    ReadMsg (ext := plain_ext) (Some 0x42) LengthTimeout (fresh_driver 0x0184f0a3 1)
    = Some (true, d')
    /\ m_written d' = m_written (fresh_driver 0x0184f0a3 1) ++ [[NAK]].
Proof.
  destruct (ReadMsg_out_of_frame (ext := plain_ext) 0x42 LengthTimeout
              (fresh_driver 0x0184f0a3 1)) as (d' & Hr & Hw & _).
  - vm_compute. discriminate.
  - vm_compute. discriminate.
  - vm_compute. discriminate.
  - vm_compute. discriminate.
  - exists d'. split; [exact Hr | exact Hw].
Defined.

(** The frame 01 03 00 15 E9 passes the checksum; with 16 for 15 it does
    not. *)
Lemma ReadMsg_detects_changed_byte_witness :
  frame_ok 3 ([0x00] ++ 0x15 :: [0xe9]) = true
  /\ frame_ok 3 ([0x00] ++ 0x16 :: [0xe9]) = false.
Proof.
  split; [vm_compute; reflexivity|].
  apply (ReadMsg_detects_changed_byte (ext := plain_ext) (fresh_driver 0x0184f0a3 1)
           3 0x15 0x16 [0x00] [0xe9]).
  - reflexivity.
  - vm_compute. reflexivity.
  - vm_compute. discriminate.
Defined.

(** The items of node 7 are moved, and moving them again changes nothing;
    with a marker of node 7 on the Query queue the call has no defined
    result. *)
Lemma MoveMessagesToWakeUpQueue_twice_witness :
  (exists d1,
     MoveMessagesToWakeUpQueue (ext := plain_ext) 7 sleeper_state = Some (true, d1)
     /\ MoveMessagesToWakeUpQueue (ext := plain_ext) 7 d1 = Some (true, d1))
  /\ m_msgQueue sleeper_state_marker
     = qset MsgQueue_Query
         [MsgQueueCmd_QueryStageComplete 7 QueryStage_ProtocolInfo]
         (m_msgQueue sleeper_state)
  /\ MoveMessagesToWakeUpQueue (ext := plain_ext) 7 sleeper_state_marker = None.
Proof.
  split; [|split; [vm_compute; reflexivity|]].
  - destruct (MoveMessagesToWakeUpQueue_twice (ext := plain_ext) 7 sleeper_state)
      as (_ & H); [vm_compute; reflexivity|].
    destruct H as (d1 & H1 & H2 & _); [vm_compute; reflexivity|].
    exists d1. split; [exact H1 | exact H2].
  - destruct (MoveMessagesToWakeUpQueue_twice (ext := plain_ext) 7 sleeper_state_marker)
      as (H & _); [vm_compute; reflexivity|].
    apply H. vm_compute. reflexivity.
Defined.

(** Node 7 is created again in its occupied slot: NodeRemoved, then
    NodeAdded. *)
Lemma InitNode_slot_witness :
  m_notifications (InitNode (ext := plain_ext) 7 (driver_with_sleeper true))
  = m_notifications (driver_with_sleeper true)
    ++ [mkNotification Type_NodeRemoved (m_homeId (driver_with_sleeper true)) 7;
        mkNotification Type_NodeAdded (m_homeId (driver_with_sleeper true)) 7].
Proof.
  pose proof (InitNode_slot (ext := plain_ext) 7 (driver_with_sleeper true)) as H.
  cbv zeta in H. destruct H as (_ & _ & _ & H).
  apply H. vm_compute. eexists. reflexivity.
Defined.

(** With no node in the table the first check reports all nodes queried. *)
Lemma CheckCompletedNodeQueries_idempotent_witness :
  m_notifications (CheckCompletedNodeQueries (fresh_driver 0x0184f0a3 1))
  = m_notifications (fresh_driver 0x0184f0a3 1)
    ++ [mkNotification Type_AllNodesQueried (m_homeId (fresh_driver 0x0184f0a3 1)) 0xff].
Proof.
  destruct (CheckCompletedNodeQueries_idempotent (fresh_driver 0x0184f0a3 1))
    as (_ & _ & H).
  apply H; reflexivity.
Defined.

(** The snapshot has the nodes 2, 5 and 7 and the bitmap the bits of 2, 5
    and 9: node 9 is in the table afterwards and node 7 is not. *)
Lemma InitData_table_is_bitmap_witness :
  let ext := sample_ext (Some snapshot_2_5_7) (fun _ => false) in
  let d' := HandleSerialAPIGetInitDataResponse init_data_2_5_9 (fresh_driver 0x0184f0a3 1) in
  is_Some (m_nodes d' !! (Z.of_nat 1 * 8 + Z.of_nat 0 + 1))
  /\ ~ is_Some (m_nodes d' !! (Z.of_nat 0 * 8 + Z.of_nat 6 + 1)).
Proof.
  cbv zeta.
  pose proof (InitData_table_is_bitmap
                (ext := sample_ext (Some snapshot_2_5_7) (fun _ => false))
                init_data_2_5_9 (fresh_driver 0x0184f0a3 1) eq_refl) as H.
  cbv zeta in H. destruct H as (H & _).
  split.
  - apply (H 1%nat 0%nat); [lia | lia | reflexivity | vm_compute; reflexivity].
  - intros Hs. apply (H 0%nat 6%nat) in Hs; [|lia | lia | reflexivity].
    vm_compute in Hs. discriminate Hs.
Defined.

(** A later response with the bit of node 2 set leaves node 2 as it is. *)
Lemma InitData_later_response_witness :
  m_nodes (HandleSerialAPIGetInitDataResponse (ext := plain_ext) init_data_2_5_9
             ready_driver) !! (Z.of_nat 0 * 8 + Z.of_nat 1 + 1)
  = Some (mains_node 2).
Proof.
  pose proof (InitData_later_response (ext := plain_ext) init_data_2_5_9 ready_driver
                0%nat 1%nat eq_refl eq_refl) as H.
  cbv zeta in H. destruct H as (H & _); [lia | lia |].
  apply H; vm_compute; reflexivity.
Defined.

(** A callback with the id 0x0b while 0x0a is expected does not close the
    transaction. *)
Lemma ProcessMsg_callback_facts_witness :
  m_currentMsg (ProcessMsg_callback (ext := plain_ext) no_ack_callback sent_state)
  = m_currentMsg sent_state.
Proof.
  pose proof (ProcessMsg_callback_facts (ext := plain_ext) no_ack_callback sent_state) as H.
  cbv zeta in H. destruct H as (_ & _ & _ & _ & _ & _ & _ & _ & H).
  destruct H as (H & _).
  - vm_compute. discriminate.
  - vm_compute. discriminate.
  - exact H.
Defined.

(** The callback of a message that asked for no reply: the driver stops
    waiting and the message is still the current one. *)
Lemma ProcessMsg_send_data_ok_witness :
  exists d',
    ProcessMsg (ext := plain_ext) ok_callback no_reply_state = Some d'
    /\ m_currentMsg d' = m_currentMsg no_reply_state
    /\ waiting d' = m_waitingForAck no_reply_state.
Proof.
  destruct (ProcessMsg_send_data_ok (ext := plain_ext) ok_callback no_reply_state
              eq_refl eq_refl eq_refl eq_refl eq_refl eq_refl) as (d' & Hp & H & _).
  destruct H as (_ & Hc & _ & Hw); [reflexivity|].
  exists d'. split; [exact Hp|]. split; [exact Hc | exact Hw].
Defined.

(** The NO_ACK callback of the message in flight for node 7 while a marker
    of node 7 is on the Query queue. *)
Lemma send_data_no_ack_marker_witness :
  marker_queued 7 sleeper_state_marker = true
  /\ HandleSendDataRequest (ext := plain_ext) no_ack_callback false sleeper_state_marker
     = None
  /\ ProcessMsg (ext := plain_ext) no_ack_callback sleeper_state_marker = None.
Proof.
  assert (Hm : marker_queued 7 sleeper_state_marker = true) by (vm_compute; reflexivity).
  split; [exact Hm|].
  destruct (send_data_no_ack_marker (ext := plain_ext) no_ack_callback
              sleeper_state_marker (SetSendAttempts 1 msg7a))
    as (Hh & Hp & _).
  - reflexivity.
  - reflexivity.
  - vm_compute. reflexivity.
  - reflexivity.
  - discriminate.
  - vm_compute. reflexivity.
  - vm_compute. reflexivity.
  - exact Hm.
  - split; [exact Hh | exact Hp].
Defined.

(** The NO_ACK callback of the SEND_DATA message for node 5, which is not a
    sleeping node: nothing is written again and the callback is no longer
    expected. *)
Lemma send_data_no_ack_not_sleeper_witness :
  exists d',
    ProcessMsg (ext := plain_ext) no_ack_callback_0a sent_state = Some d'
    /\ m_written d' = m_written sent_state
    /\ m_expectedCallbackId d' = 0.
Proof.
  destruct (send_data_no_ack_not_sleeper (ext := plain_ext) no_ack_callback_0a
              sent_state (SetSendAttempts 1 send_data_msg))
    as (_ & d' & Hp & Hw & _ & He & _).
  - reflexivity.
  - reflexivity.
  - vm_compute. reflexivity.
  - vm_compute. discriminate.
  - reflexivity.
  - discriminate.
  - vm_compute. reflexivity.
  - vm_compute. reflexivity.
  - exists d'. split; [exact Hp|]. split; [exact Hw | exact He].
Defined.

(** A message for the awake node 7, submitted on the empty Send queue and
    dequeued at once, is the message written. *)
Lemma SendMsg_WriteNextMsg_witness :
  WriteNextMsg (ext := plain_ext) MsgQueue_Send
    (SendMsg (ext := plain_ext) msg7a MsgQueue_Send (driver_with_sleeper true))
  = Some (WriteMsg (set_m_currentMsg (Some (Finalize (External := plain_ext) msg7a))
                      (driver_with_sleeper true))).
Proof.
  pose proof (SendMsg_WriteNextMsg (ext := plain_ext) msg7a MsgQueue_Send
                (driver_with_sleeper true)) as H.
  cbv zeta in H. destruct H as (_ & _ & H & _).
  - intros (node & w & Hn & _ & Hw & Ha). vm_compute in Hn.
    injection Hn as <-. vm_compute in Hw. injection Hw as <-. discriminate Ha.
  - apply H; reflexivity.
Defined.

(** The marker of node 9, which is not in the table, is dropped. *)
Lemma SendQueryStageComplete_queue_witness :
  SendQueryStageComplete 9 QueryStage_NodeInfo MsgQueue_Send
    (fresh_driver 0x0184f0a3 1)
  = fresh_driver 0x0184f0a3 1.
Proof.
  destruct (SendQueryStageComplete_queue (ext := plain_ext) 9 QueryStage_NodeInfo
              MsgQueue_Send (fresh_driver 0x0184f0a3 1)) as (_ & H).
  destruct H as (H & _); [reflexivity | exact H].
Defined.

(** The snapshot with the nodes 2, 5 and 7 is accepted and queues three
    NodeAdded. *)
Lemma ReadConfig_accepted_witness :
  let ext := sample_ext (Some snapshot_2_5_7) (fun _ => false) in
  fst (ReadConfig (fresh_driver 0x0184f0a3 1)) = true
  /\ m_notifications (snd (ReadConfig (fresh_driver 0x0184f0a3 1)))
     = m_notifications (fresh_driver 0x0184f0a3 1)
       ++ map (mkNotification Type_NodeAdded (m_homeId (fresh_driver 0x0184f0a3 1)))
            (snapshot_node_ids snapshot_2_5_7).
Proof.
  cbv zeta.
  pose proof (ReadConfig_accepted (ext := sample_ext (Some snapshot_2_5_7) (fun _ => false))
                (fresh_driver 0x0184f0a3 1) snapshot_2_5_7 eq_refl) as H.
  cbv zeta in H. destruct H as (Hf & Hn & _).
  - intros [H|[(v & H & Hne)|[H|[(h & H & Hne)|[H|(n & H & Hne)]]]]];
      vm_compute in H; try discriminate H;
      injection H as <-; apply Hne; reflexivity.
  - split; [exact Hf | exact Hn].
Defined.

(** The turn that dequeues the SEND_DATA message leaves no notification
    queued. *)
Lemma DriverThread_turn_notifications_witness :
  match DriverThread_turn (ext := plain_ext) (Wait_Queue MsgQueue_Send)
          driver_with_send_data with
  | Some (ns, d') =>
      m_notifications d' = []
      /\ exists more, ns = m_notifications driver_with_send_data ++ more
  | None => False
  end.
Proof.
  destruct (DriverThread_turn (ext := plain_ext) (Wait_Queue MsgQueue_Send)
              driver_with_send_data) as [[ns d']|] eqn:E.
  - apply (DriverThread_turn_notifications (ext := plain_ext)
             (Wait_Queue MsgQueue_Send) driver_with_send_data d' ns).
    + intros frame x. exists []. rewrite app_nil_r. reflexivity.
    + intros n s x. exists []. rewrite app_nil_r. reflexivity.
    + exact E.
  - vm_compute in E. discriminate E.
Defined.

(** The turn that reads the SEND_DATA response while the ACK is awaited
    keeps the statistics adding up, and the two dead counters at 0. *)
Lemma DriverThread_turn_statistics_witness :
  match DriverThread_turn (ext := plain_ext) (Wait_Data (Some SOF) send_data_response)
          sent_state with
  | Some (ns, d') =>
      uint32 (frames_gap d') = uint32 (frames_gap sent_state)
      /\ uint32 (writes_gap d') = uint32 (writes_gap sent_state)
      /\ m_dropped (m_stats d') = m_dropped (m_stats sent_state)
      /\ m_retries (m_stats d') = m_retries (m_stats sent_state)
      /\ m_controllerReadCnt (m_stats d') = m_controllerReadCnt (m_stats sent_state)
  | None => False
  end.
Proof.
  destruct (DriverThread_turn (ext := plain_ext) (Wait_Data (Some SOF) send_data_response)
              sent_state) as [[ns d']|] eqn:E.
  - apply (DriverThread_turn_statistics (ext := plain_ext)
             (Wait_Data (Some SOF) send_data_response) sent_state d' ns).
    + intros frame x. split; reflexivity.
    + intros n s x. split; reflexivity.
    + exact E.
  - vm_compute in E. discriminate E.
Defined.

(** The answer 01 84 F0 A3 gives the home id 0x0184f0a3. *)
Lemma HandleMemoryGetIdResponse_home_id_witness :
  m_homeId (HandleMemoryGetIdResponse memory_id_response (fresh_driver 0 0))
  = byte_at memory_id_response 2 * 2 ^ 24 + byte_at memory_id_response 3 * 2 ^ 16
    + byte_at memory_id_response 4 * 2 ^ 8 + byte_at memory_id_response 5
  /\ 0x0184f0a3
     = byte_at memory_id_response 2 * 2 ^ 24 + byte_at memory_id_response 3 * 2 ^ 16
       + byte_at memory_id_response 4 * 2 ^ 8 + byte_at memory_id_response 5.
Proof.
  split; [|reflexivity].
  pose proof (HandleMemoryGetIdResponse_home_id memory_id_response (fresh_driver 0 0)) as H.
  cbv zeta in H. destruct H as (H & _).
  - intros i. do 7 (destruct i as [|i]; [vm_compute; split; [discriminate | reflexivity]|]).
    destruct i; vm_compute; (split; [discriminate | reflexivity]).
  - exact H.
Defined.

(** The bits of the nodes 2 and 5: two neighbours, 2 and 5. *)
Lemma GetVirtualNeighbors_ids_witness :
  let d := set_m_virtualNeighbors [0x12] (fresh_driver 0x0184f0a3 1) in
  GetVirtualNeighbors true d
  = (Z.of_nat (length (neighbor_ids (m_virtualNeighbors d))),
     Some (neighbor_ids (m_virtualNeighbors d)))
  /\ neighbor_ids (m_virtualNeighbors d) = [2; 5].
Proof.
  cbv zeta. split; [|vm_compute; reflexivity].
  pose proof (GetVirtualNeighbors_ids
                (set_m_virtualNeighbors [0x12] (fresh_driver 0x0184f0a3 1))) as H.
  cbv zeta in H. destruct H as (_ & _ & H & _).
  apply H. vm_compute. discriminate.
Defined.

(** After the answer with the bits of the nodes 2 and 5, node 5 is among
    the virtual neighbours. *)
Lemma HandleGetVirtualNodesResponse_ids_witness :
  exists ids,
    GetVirtualNeighbors true
      (snd (HandleGetVirtualNodesResponse virtual_nodes_2_5 (fresh_driver 0x0184f0a3 1)))
    = (Z.of_nat (length ids), Some ids)
    /\ In (Z.of_nat 0 * 8 + Z.of_nat 4 + 1) ids.
Proof.
  pose proof (HandleGetVirtualNodesResponse_ids virtual_nodes_2_5
                (fresh_driver 0x0184f0a3 1)) as H.
  unfold HandleGetVirtualNodesResponse in H. destruct H as (_ & _ & H & _).
  apply (H 0%nat 4%nat); [lia | lia | vm_compute; discriminate].
Defined.

(** A third value of node 5 is enabled and disabled again. *)
Lemma DisablePoll_EnablePoll_witness :
  EnablePoll (vs := sample_values) 0x05000003 polling_driver [0x05000001; 0x05000002]
  = (true, [0x05000001; 0x05000002] ++ [0x05000003])
  /\ DisablePoll (vs := sample_values) 0x05000003 polling_driver
       ([0x05000001; 0x05000002] ++ [0x05000003])
     = (true, [0x05000001; 0x05000002]).
Proof.
  destruct (DisablePoll_EnablePoll (vs := sample_values) 0x05000003 polling_driver
              (mains_node 5) [0x05000001; 0x05000002]) as (H & _).
  - reflexivity.
  - reflexivity.
  - destruct H as (He & _ & _ & Hd & _).
    + intros [H|[H|[]]]; discriminate H.
    + split; [exact He | exact Hd].
Defined.

(** Three values and a poll interval of 30 seconds, with a [size_t] of 64
    bits: a round polls the three in order and takes 30 seconds. *)
Lemma PollThread_round_witness :
  let l := [0x05000001; 0x05000002; 0x05000003] in
  let n := length l in
  let '(polled, waited, l') :=
    PollThread_turns (vs := sample_values) 64 n polling_driver l in
  polled = l
  /\ l' = l
  /\ waited = Z.of_nat n * (m_pollInterval polling_driver * 1000 / Z.of_nat n)
  /\ m_pollInterval polling_driver * 1000 - Z.of_nat n < waited
     <= m_pollInterval polling_driver * 1000.
Proof.
  apply (PollThread_round (vs := sample_values) 64 polling_driver
           [0x05000001; 0x05000002; 0x05000003]).
  - vm_compute. discriminate.
  - discriminate.
  - reflexivity.
  - vm_compute. split; [discriminate | reflexivity].
Defined.

(** Enabling the poll of a value of node 9, which is not in the table,
    returns with the poll mutex locked. *)
Lemma poll_mutexes_witness :
  held m_pollMutex (EnablePoll_mutex (vs := sample_values) 0x09000001 polling_driver []) = 1.
Proof.
  destruct (poll_mutexes (vs := sample_values) 0x09000001 polling_driver [])
    as (_ & _ & _ & H & _).
  destruct H as (H & _); [reflexivity | exact H].
Defined.

(** With DriverMaxAttempts at 3 the thread gives up at the third failure,
    after two waits of 5 seconds. *)
Lemma Init_retry_schedule_witness :
  Init_failures 5 3 0 = (map retry_wait (seq 1 (Z.to_nat 3 - 1)), true)
  /\ map retry_wait (seq 1 (Z.to_nat 3 - 1)) = [5000; 5000].
Proof.
  split; [|reflexivity].
  destruct (Init_retry_schedule 3 5) as (_ & H & _); [lia | lia |].
  apply H. lia.
Defined.
